(** * Appointment actions of dentwise: booking, slots, listing, status, user sync

    A shallow embedding of the server actions in [src/lib/actions]
    (the appointment actions and [users.ts]) together with the pieces of
    the JavaScript runtime and of the Prisma client they rely on.

    Server actions are [async] functions: every [await] is a point where
    the request is suspended and another request may run.  A program is
    therefore a tree whose nodes are the awaited operations ([Prog]); the
    tree is run against a [World] that holds the three tables, the
    caller's session, the console and a log of the persistence calls. *)

From Stdlib Require Import ZArith List String Ascii Bool Lia Sorted Permutation.
Import ListNotations.
Open Scope string_scope.
Open Scope Z_scope.

(** ** JavaScript strings

    A string is a sequence of code units; the code units of this model
    are the ones below 256. *)

Module JsString.

(** ECMAScript WhiteSpace and LineTerminator code units below 256:
    TAB, LF, VT, FF, CR, SP and NBSP. *)
Definition is_whitespace (c : ascii) : bool :=
  let n := nat_of_ascii c in
  (Nat.eqb n 9 || Nat.eqb n 10 || Nat.eqb n 11 || Nat.eqb n 12
   || Nat.eqb n 13 || Nat.eqb n 32 || Nat.eqb n 160)%bool.

Fixpoint trimStart (s : string) : string :=
  match s with
  | EmptyString => EmptyString
  | String c s' => if is_whitespace c then trimStart s' else s
  end.

Definition reverse (s : string) : string :=
  string_of_list_ascii (List.rev (list_ascii_of_string s)).

Definition trimEnd (s : string) : string :=
  reverse (trimStart (reverse s)).

(** [String.prototype.trim] *)
Definition trim (s : string) : string := trimEnd (trimStart s).

(** [s.split(sep)] for a separator of one code unit. *)
Fixpoint split (sep : ascii) (s : string) : list string :=
  match s with
  | EmptyString => [EmptyString]
  | String c s' =>
      if Ascii.eqb c sep then EmptyString :: split sep s'
      else match split sep s' with
           | [] => [String c EmptyString]
           | piece :: pieces => String c piece :: pieces
           end
  end.

(** [a[0]] on an array of strings; [None] is [undefined]. *)
Definition first (a : list string) : option string := List.hd_error a.

(** [x || d] on [string | null | undefined]: the empty string is
    falsy as well. *)
Definition or_default (x : option string) (d : string) : string :=
  match x with
  | Some s => if (s =? "")%string then d else s
  | None => d
  end.

(** [!x] on [string | null | undefined]. *)
Definition falsy (x : option string) : bool :=
  match x with
  | None => true
  | Some s => (s =? "")%string
  end.

Fixpoint contains (c : ascii) (s : string) : bool :=
  match s with
  | EmptyString => false
  | String c' s' => (Ascii.eqb c' c || contains c s')%bool
  end.

End JsString.

(** ** JavaScript dates

    A [Date] holds a time value: milliseconds since the epoch, UTC.
    [None] is the Invalid Date. *)

Module JsDate.

Definition msPerDay : Z := 86400000.

(** The time value of a [Date] that is not the Invalid Date lies
    within 100,000,000 days of the epoch. *)
Definition maxTime : Z := 8640000000000000.

(** Year, month (1..12) and day of the month of a day number counted
    from 1970-01-01, in the proleptic Gregorian calendar. *)
Definition civil_from_days (days : Z) : Z * Z * Z :=
  let z := days + 719468 in
  let era := z / 146097 in
  let doe := z - era * 146097 in
  let yoe := (doe - doe / 1460 + doe / 36524 - doe / 146096) / 365 in
  let doy := doe - (365 * yoe + yoe / 4 - yoe / 100) in
  let mp := (5 * doy + 2) / 153 in
  let d := doy - (153 * mp + 2) / 5 + 1 in
  let m := if mp <? 10 then mp + 3 else mp - 9 in
  let y := yoe + era * 400 in
  (if m <=? 2 then y + 1 else y, m, d).

Definition days_from_civil (y m d : Z) : Z :=
  let y := if m <=? 2 then y - 1 else y in
  let era := y / 400 in
  let yoe := y - era * 400 in
  let doy := (153 * (if m >? 2 then m - 3 else m + 9) + 2) / 5 + d - 1 in
  let doe := yoe * 365 + yoe / 4 - yoe / 100 + doy in
  era * 146097 + doe - 719468.

Definition digit_char (n : Z) : ascii :=
  ascii_of_nat (48 + Z.to_nat (n mod 10)).

(** The [width] low decimal digits of [n], most significant first. *)
Fixpoint pad_digits (width : nat) (n : Z) : string :=
  match width with
  | O => ""
  | S w => pad_digits w (n / 10) ++ String (digit_char n) ""
  end.

(** Four digits for the years 0..9999, a sign and six digits for the
    others (time values stay within 8.64e15 ms of the epoch, which
    keeps the year within six digits). *)
Definition year_string (y : Z) : string :=
  if ((0 <=? y) && (y <=? 9999))%bool then pad_digits 4 y
  else (if y <? 0 then "-" else "+") ++ pad_digits 6 (Z.abs y).

(** The part of [toISOString] before the [T]: [YYYY-MM-DD]. *)
Definition iso_date (t : Z) : string :=
  let '(y, m, d) := civil_from_days (t / msPerDay) in
  year_string y ++ "-" ++ pad_digits 2 m ++ "-" ++ pad_digits 2 d.

(** The part of [toISOString] after the [T]: [HH:mm:ss.sssZ]. *)
Definition iso_time (t : Z) : string :=
  let ms := t mod msPerDay in
  pad_digits 2 (ms / 3600000) ++ ":" ++ pad_digits 2 (ms / 60000 mod 60)
  ++ ":" ++ pad_digits 2 (ms / 1000 mod 60) ++ "."
  ++ pad_digits 3 (ms mod 1000) ++ "Z".

(** [Date.prototype.toISOString] *)
Definition toISOString (t : Z) : string :=
  iso_date t ++ "T" ++ iso_time t.

(** An instance of [Date.parse] on the date-only form [YYYY-MM-DD],
    which ECMAScript reads as midnight UTC.  As V8 does, it takes a day
    up to 31 in every month: a day past the end of the month runs over
    into the next one.  What other strings parse to is left to the
    implementation, so the actions below take the parser as a
    parameter; this instance serves the examples. *)
Definition digit_value (c : ascii) : option Z :=
  let n := nat_of_ascii c in
  if (Nat.leb 48 n && Nat.leb n 57)%bool then Some (Z.of_nat (n - 48))
  else None.

Fixpoint number_value (acc : Z) (cs : list ascii) : option Z :=
  match cs with
  | [] => Some acc
  | c :: cs' =>
      match digit_value c with
      | Some v => number_value (10 * acc + v) cs'
      | None => None
      end
  end.

Definition is_leap (y : Z) : bool :=
  ((y mod 4 =? 0) && (negb (y mod 100 =? 0) || (y mod 400 =? 0)))%bool.

Definition days_in_month (y m : Z) : Z :=
  if m =? 2 then (if is_leap y then 29 else 28)
  else if ((m =? 4) || (m =? 6) || (m =? 9) || (m =? 11))%bool then 30
  else 31.

Definition parse_date_only (s : string) : option Z :=
  match list_ascii_of_string s with
  | [y1; y2; y3; y4; h1; m1; m2; h2; d1; d2] =>
      if (Ascii.eqb h1 "-" && Ascii.eqb h2 "-")%bool then
        match number_value 0 [y1; y2; y3; y4],
              number_value 0 [m1; m2], number_value 0 [d1; d2] with
        | Some y, Some m, Some d =>
            if ((1 <=? m) && (m <=? 12) && (1 <=? d) && (d <=? 31))%bool
            then Some (days_from_civil y m d * msPerDay)
            else None
        | _, _, _ => None
        end
      else None
  | _ => None
  end.

(** The same instance, extended to the date-time form
    [YYYY-MM-DDTHH:mm:ssZ]: that time of that day, UTC.  Hour 24 is
    midnight at the end of the day. *)
Definition parse_iso (s : string) : option Z :=
  match list_ascii_of_string s with
  | [y1; y2; y3; y4; h1; m1; m2; h2; d1; d2; t; H1; H2; c1; M1; M2; c2;
     S1; S2; z] =>
      if (Ascii.eqb t "T" && Ascii.eqb c1 ":" && Ascii.eqb c2 ":"
          && Ascii.eqb z "Z")%bool then
        match parse_date_only
                (string_of_list_ascii [y1; y2; y3; y4; h1; m1; m2; h2; d1; d2]),
              number_value 0 [H1; H2], number_value 0 [M1; M2],
              number_value 0 [S1; S2] with
        | Some day, Some h, Some mi, Some sec =>
            if (((h <=? 23) && (mi <=? 59) && (sec <=? 59))
                || ((h =? 24) && (mi =? 0) && (sec =? 0)))%bool
            then Some (day + h * 3600000 + mi * 60000 + sec * 1000)
            else None
        | _, _, _, _ => None
        end
      else None
  | _ => parse_date_only s
  end.

End JsDate.

(** ** Data model

    The rows of the three tables, with the columns the actions read or
    write. *)

(** Modelled from the spec: the enumeration [AppointmentStatus] is
    generated from the Prisma schema, which is not among the sources; the
    data model of the specification names these three states. *)
Inductive AppointmentStatus : Type := CONFIRMED | COMPLETED | CANCELLED.

Definition status_eqb (a b : AppointmentStatus) : bool :=
  match a, b with
  | CONFIRMED, CONFIRMED | COMPLETED, COMPLETED | CANCELLED, CANCELLED => true
  | _, _ => false
  end.

Module User.
Record t : Type := mk
  { id : string;
    clerkId : string;
    email : string;
    firstName : option string;
    lastName : option string;
    phone : option string }.
End User.

Module Doctor.
Record t : Type := mk
  { id : string;
    name : string;
    imageUrl : option string }.
End Doctor.

Module Appointment.
Record t : Type := mk
  { id : string;
    userId : string;
    doctorId : string;
    date : Z;
    time : string;
    reason : string;
    status : AppointmentStatus;
    createdAt : Z }.

Definition with_status (s : AppointmentStatus) (a : t) : t :=
  mk (id a) (userId a) (doctorId a) (date a) (time a) (reason a) s
     (createdAt a).
End Appointment.

(** [select: { firstName: true, lastName: true, email: true }] *)
Module UserSelect.
Record t : Type := mk
  { firstName : option string;
    lastName : option string;
    email : string }.
End UserSelect.

(** [select: { name: true, imageUrl: true }] *)
Module DoctorSelect.
Record t : Type := mk
  { name : string;
    imageUrl : option string }.
End DoctorSelect.

(** An appointment row with its [include]d relations. *)
Module Included.
Record t : Type := mk
  { appointment : Appointment.t;
    user : UserSelect.t;
    doctor : DoctorSelect.t }.
End Included.

(** The object built by [transformAppointment]: the spread of the row
    and its relations, with [date] replaced by a string. *)
Module View.
Record t : Type := mk
  { id : string;
    userId : string;
    doctorId : string;
    time : string;
    reason : string;
    status : AppointmentStatus;
    createdAt : Z;
    user : UserSelect.t;
    doctor : DoctorSelect.t;
    patientName : string;
    patientEmail : string;
    doctorName : string;
    doctorImageUrl : string;
    date : string }.
End View.

(** The profile served by the identity provider. *)
Module Clerk.
Record User : Type := mkUser
  { id : string;
    firstName : option string;
    lastName : option string;
    emailAddresses : list string;
    phoneNumbers : list string }.
End Clerk.

(** ** Errors and results *)

Inductive JsError : Type :=
| Error (message : string)
| TypeError (message : string)
| PrismaClientKnownRequestError (code : string)
| PrismaClientValidationError
| PrismaClientUnknownRequestError.

Inductive Result (A : Type) : Type :=
| Ok (a : A)
| Err (e : JsError).
Arguments Ok {A} a.
Arguments Err {A} e.

Definition is_ok {A} (r : Result A) : bool :=
  match r with Ok _ => true | Err _ => false end.

(** ** The Prisma client: arguments of the calls *)

Module UserCreateInput.
(** An [undefined] or [null] optional column is stored as NULL. *)
Record t : Type := mk
  { clerkId : string;
    email : string;
    firstName : option string;
    lastName : option string;
    phone : option string }.
End UserCreateInput.

Module UserUpdateInput.
(** [firstName] and [lastName] are [string | null]: [None] writes
    NULL.  [phone] is [string | undefined]: Prisma leaves out of the
    update a column whose value is [undefined], so [None] keeps the
    stored value. *)
Record t : Type := mk
  { firstName : option string;
    lastName : option string;
    email : string;
    phone : option string }.
End UserUpdateInput.

Module AppointmentWhere.
(** A filter: [None] is an absent key.  [date] is a [Date] object,
    which may be the Invalid Date. *)
Record t : Type := mk
  { userId : option string;
    doctorId : option string;
    date : option (option Z);
    status_in : option (list AppointmentStatus) }.
End AppointmentWhere.

Inductive OrderBy : Type := createdAt_desc | date_asc | time_asc.

Module AppointmentCreateInput.
Record t : Type := mk
  { userId : string;
    doctorId : string;
    date : option Z;
    time : string;
    reason : string;
    status : AppointmentStatus }.
End AppointmentCreateInput.

(** The operations a server action awaits. *)
Inductive Op : Type -> Type :=
| auth : Op (option string)
| currentUser : Op (option Clerk.User)
| user_findUnique (clerkId : string) : Op (option User.t)
| user_create (data : UserCreateInput.t) : Op User.t
| user_upsert (clerkId : string) (update : UserUpdateInput.t)
    (create : UserCreateInput.t) : Op User.t
| appointment_findMany_include (where_ : AppointmentWhere.t)
    (orderBy : list OrderBy) : Op (list Included.t)
| appointment_findMany (where_ : AppointmentWhere.t) : Op (list Appointment.t)
| appointment_count (where_ : AppointmentWhere.t) : Op nat
| appointment_create_include (data : AppointmentCreateInput.t) : Op Included.t
| appointment_update (id : string) (status : AppointmentStatus)
  : Op Appointment.t.

(** The persistence calls, as they are logged. *)
Inductive DbCall : Type :=
| call_user_findUnique (clerkId : string)
| call_user_create (clerkId : string)
| call_user_upsert (clerkId : string)
| call_appointment_findMany
| call_appointment_count
| call_appointment_create
| call_appointment_update (id : string).

Definition call_of {R} (op : Op R) : option DbCall :=
  match op with
  | auth | currentUser => None
  | user_findUnique c => Some (call_user_findUnique c)
  | user_create d => Some (call_user_create (UserCreateInput.clerkId d))
  | user_upsert c _ _ => Some (call_user_upsert c)
  | appointment_findMany_include _ _ | appointment_findMany _ =>
      Some call_appointment_findMany
  | appointment_count _ => Some call_appointment_count
  | appointment_create_include _ => Some call_appointment_create
  | appointment_update i _ => Some (call_appointment_update i)
  end.

(** ** Programs *)

Inductive Level : Type := level_log | level_error.

Inductive Payload : Type :=
| text (s : string)
| thrown (e : JsError).

Record LogEntry : Type := mkLog
  { level : Level; label : string; payload : Payload }.

Inductive Prog (A : Type) : Type :=
| Ret (a : A)
| Throw (e : JsError)
| Console (entry : LogEntry) (k : Prog A)
| Await {R : Type} (op : Op R) (k : Result R -> Prog A).
Arguments Ret {A} a.
Arguments Throw {A} e.
Arguments Console {A} entry k.
Arguments Await {A R} op k.

Fixpoint bind {A B} (p : Prog A) (f : A -> Prog B) : Prog B :=
  match p with
  | Ret a => f a
  | Throw e => Throw e
  | Console entry k => Console entry (bind k f)
  | Await op k => Await op (fun r => bind (k r) f)
  end.

(** [try { p } catch (error) { h error }] *)
Fixpoint try_catch {A} (p : Prog A) (h : JsError -> Prog A) : Prog A :=
  match p with
  | Ret a => Ret a
  | Throw e => h e
  | Console entry k => Console entry (try_catch k h)
  | Await op k => Await op (fun r => try_catch (k r) h)
  end.

(** [await op]: a rejected promise throws at the [await]. *)
Definition await {R} (op : Op R) : Prog R :=
  Await op (fun r => match r with Ok v => Ret v | Err e => Throw e end).

(** [await Promise.all([op1, op2])]: both calls are issued; the first
    rejection, if any, is thrown. *)
Definition await_all2 {R1 R2} (op1 : Op R1) (op2 : Op R2) : Prog (R1 * R2) :=
  Await op1 (fun r1 =>
  Await op2 (fun r2 =>
    match r1, r2 with
    | Ok v1, Ok v2 => Ret (v1, v2)
    | Err e, _ => Throw e
    | Ok _, Err e => Throw e
    end)).

Definition console_log (label : string) (p : Payload) : Prog unit :=
  Console (mkLog level_log label p) (Ret tt).

Definition console_error (label : string) (p : Payload) : Prog unit :=
  Console (mkLog level_error label p) (Ret tt).

(** A synchronous expression that may throw. *)
Definition eval {A} (r : Result A) : Prog A :=
  match r with Ok a => Ret a | Err e => Throw e end.

Declare Scope prog_scope.
Delimit Scope prog_scope with prog.
Notation "x <- p ;; q" := (bind p (fun x => q))
  (at level 61, p at next level, right associativity) : prog_scope.
Notation "p ;; q" := (bind p (fun _ => q))
  (at level 61, right associativity) : prog_scope.
Open Scope prog_scope.

(** ** The world a request runs in *)

Record Database : Type := mkDb
  { users : list User.t;
    doctors : list Doctor.t;
    appointments : list Appointment.t }.

(** [faults] is the fate of the coming persistence calls, in order:
    [Some e] makes the call reject with [e] and leave the tables as
    they are (a lost connection, a constraint of the schema that this
    model does not know), [None] lets it through; past the end of the
    list every call goes through.  [fresh_id] is the supply of
    generated row ids and [ids_drawn] the number of ids taken from it. *)
Record World : Type := mkWorld
  { db : Database;
    session : option string;
    clerk : option Clerk.User;
    faults : list (option JsError);
    calls : list DbCall;
    console : list LogEntry;
    clock : Z;
    fresh_id : nat -> string;
    ids_drawn : nat }.

Definition set_db (d : Database) (w : World) : World :=
  mkWorld d (session w) (clerk w) (faults w) (calls w) (console w)
          (clock w) (fresh_id w) (ids_drawn w).

Definition set_faults (f : list (option JsError)) (w : World) : World :=
  mkWorld (db w) (session w) (clerk w) f (calls w) (console w)
          (clock w) (fresh_id w) (ids_drawn w).

Definition log_call (c : DbCall) (w : World) : World :=
  mkWorld (db w) (session w) (clerk w) (faults w) (calls w ++ [c])
          (console w) (clock w) (fresh_id w) (ids_drawn w).

Definition write_console (entry : LogEntry) (w : World) : World :=
  mkWorld (db w) (session w) (clerk w) (faults w) (calls w)
          (console w ++ [entry]) (clock w) (fresh_id w) (ids_drawn w).

Definition draw_id (w : World) : string * World :=
  (fresh_id w (ids_drawn w),
   mkWorld (db w) (session w) (clerk w) (faults w) (calls w) (console w)
           (clock w) (fresh_id w) (S (ids_drawn w))).

(** The fate of the next persistence call. *)
Definition next_fault (w : World) : option JsError :=
  match faults w with
  | f :: _ => f
  | [] => None
  end.

(** The world once a persistence call has been issued: the call is
    logged and its fate consumed. *)
Definition after_call (c : DbCall) (w : World) : World :=
  set_faults (List.tl (faults w)) (log_call c w).

(** ** The Prisma client: what the calls do to the tables *)

Module Prisma.

Definition find_user_by_clerkId (c : string) (us : list User.t)
  : option User.t :=
  List.find (fun u => (User.clerkId u =? c)%string) us.

Definition find_user_by_id (i : string) (us : list User.t)
  : option User.t :=
  List.find (fun u => (User.id u =? i)%string) us.

Definition find_doctor (i : string) (ds : list Doctor.t)
  : option Doctor.t :=
  List.find (fun d => (Doctor.id d =? i)%string) ds.

Definition find_appointment (i : string) (l : list Appointment.t)
  : option Appointment.t :=
  List.find (fun a => (Appointment.id a =? i)%string) l.

Definition holds {A} (cond : option A) (test : A -> bool) : bool :=
  match cond with None => true | Some c => test c end.

(** A [where] with an Invalid Date never reaches [matches]: the call
    is rejected before. *)
Definition matches (q : AppointmentWhere.t) (a : Appointment.t) : bool :=
  (holds (AppointmentWhere.userId q)
     (fun u => (Appointment.userId a =? u)%string)
   && holds (AppointmentWhere.doctorId q)
        (fun d => (Appointment.doctorId a =? d)%string)
   && holds (AppointmentWhere.date q)
        (fun d => match d with
                  | Some t => Appointment.date a =? t
                  | None => false
                  end)
   && holds (AppointmentWhere.status_in q)
        (fun l => List.existsb (status_eqb (Appointment.status a)) l))%bool.

Definition where_is_valid (q : AppointmentWhere.t) : bool :=
  match AppointmentWhere.date q with
  | Some None => false
  | _ => true
  end.

(** [ORDER BY]: the keys are compared in turn; strings compare code
    unit by code unit. *)
Definition key_compare (k : OrderBy) (a b : Appointment.t) : comparison :=
  match k with
  | createdAt_desc => Z.compare (Appointment.createdAt b) (Appointment.createdAt a)
  | date_asc => Z.compare (Appointment.date a) (Appointment.date b)
  | time_asc => String.compare (Appointment.time a) (Appointment.time b)
  end.

Fixpoint order_compare (keys : list OrderBy) (a b : Appointment.t)
  : comparison :=
  match keys with
  | [] => Eq
  | k :: keys' =>
      match key_compare k a b with
      | Eq => order_compare keys' a b
      | c => c
      end
  end.

Definition order_leb (keys : list OrderBy) (a b : Appointment.t) : bool :=
  match order_compare keys a b with Gt => false | _ => true end.

Fixpoint insert_row (keys : list OrderBy) (a : Appointment.t)
  (l : list Appointment.t) : list Appointment.t :=
  match l with
  | [] => [a]
  | b :: l' =>
      if order_leb keys a b then a :: l else b :: insert_row keys a l'
  end.

Definition order_rows (keys : list OrderBy) (l : list Appointment.t)
  : list Appointment.t :=
  List.fold_right (insert_row keys) [] l.

Definition select_user (u : User.t) : UserSelect.t :=
  UserSelect.mk (User.firstName u) (User.lastName u) (User.email u).

Definition select_doctor (d : Doctor.t) : DoctorSelect.t :=
  DoctorSelect.mk (Doctor.name d) (Doctor.imageUrl d).

(** [include: { user: ..., doctor: ... }]: both relations are
    required, a row whose user or doctor is missing makes the query
    fail. *)
Definition include (d : Database) (a : Appointment.t) : option Included.t :=
  match find_user_by_id (Appointment.userId a) (users d),
        find_doctor (Appointment.doctorId a) (doctors d) with
  | Some u, Some dr => Some (Included.mk a (select_user u) (select_doctor dr))
  | _, _ => None
  end.

Fixpoint include_all (d : Database) (l : list Appointment.t)
  : option (list Included.t) :=
  match l with
  | [] => Some []
  | a :: l' =>
      match include d a, include_all d l' with
      | Some i, Some is_ => Some (i :: is_)
      | _, _ => None
      end
  end.

Definition update_user (upd : UserUpdateInput.t) (u : User.t) : User.t :=
  User.mk (User.id u) (User.clerkId u)
    (UserUpdateInput.email upd)
    (UserUpdateInput.firstName upd)
    (UserUpdateInput.lastName upd)
    (match UserUpdateInput.phone upd with
     | Some p => Some p
     | None => User.phone u
     end).

(** The first row that satisfies [test] is replaced by its image. *)
Fixpoint replace_first {A} (test : A -> bool) (f : A -> A) (l : list A)
  : list A :=
  match l with
  | [] => []
  | x :: l' => if test x then f x :: l' else x :: replace_first test f l'
  end.

(** [clerkId] is a unique column: [findUnique] and [upsert] are keyed
    on it, and an insert of a second row with the same value is
    rejected (P2002). *)
Definition insert_user (data : UserCreateInput.t) (w : World)
  : Result User.t * World :=
  match find_user_by_clerkId (UserCreateInput.clerkId data) (users (db w)) with
  | Some _ => (Err (PrismaClientKnownRequestError "P2002"), w)
  | None =>
      let (i, w1) := draw_id w in
      let u := User.mk i (UserCreateInput.clerkId data)
                 (UserCreateInput.email data)
                 (UserCreateInput.firstName data)
                 (UserCreateInput.lastName data)
                 (UserCreateInput.phone data) in
      (Ok u,
       set_db (mkDb (users (db w1) ++ [u]) (doctors (db w1))
                    (appointments (db w1))) w1)
  end.

(** An upsert whose [where] is one unique column that the [create]
    data repeats is sent as a single insert-or-update statement: it is
    one operation, with no point of suspension between the lookup and
    the write. *)
Definition upsert_user (c : string) (upd : UserUpdateInput.t)
  (crt : UserCreateInput.t) (w : World) : Result User.t * World :=
  match find_user_by_clerkId c (users (db w)) with
  | Some u =>
      (Ok (update_user upd u),
       set_db (mkDb (replace_first (fun x => (User.clerkId x =? c)%string)
                       (update_user upd) (users (db w)))
                    (doctors (db w)) (appointments (db w))) w)
  | None => insert_user crt w
  end.

(** An insert is rejected when the date is the Invalid Date, and when
    the user or the doctor it refers to does not exist (P2003). *)
Definition insert_appointment (data : AppointmentCreateInput.t) (w : World)
  : Result Included.t * World :=
  match AppointmentCreateInput.date data with
  | None => (Err PrismaClientValidationError, w)
  | Some t =>
      match find_user_by_id (AppointmentCreateInput.userId data) (users (db w)),
            find_doctor (AppointmentCreateInput.doctorId data) (doctors (db w)) with
      | Some u, Some dr =>
          let (i, w1) := draw_id w in
          let a := Appointment.mk i (AppointmentCreateInput.userId data)
                     (AppointmentCreateInput.doctorId data) t
                     (AppointmentCreateInput.time data)
                     (AppointmentCreateInput.reason data)
                     (AppointmentCreateInput.status data)
                     (clock w1) in
          (Ok (Included.mk a (select_user u) (select_doctor dr)),
           set_db (mkDb (users (db w1)) (doctors (db w1))
                        (appointments (db w1) ++ [a])) w1)
      | _, _ => (Err (PrismaClientKnownRequestError "P2003"), w)
      end
  end.

(** An update of a row that does not exist is rejected (P2025). *)
Definition update_appointment (i : string) (s : AppointmentStatus)
  (w : World) : Result Appointment.t * World :=
  match find_appointment i (appointments (db w)) with
  | Some a =>
      (Ok (Appointment.with_status s a),
       set_db (mkDb (users (db w)) (doctors (db w))
                    (replace_first
                       (fun x => (Appointment.id x =? i)%string)
                       (Appointment.with_status s)
                       (appointments (db w)))) w)
  | None => (Err (PrismaClientKnownRequestError "P2025"), w)
  end.

Definition select_rows (q : AppointmentWhere.t) (w : World)
  : Result (list Appointment.t) :=
  if where_is_valid q
  then Ok (List.filter (matches q) (appointments (db w)))
  else Err PrismaClientValidationError.

(** What an operation answers and does, once it goes through. *)
Definition perform {R} (op : Op R) (w : World) : Result R * World :=
  match op in Op R return Result R * World with
  | auth => (Ok (session w), w)
  | currentUser => (Ok (clerk w), w)
  | user_findUnique c => (Ok (find_user_by_clerkId c (users (db w))), w)
  | user_create data => insert_user data w
  | user_upsert c upd crt => upsert_user c upd crt w
  | appointment_findMany_include q keys =>
      match select_rows q w with
      | Ok rows =>
          match include_all (db w) (order_rows keys rows) with
          | Some l => (Ok l, w)
          | None => (Err PrismaClientUnknownRequestError, w)
          end
      | Err e => (Err e, w)
      end
  | appointment_findMany q => (select_rows q w, w)
  | appointment_count q =>
      match select_rows q w with
      | Ok rows => (Ok (List.length rows), w)
      | Err e => (Err e, w)
      end
  | appointment_create_include data => insert_appointment data w
  | appointment_update i s => update_appointment i s w
  end.

(** A persistence call is logged, then meets its fate. *)
Definition exec {R} (op : Op R) (w : World) : Result R * World :=
  match call_of op with
  | None => perform op w
  | Some c =>
      match next_fault w with
      | Some e => (Err e, after_call c w)
      | None => perform op (after_call c w)
      end
  end.

End Prisma.

(** Running a program to its end. *)
Fixpoint run {A} (p : Prog A) (w : World) : Result A * World :=
  match p with
  | Ret a => (Ok a, w)
  | Throw e => (Err e, w)
  | Console entry k => run k (write_console entry w)
  | Await op k => let (r, w') := Prisma.exec op w in run (k r) w'
  end.

(** One step of a suspended request: up to and including its next
    awaited operation (or console write). *)
Definition step {A} (p : Prog A) (w : World) : Prog A * World :=
  match p with
  | Ret a => (Ret a, w)
  | Throw e => (Throw e, w)
  | Console entry k => (k, write_console entry w)
  | Await op k => let (r, w') := Prisma.exec op w in (k r, w')
  end.

(** Two requests in flight: the schedule says which one moves next
    ([true]: the first); when it ends both run to completion, the first
    one first. *)
Fixpoint interleave {A B} (schedule : list bool) (p : Prog A) (q : Prog B)
  (w : World) : Result A * Result B * World :=
  match schedule with
  | [] =>
      let (ra, w1) := run p w in
      let (rb, w2) := run q w1 in
      (ra, rb, w2)
  | true :: rest => let (p', w') := step p w in interleave rest p' q w'
  | false :: rest => let (q', w') := step q w in interleave rest p q' w'
  end.

(** ** [src/lib/actions/users.ts] *)

Module Users.

(** [c.emailAddresses[0].emailAddress]: reading a property of
    [undefined] throws. *)
Definition first_email (c : Clerk.User) : Result string :=
  match Clerk.emailAddresses c with
  | e :: _ => Ok e
  | [] => Err (TypeError "Cannot read properties of undefined (reading 'emailAddress')")
  end.

(** [c.phoneNumbers[0]?.phoneNumber]; [None] is [undefined]. *)
Definition first_phone (c : Clerk.User) : option string :=
  List.hd_error (Clerk.phoneNumbers c).

Definition upsert_of (c : Clerk.User) (email : string) : Op User.t :=
  user_upsert (Clerk.id c)
    (UserUpdateInput.mk (Clerk.firstName c) (Clerk.lastName c) email
       (first_phone c))
    (UserCreateInput.mk (Clerk.id c) email (Clerk.firstName c)
       (Clerk.lastName c) (first_phone c)).

Definition syncUser : Prog (option User.t) :=
  try_catch
    (user <- await currentUser ;;
     match user with
     | None => Ret None
     | Some u =>
         email <- eval (first_email u) ;;
         dbUser <- await (upsert_of u email) ;;
         console_log "User synced:" (text (User.email dbUser)) ;;
         Ret (Some dbUser)
     end)
    (fun error =>
       console_error "Error in syncUser server action:" (thrown error) ;;
       Throw error).

Definition ensureUserExists : Prog (option User.t) :=
  try_catch
    (clerkUser <- await currentUser ;;
     match clerkUser with
     | None => Ret None
     | Some u =>
         email <- eval (first_email u) ;;
         dbUser <- await (upsert_of u email) ;;
         Ret (Some dbUser)
     end)
    (fun error =>
       console_error "Error in ensureUserExists:" (thrown error) ;;
       Throw error).

End Users.

(** ** The appointment actions *)

Module Appointments.

Definition transformAppointment (appointment : Included.t) : View.t :=
  let a := Included.appointment appointment in
  let user := Included.user appointment in
  let doctor := Included.doctor appointment in
  View.mk (Appointment.id a) (Appointment.userId a) (Appointment.doctorId a)
    (Appointment.time a) (Appointment.reason a) (Appointment.status a)
    (Appointment.createdAt a) user doctor
    (JsString.trim
       (JsString.or_default (UserSelect.firstName user) "" ++ " "
        ++ JsString.or_default (UserSelect.lastName user) ""))
    (UserSelect.email user)
    (DoctorSelect.name doctor)
    (JsString.or_default (DoctorSelect.imageUrl doctor) "")
    (List.hd "" (JsString.split "T" (JsDate.toISOString (Appointment.date a)))).

(** [x ?? ""] on [string | null]. *)
Definition nullish_empty (x : option string) : string :=
  match x with Some s => s | None => "" end.

Definition ensureUserExists (clerkId : string) : Prog User.t :=
  clerkData <- await currentUser ;;
  match clerkData with
  | None => Throw (Error "No Clerk user found")
  | Some c =>
      user <- await (user_findUnique clerkId) ;;
      match user with
      | Some u => Ret u
      | None =>
          email <- eval (Users.first_email c) ;;
          u <- await (user_create
                        (UserCreateInput.mk clerkId email
                           (Some (nullish_empty (Clerk.firstName c)))
                           (Some (nullish_empty (Clerk.lastName c)))
                           (Some (nullish_empty (Users.first_phone c))))) ;;
          console_log "New user created in Prisma:" (text (User.email u)) ;;
          Ret u
      end
  end.

Definition include_where (userId : option string) : AppointmentWhere.t :=
  AppointmentWhere.mk userId None None None.

(** The [try] block of [getAppointments]. *)
Definition getAppointments_try : Prog (list View.t) :=
  appointments <- await (appointment_findMany_include
                           (include_where None) [createdAt_desc]) ;;
  Ret (List.map transformAppointment appointments).

Definition getAppointments : Prog (list View.t) :=
  try_catch getAppointments_try
    (fun error =>
       console_log "Error fetching appointments:" (thrown error) ;;
       Throw (Error "Failed to fetch appointments")).

(** The [try] block of [getUserAppointments]. *)
Definition getUserAppointments_try : Prog (list View.t) :=
  userId <- await auth ;;
  match userId with
  | Some uid =>
      if (uid =? "")%string
      then Throw (Error "You must be logged in to view appointments")
      else
        user <- ensureUserExists uid ;;
        appointments <- await (appointment_findMany_include
                                 (include_where (Some (User.id user)))
                                 [date_asc; time_asc]) ;;
        Ret (List.map transformAppointment appointments)
  | None => Throw (Error "You must be logged in to view appointments")
  end.

Definition getUserAppointments : Prog (list View.t) :=
  try_catch getUserAppointments_try
    (fun error =>
       console_error "Error fetching user appointments:" (thrown error) ;;
       Throw (Error "Failed to fetch user appointments")).

Record Stats : Type := mkStats
  { totalAppointments : nat; completedAppointments : nat }.

(** The [try] block of [getUserAppointmentStats]. *)
Definition getUserAppointmentStats_try : Prog Stats :=
  userId <- await auth ;;
  match userId with
  | Some uid =>
      if (uid =? "")%string
      then Throw (Error "You must be authenticated")
      else
        user <- ensureUserExists uid ;;
        counts <- await_all2
                    (appointment_count
                       (AppointmentWhere.mk (Some (User.id user)) None
                          None None))
                    (appointment_count
                       (AppointmentWhere.mk (Some (User.id user)) None
                          None (Some [COMPLETED]))) ;;
        Ret (mkStats (fst counts) (snd counts))
  | None => Throw (Error "You must be authenticated")
  end.

Definition getUserAppointmentStats : Prog Stats :=
  try_catch getUserAppointmentStats_try
    (fun error =>
       console_error "Error fetching user appointment stats:" (thrown error) ;;
       Ret (mkStats 0 0)).

Record BookAppointmentInput : Type := mkInput
  { doctorId : string;
    date : string;
    time : string;
    reason : option string }.

Record UpdateStatusInput : Type := mkUpdate
  { id : string; status : AppointmentStatus }.

(** The [try] block of [updateAppointmentStatus]. *)
Definition updateAppointmentStatus_try (input : UpdateStatusInput)
  : Prog Appointment.t :=
  appointment <- await (appointment_update (id input) (status input)) ;;
  Ret appointment.

Definition updateAppointmentStatus (input : UpdateStatusInput)
  : Prog Appointment.t :=
  try_catch (updateAppointmentStatus_try input)
    (fun error =>
       console_error "Error updating appointment:" (thrown error) ;;
       Throw (Error "Failed to update appointment")).

Section WithDateParse.

(** [new Date(s)] for a string [s]: its time value, or [None] for
    the Invalid Date. *)
Variable Date_parse : string -> option Z.

(** The [try] block of [getBookedTimeSlots]. *)
Definition getBookedTimeSlots_try (doctorId date : string)
  : Prog (list string) :=
  appointments <- await (appointment_findMany
                           (AppointmentWhere.mk None (Some doctorId)
                              (Some (Date_parse date))
                              (Some [CONFIRMED; COMPLETED]))) ;;
  Ret (List.map Appointment.time appointments).

Definition getBookedTimeSlots (doctorId date : string)
  : Prog (list string) :=
  try_catch (getBookedTimeSlots_try doctorId date)
    (fun error =>
       console_error "Error fetching booked time slots:" (thrown error) ;;
       Ret []).

(** The [try] block of [bookAppointment]. *)
Definition bookAppointment_try (input : BookAppointmentInput) : Prog View.t :=
  userId <- await auth ;;
  match userId with
  | Some uid =>
      if (uid =? "")%string
      then Throw (Error "You must be logged in to book an appointment")
      else if ((doctorId input =? "")%string
               || (date input =? "")%string
               || (time input =? "")%string)%bool
      then Throw (Error "Doctor, date, and time are required")
      else
        user <- ensureUserExists uid ;;
        appointment <- await (appointment_create_include
                                (AppointmentCreateInput.mk
                                   (User.id user) (doctorId input)
                                   (Date_parse (date input))
                                   (time input)
                                   (JsString.or_default (reason input)
                                      "General consultation")
                                   CONFIRMED)) ;;
        Ret (transformAppointment appointment)
  | None => Throw (Error "You must be logged in to book an appointment")
  end.

Definition bookAppointment (input : BookAppointmentInput) : Prog View.t :=
  try_catch (bookAppointment_try input)
    (fun error =>
       console_error "Error booking appointment:" (thrown error) ;;
       Throw (Error "Failed to book appointment. Please try again later.")).

End WithDateParse.

End Appointments.

(** ** A small clinic, for the examples *)

Module Demo.

Definition ids (n : nat) : string :=
  "row_" ++ String (ascii_of_nat (97 + n)) "".

Definition ada : Clerk.User :=
  Clerk.mkUser "user_ada" (Some "Ada") (Some "Lovelace")
    ["ada@example.org"] ["555-0100"].

Definition d1 : Doctor.t := Doctor.mk "d1" "Dr. Grace" (Some "/grace.png").

Definition empty_clinic : Database := mkDb [] [d1] [].

Definition world (d : Database) (s : option string) (c : option Clerk.User)
  (f : list (option JsError)) : World :=
  mkWorld d s c f [] [] 1717000000000 ids 0.

Definition signed_in : World :=
  world empty_clinic (Some "user_ada") (Some ada) [].

Definition signed_out : World := world empty_clinic None None [].

Definition booking : Appointments.BookAppointmentInput :=
  Appointments.mkInput "d1" "2024-06-01" "09:00" None.

Definition no_doctor : Appointments.BookAppointmentInput :=
  Appointments.mkInput "" "2024-06-01" "09:00" None.

(** The record the specification expects for [booking]. *)
Definition booked_view : View.t :=
  View.mk "row_b" "row_a" "d1" "09:00" "General consultation" CONFIRMED
    1717000000000
    (UserSelect.mk (Some "Ada") (Some "Lovelace") "ada@example.org")
    (DoctorSelect.mk "Dr. Grace" (Some "/grace.png"))
    "Ada Lovelace" "ada@example.org" "Dr. Grace" "/grace.png" "2024-06-01".

(** A clinic in use: Ada is known, under an older profile, and has three
    appointments, the second one cancelled. *)
Definition stored_ada : User.t :=
  User.mk "u1" "user_ada" "ada@old.example.org" (Some "A.") None
    (Some "555-0100").

Definition june_1 : Z := 1717200000000.
Definition june_2 : Z := 1717286400000.

Definition apt_1 : Appointment.t :=
  Appointment.mk "apt_1" "u1" "d1" june_1 "09:00" "Check-up" CONFIRMED 100.

Definition apt_2 : Appointment.t :=
  Appointment.mk "apt_2" "u1" "d1" june_1 "10:00" "Cleaning" CANCELLED 300.

Definition apt_3 : Appointment.t :=
  Appointment.mk "apt_3" "u1" "d1" june_2 "08:30" "Filling" COMPLETED 200.

Definition busy_clinic : Database :=
  mkDb [stored_ada] [d1] [apt_3; apt_2; apt_1].

Definition busy : World := world busy_clinic (Some "user_ada") (Some ada) [].

Definition busy_signed_out : World := world busy_clinic None None [].

Definition outage : JsError := PrismaClientUnknownRequestError.

(** The same clinic when the next persistence call fails. *)
Definition busy_outage : World :=
  world busy_clinic (Some "user_ada") (Some ada) [Some outage].

(** The same clinic when the third persistence call fails. *)
Definition busy_late_outage : World :=
  world busy_clinic (Some "user_ada") (Some ada) [None; None; Some outage].

(** Ada has removed her phone number at the identity provider. *)
Definition ada_without_phone : Clerk.User :=
  Clerk.mkUser "user_ada" (Some "Ada") (Some "Lovelace")
    ["ada@example.org"] [].

Definition busy_without_phone : World :=
  world busy_clinic (Some "user_ada") (Some ada_without_phone) [].

(** The value of a result, for the examples. *)
Definition value {A} (default : A) (r : Result A) : A :=
  match r with Ok a => a | Err _ => default end.

End Demo.

(** ** The errors of the specification, as the code spells them *)

Definition NotAuthenticated : JsError :=
  Error "You must be logged in to book an appointment".

Definition InvalidInput : JsError :=
  Error "Doctor, date, and time are required".

Definition BookingFailed : JsError :=
  Error "Failed to book appointment. Please try again later.".

Definition UpdateFailed : JsError := Error "Failed to update appointment".

(** The cause that [bookAppointment] writes to the console when it
    turns a call down at its guards. *)
Definition rejection_cause (w : World) : JsError :=
  if JsString.falsy (session w) then NotAuthenticated else InvalidInput.

(** The row that [appointment.create] inserts for [data] at time value
    [t] in the world [w]. *)
Definition new_appointment (data : AppointmentCreateInput.t) (t : Z)
  (w : World) : Appointment.t :=
  Appointment.mk (fresh_id w (ids_drawn w))
    (AppointmentCreateInput.userId data)
    (AppointmentCreateInput.doctorId data) t
    (AppointmentCreateInput.time data)
    (AppointmentCreateInput.reason data)
    (AppointmentCreateInput.status data)
    (clock w).

(** The display name built from the name parts of a user. *)
Definition display_name (first last : option string) : string :=
  JsString.trim
    (JsString.or_default first "" ++ " " ++ JsString.or_default last "").

(** The filter of [getBookedTimeSlots]. *)
Definition booked_where (doctorId : string) (date : option Z)
  : AppointmentWhere.t :=
  AppointmentWhere.mk None (Some doctorId) (Some date)
    (Some [CONFIRMED; COMPLETED]).

(** An appointment holds its slot while it is confirmed or completed. *)
Definition holds_slot (a : Appointment.t) : Prop :=
  Appointment.status a = CONFIRMED \/ Appointment.status a = COMPLETED.

(** The console entry of a [catch] block that reports with
    [console.error]. *)
Definition reported (label : string) (e : JsError) : LogEntry :=
  mkLog level_error label (thrown e).

Definition no_stats : Appointments.Stats := Appointments.mkStats 0 0.

Definition FetchFailed : JsError := Error "Failed to fetch appointments".

Definition FetchUserFailed : JsError :=
  Error "Failed to fetch user appointments".

(** Soonest first: by date, then by time label. *)
Definition date_time_le (a b : Appointment.t) : Prop :=
  Appointment.date a < Appointment.date b
  \/ (Appointment.date a = Appointment.date b
      /\ String.leb (Appointment.time a) (Appointment.time b) = true).

(** Newest-created first. *)
Definition newest_first (v1 v2 : View.t) : Prop :=
  View.createdAt v2 <= View.createdAt v1.

(** The row of [u] once [users.ts] has synced it with the profile [c]
    whose first email address is [email]. *)
Definition refreshed (c : Clerk.User) (email : string) (u : User.t) : User.t :=
  User.mk (User.id u) (User.clerkId u) email (Clerk.firstName c)
    (Clerk.lastName c)
    (match Users.first_phone c with
     | Some p => Some p
     | None => User.phone u
     end).

(** The row that the appointment actions create for the profile [c]. *)
Definition created_user (clerkId email : string) (c : Clerk.User)
  : UserCreateInput.t :=
  UserCreateInput.mk clerkId email
    (Some (Appointments.nullish_empty (Clerk.firstName c)))
    (Some (Appointments.nullish_empty (Clerk.lastName c)))
    (Some (Appointments.nullish_empty (Users.first_phone c))).

(** The number of local rows of an external identity. *)
Definition rows_of (clerkId : string) (us : list User.t) : nat :=
  List.length (List.filter (fun u => (User.clerkId u =? clerkId)%string) us).

(** ** [getCurrentDbUser] of [users.ts]: the sync, retried

    The loop awaits the sync and, between attempts that return null, a
    timer; it is run here one attempt at a time against the world. *)

Definition maxRetries : nat := 3.

(** [await new Promise(resolve => setTimeout(resolve, ms))]: the
    request goes on once [ms] milliseconds have passed. *)
Definition sleep (ms : Z) (w : World) : World :=
  mkWorld (db w) (session w) (clerk w) (faults w) (calls w) (console w)
          (clock w + ms) (fresh_id w) (ids_drawn w).

(** The [while] loop of [getCurrentDbUser], from the value [retries] of
    its counter; [fuel] bounds the number of times the loop condition is
    evaluated, [None] is a loop that has not ended within it.  The
    console label is kept without its leading pictogram, as the other
    labels of [users.ts] are. *)
Fixpoint getCurrentDbUser_loop (fuel retries : nat) (w : World)
  : option (Result (option User.t) * World) :=
  match fuel with
  | O => None
  | S fuel' =>
      if Nat.ltb retries maxRetries then
        match run Users.ensureUserExists w with
        | (Ok (Some user), w1) => Some (Ok (Some user), w1)
        | (Ok None, w1) =>
            getCurrentDbUser_loop fuel' (S retries) (sleep 500 w1)
        | (Err error, w1) =>
            if Nat.eqb (S retries) maxRetries
            then Some (Err error,
                       write_console
                         (mkLog level_error "Failed to get user after retries:"
                            (thrown error)) w1)
            else getCurrentDbUser_loop fuel' (S retries) w1
        end
      else Some (Ok None, w)
  end.

Definition getCurrentDbUser (fuel : nat) (w : World)
  : option (Result (option User.t) * World) :=
  getCurrentDbUser_loop fuel 0 w.

(** The errors of the persistence calls that are fated to fail before
    the first one that goes through. *)
Fixpoint leading_faults (f : list (option JsError)) : list JsError :=
  match f with
  | Some e :: rest => e :: leading_faults rest
  | _ => []
  end.

(** ** More scenes of the demo clinic *)

Module Scenes.

(** Two outages in a row, then the persistence layer is back. *)
Definition flaky : World :=
  Demo.world Demo.busy_clinic (Some "user_ada") (Some Demo.ada)
    [Some Demo.outage; Some Demo.outage].

(** Ada is signed in and not yet known to the clinic. *)
Definition first_visit : World := Demo.signed_in.

(** Nobody is signed in, the clinic is in use. *)
Definition closed_door : World := Demo.busy_signed_out.

(** A booking with a reason, and one with an empty reason. *)
Definition toothache : Appointments.BookAppointmentInput :=
  Appointments.mkInput "d1" "2024-06-01" "09:00" (Some "Toothache").

Definition blank_reason : Appointments.BookAppointmentInput :=
  Appointments.mkInput "d1" "2024-06-01" "09:00" (Some "").

(** A booking with a doctor the clinic does not have. *)
Definition unknown_doctor : Appointments.BookAppointmentInput :=
  Appointments.mkInput "d9" "2024-06-01" "09:00" None.

(** The world once [Demo.booking] has been booked on Ada's first visit. *)
Definition after_booking : World :=
  snd (run (Appointments.bookAppointment JsDate.parse_date_only Demo.booking)
         first_visit).

Definition cancel_apt_1 : Appointments.UpdateStatusInput :=
  Appointments.mkUpdate "apt_1" CANCELLED.

End Scenes.

(** The world seen by another caller. *)
Definition set_session (s : option string) (c : option Clerk.User) (w : World)
  : World :=
  mkWorld (db w) s c (faults w) (calls w) (console w) (clock w) (fresh_id w)
          (ids_drawn w).

(** The appointments of a user row. *)
Definition owned_by (userId : string) (a : Appointment.t) : bool :=
  (Appointment.userId a =? userId)%string.

Definition completed_of (userId : string) (a : Appointment.t) : bool :=
  (owned_by userId a && status_eqb (Appointment.status a) COMPLETED)%bool.

(** The slot of an appointment: doctor, date and time label. *)
Definition same_slot (a b : Appointment.t) : Prop :=
  Appointment.doctorId a = Appointment.doctorId b
  /\ Appointment.date a = Appointment.date b
  /\ Appointment.time a = Appointment.time b.

(** ** [src/components/voice/VapiWidget.tsx]: the state of the widget

    The component holds five pieces of state; the handlers it
    registers on the voice session and the click handler of its button
    are the only code that changes them. *)

Module VapiWidget.

Inductive Role : Type := assistant | user.

Record Message : Type := mkMessage
  { content : string; role : Role }.

Record State : Type := mkState
  { callActive : bool;
    connecting : bool;
    isSpeaking : bool;
    messages : list Message;
    callEnded : bool }.

(** [useState(false)], [useState([])]. *)
Definition initial : State := mkState false false false [] false.

(** A [message] event of the voice session; a field that the message
    does not have is [None]. *)
Record VapiMessage : Type := mkVapiMessage
  { type : string;
    transcriptType : option string;
    transcript : string;
    speaker : Role }.

Inductive Event : Type :=
| call_start
| call_end
| speech_start
| speech_end
| message (m : VapiMessage)
| error (e : JsError).

(** What a handler does besides setting state. *)
Inductive Effect : Type :=
| vapi_stop
| vapi_start (assistantId : string)
| log (text : string)
| log_error (text : string).

Definition handleCallStart (s : State) : State * list Effect :=
  (mkState true false (isSpeaking s) (messages s) false, [log "Call started"]).

Definition handleCallEnd (s : State) : State * list Effect :=
  (mkState false false false (messages s) true, [log "Call ended"]).

Definition handleSpeechStart (s : State) : State * list Effect :=
  (mkState (callActive s) (connecting s) true (messages s) (callEnded s), []).

Definition handleSpeechEnd (s : State) : State * list Effect :=
  (mkState (callActive s) (connecting s) false (messages s) (callEnded s), []).

Definition is_final_transcript (m : VapiMessage) : bool :=
  ((type m =? "transcript")%string
   && match transcriptType m with
      | Some t => (t =? "final")%string
      | None => false
      end)%bool.

Definition handleMessage (m : VapiMessage) (s : State) : State * list Effect :=
  if is_final_transcript m
  then (mkState (callActive s) (connecting s) (isSpeaking s)
          (messages s ++ [mkMessage (transcript m) (speaker m)]) (callEnded s),
        [])
  else (s, []).

Definition handleError (s : State) : State * list Effect :=
  (mkState false false (isSpeaking s) (messages s) (callEnded s),
   [log_error "VAPI Error:"]).

Definition handle (e : Event) (s : State) : State * list Effect :=
  match e with
  | call_start => handleCallStart s
  | call_end => handleCallEnd s
  | speech_start => handleSpeechStart s
  | speech_end => handleSpeechEnd s
  | message m => handleMessage m s
  | error _ => handleError s
  end.

(** [toggleCall] up to its [await]; [assistantId] is
    [process.env.NEXT_PUBLIC_VAPI_ASSISTANT_ID]. *)
Definition toggleCall (assistantId : option string) (s : State)
  : State * list Effect :=
  if callActive s then (s, [vapi_stop])
  else
    match assistantId with
    | Some i =>
        if (i =? "")%string
        then (mkState (callActive s) false (isSpeaking s) [] false,
              [log_error "VAPI Assistant ID is missing"])
        else (mkState (callActive s) true (isSpeaking s) [] false,
              [vapi_start i])
    | None =>
        (mkState (callActive s) false (isSpeaking s) [] false,
         [log_error "VAPI Assistant ID is missing"])
    end.

(** The [catch] block of [toggleCall]: [vapi.start] was rejected. *)
Definition toggleCall_catch (s : State) : State * list Effect :=
  (mkState (callActive s) false (isSpeaking s) (messages s) (callEnded s),
   [log_error "Failed to start call"]).

(** What can happen to the widget: a click on its button (which is
    disabled while connecting), the rejection of a start, an event of
    the voice session. *)
Inductive Action : Type :=
| click
| start_rejected
| vapi (e : Event).

Definition step (assistantId : option string) (s : State) (a : Action)
  : State * list Effect :=
  match a with
  | click => if connecting s then (s, []) else toggleCall assistantId s
  | start_rejected => toggleCall_catch s
  | vapi e => handle e s
  end.

Fixpoint play (assistantId : option string) (s : State) (l : list Action)
  : State * list Effect :=
  match l with
  | [] => (s, [])
  | a :: l' =>
      let (s1, effects1) := step assistantId s a in
      let (s2, effects2) := play assistantId s1 l' in
      (s2, (effects1 ++ effects2)%list)
  end.

(** The transcript entries that a run of actions adds. *)
Definition final_of (a : Action) : list Message :=
  match a with
  | vapi (message m) =>
      if is_final_transcript m then [mkMessage (transcript m) (speaker m)]
      else []
  | _ => []
  end.

(** At most one of connecting, active and ended. *)
Definition one_phase (s : State) : Prop :=
  (connecting s && callActive s = false)%bool
  /\ (connecting s && callEnded s = false)%bool
  /\ (callActive s && callEnded s = false)%bool.

Definition is_start (e : Effect) : bool :=
  match e with vapi_start _ => true | _ => false end.

Definition is_click (a : Action) : bool :=
  match a with click => true | _ => false end.

(** The display name under the user's card. *)
Definition displayName (u : option Clerk.User) : string :=
  match u with
  | Some c =>
      JsString.trim
        (Appointments.nullish_empty (Clerk.firstName c) ++ " "
         ++ Appointments.nullish_empty (Clerk.lastName c))
  | None => "Guest"
  end.

(** A short call, for the examples. *)
Definition hello : VapiMessage :=
  mkVapiMessage "transcript" (Some "final") "Hello" assistant.

Definition hel : VapiMessage :=
  mkVapiMessage "transcript" (Some "partial") "Hel" assistant.

Definition short_call : list Action :=
  [vapi call_start; vapi speech_start; vapi (message hel);
   vapi (message hello); vapi speech_end].

End VapiWidget.

(** The first and the last code unit of a string. *)
Definition first_char (s : string) : option ascii :=
  match s with
  | EmptyString => None
  | String c _ => Some c
  end.

Definition last_char (s : string) : option ascii :=
  first_char (JsString.reverse s).

(** A string that neither starts nor ends with white space. *)
Definition trimmed (s : string) : Prop :=
  (forall c, first_char s = Some c -> JsString.is_whitespace c = false)
  /\ (forall c, last_char s = Some c -> JsString.is_whitespace c = false).

(** ** The calendar, counted the long way

    The day number of a calendar date is the number of days from
    1970-01-01: the days of the whole years between, the days of the
    whole months of its year before its month, and the days of its
    month before it. *)

(** The number of leap years among the years 1 to [y - 1]. *)
Definition leap_days_before (y : Z) : Z :=
  (y - 1) / 4 - (y - 1) / 100 + (y - 1) / 400.

Definition days_before_year (y : Z) : Z :=
  365 * (y - 1970) + (leap_days_before y - leap_days_before 1970).

Definition days_before_month (y m : Z) : Z :=
  List.fold_right Z.add 0
    (List.map (fun k => JsDate.days_in_month y (Z.of_nat k))
       (List.seq 1 (Z.to_nat (m - 1)))).

Definition day_number (y m d : Z) : Z :=
  days_before_year y + days_before_month y m + (d - 1).

Definition is_calendar_date (y m d : Z) : Prop :=
  1 <= m <= 12 /\ 1 <= d <= JsDate.days_in_month y m.

(** The year, month and day that a string of the form [YYYY-MM-DD], or
    of the form [+YYYYYY-MM-DD] or [-YYYYYY-MM-DD] of the years that
    need more than four digits, spells out. *)
Definition date_fields (s : string) : option (Z * Z * Z) :=
  match list_ascii_of_string s with
  | [y1; y2; y3; y4; h1; m1; m2; h2; d1; d2] =>
      if (Ascii.eqb h1 "-" && Ascii.eqb h2 "-")%bool then
        match JsDate.number_value 0 [y1; y2; y3; y4],
              JsDate.number_value 0 [m1; m2],
              JsDate.number_value 0 [d1; d2] with
        | Some y, Some m, Some d => Some (y, m, d)
        | _, _, _ => None
        end
      else None
  | [sg; y1; y2; y3; y4; y5; y6; h1; m1; m2; h2; d1; d2] =>
      if (Ascii.eqb h1 "-" && Ascii.eqb h2 "-")%bool then
        match JsDate.number_value 0 [y1; y2; y3; y4; y5; y6],
              JsDate.number_value 0 [m1; m2],
              JsDate.number_value 0 [d1; d2] with
        | Some y, Some m, Some d =>
            if Ascii.eqb sg "+" then Some (y, m, d)
            else if Ascii.eqb sg "-" then Some (- y, m, d)
            else None
        | _, _, _ => None
        end
      else None
  | _ => None
  end.

(** The string [s] spells out the calendar day, in UTC, that the time
    value [t] falls on; a day has 86,400,000 milliseconds. *)
Definition shows_day_of (s : string) (t : Z) : Prop :=
  exists y m d,
    date_fields s = Some (y, m, d)
    /\ is_calendar_date y m d
    /\ day_number y m d = t / 86400000.

(** Time values whose year is written with four digits. *)
Definition in_years_0_to_9999 (t : Z) : Prop :=
  day_number 0 1 1 * 86400000 <= t < day_number 10000 1 1 * 86400000.

(** Time values at midnight UTC, those of the date-only strings. *)
Definition at_midnight (t : Z) : Prop := t mod 86400000 = 0.

Fixpoint all_whitespace (s : string) : bool :=
  match s with
  | EmptyString => true
  | String c s' => (JsString.is_whitespace c && all_whitespace s')%bool
  end.

(** A text that is missing counts as the empty string. *)
Definition or_empty (x : option string) : string :=
  match x with Some s => s | None => "" end.

(** [r] is [s] without the white space at its two ends. *)
Definition is_trim_of (s r : string) : Prop :=
  trimmed r
  /\ exists pre post,
       s = pre ++ r ++ post
       /\ all_whitespace pre = true /\ all_whitespace post = true.

(** The order of the dates that the records show. *)
Definition shown_date_le (v1 v2 : View.t) : Prop :=
  String.leb (View.date v1) (View.date v2) = true.

(** By the date that the records show, then by time label. *)
Definition shown_date_time_le (v1 v2 : View.t) : Prop :=
  String.ltb (View.date v1) (View.date v2) = true
  \/ (View.date v1 = View.date v2
      /\ String.leb (View.time v1) (View.time v2) = true).

(** ** Scenes with a time of day *)

Module WithTimeOfDay.

(** A booking whose date carries a time of day. *)
Definition booking : Appointments.BookAppointmentInput :=
  Appointments.mkInput "d1" "2024-06-01T10:00:00Z" "08:00" None.

(** The world once Ada, on her first visit, has made that booking. *)
Definition booked : World :=
  snd (run (Appointments.bookAppointment JsDate.parse_iso booking)
         Scenes.first_visit).

(** The world once she has also made the date-only booking of the
    specification's example, for 09:00 of the same day. *)
Definition booked_twice : World :=
  snd (run (Appointments.bookAppointment JsDate.parse_iso Demo.booking)
         booked).

End WithTimeOfDay.

(** ** A request that runs between the two counts of the stats *)

(** A request that books an appointment and marks it completed. *)
Definition book_and_complete : Prog Appointment.t :=
  v <- Appointments.bookAppointment JsDate.parse_date_only Demo.booking ;;
  Appointments.updateAppointmentStatus
    (Appointments.mkUpdate (View.id v) COMPLETED).

(** The stats request moves up to and including its first count, the
    other request runs to its end, then the stats request takes its
    second count. *)
Definition between_the_counts : list bool :=
  [true; true; true; true; true; true; false; false; false; false; false].

(** ** Two syncs of [users.ts] in flight *)

(** [ensureUserExists] of [users.ts] once [currentUser] has answered
    with the profile [c], whose first email address is [email]: it is
    about to await the upsert. *)
Definition users_sync_awaiting (c : Clerk.User) (email : string)
  : Prog (option User.t) :=
  try_catch
    (dbUser <- await (Users.upsert_of c email) ;;
     Ret (Some dbUser))
    (fun error =>
       console_error "Error in ensureUserExists:" (thrown error) ;;
       Throw error).

(** The update part of the upsert of [users.ts]. *)
Definition profile_update (c : Clerk.User) (email : string)
  : UserUpdateInput.t :=
  UserUpdateInput.mk (Clerk.firstName c) (Clerk.lastName c) email
    (Users.first_phone c).

(** Where a request running the sync can be: at its start, awaiting the
    upsert, or done with the row that the table holds. *)
Definition sync_thread (c : Clerk.User) (email : string)
  (p : Prog (option User.t)) (w : World) : Prop :=
  p = Users.ensureUserExists
  \/ p = users_sync_awaiting c email
  \/ exists u,
       p = Ret (Some u)
       /\ Prisma.find_user_by_clerkId (Clerk.id c) (users (db w)) = Some u.

(** The worlds the two requests go through: no failure pending, and the
    row of the identity, once there, is single and in sync with the
    profile. *)
Definition sync_world (c : Clerk.User) (email : string) (w : World) : Prop :=
  clerk w = Some c
  /\ faults w = []
  /\ match Prisma.find_user_by_clerkId (Clerk.id c) (users (db w)) with
     | Some u =>
         Prisma.update_user (profile_update c email) u = u
         /\ rows_of (Clerk.id c) (users (db w)) = 1%nat
     | None => True
     end.

(** * Properties *)

(** ** Running composed programs *)

Lemma run_bind {A B} (p : Prog A) (f : A -> Prog B) (w : World) :
  run (bind p f) w =
  match run p w with
  | (Ok a, w') => run (f a) w'
  | (Err e, w') => (Err e, w')
  end.
Proof.
  revert w. induction p as [a | e | entry k IH | R op k IH]; intro w; simpl.
  - reflexivity.
  - reflexivity.
  - apply IH.
  - destruct (Prisma.exec op w) as [r w']. apply IH.
Qed.

Lemma run_try_catch {A} (p : Prog A) (h : JsError -> Prog A) (w : World) :
  run (try_catch p h) w =
  match run p w with
  | (Ok a, w') => (Ok a, w')
  | (Err e, w') => run (h e) w'
  end.
Proof.
  revert w. induction p as [a | e | entry k IH | R op k IH]; intro w; simpl.
  - reflexivity.
  - reflexivity.
  - apply IH.
  - destruct (Prisma.exec op w) as [r w']. apply IH.
Qed.

Lemma run_await {R} (op : Op R) (w : World) :
  run (await op) w = Prisma.exec op w.
Proof.
  unfold await; simpl. destruct (Prisma.exec op w) as [[v | e] w']; reflexivity.
Qed.

(** A persistence call whose fate is to go through. *)
Lemma exec_passes {R} (op : Op R) (c : DbCall) (w : World) :
  call_of op = Some c -> next_fault w = None ->
  Prisma.exec op w = Prisma.perform op (after_call c w).
Proof.
  intros Hc Hf. unfold Prisma.exec. rewrite Hc, Hf. reflexivity.
Qed.

(** A persistence call whose fate is to fail. *)
Lemma exec_fails {R} (op : Op R) (c : DbCall) (w : World) (e : JsError) :
  call_of op = Some c -> next_fault w = Some e ->
  Prisma.exec op w = (Err e, after_call c w).
Proof.
  intros Hc Hf. unfold Prisma.exec. rewrite Hc, Hf. reflexivity.
Qed.

(** ** Strings and dates *)

Lemma contains_app (c : ascii) (s t : string) :
  JsString.contains c (s ++ t) =
  (JsString.contains c s || JsString.contains c t)%bool.
Proof.
  induction s as [| c' s IH]; simpl.
  - reflexivity.
  - rewrite IH. apply orb_assoc.
Qed.

(** The first piece of a split is what precedes the first separator. *)
Lemma split_first_piece (c : ascii) (s t : string) :
  JsString.contains c s = false ->
  List.hd "" (JsString.split c (s ++ String c t)) = s.
Proof.
  induction s as [| c' s IH]; simpl; intro H.
  - rewrite Ascii.eqb_refl. reflexivity.
  - apply orb_false_iff in H as [Hc Hs].
    rewrite Hc. specialize (IH Hs).
    destruct (JsString.split c (s ++ String c t)) as [| piece pieces];
      simpl in *; congruence.
Qed.

Lemma digit_char_is_digit (n : Z) :
  exists k, (k < 10)%nat /\ JsDate.digit_char n = ascii_of_nat (48 + k).
Proof.
  exists (Z.to_nat (n mod 10)). split; [| reflexivity].
  pose proof (Z.mod_pos_bound n 10 ltac:(lia)). lia.
Qed.

Lemma digit_char_not (c : ascii) (n : Z) :
  (nat_of_ascii c < 48 \/ 57 < nat_of_ascii c)%nat ->
  Ascii.eqb (JsDate.digit_char n) c = false.
Proof.
  intro H. destruct (digit_char_is_digit n) as (k & Hk & ->).
  apply Ascii.eqb_neq. intro E. subst c.
  rewrite nat_ascii_embedding in H; lia.
Qed.

Lemma pad_digits_without (c : ascii) (width : nat) (n : Z) :
  (nat_of_ascii c < 48 \/ 57 < nat_of_ascii c)%nat ->
  JsString.contains c (JsDate.pad_digits width n) = false.
Proof.
  intro H. revert n. induction width as [| w IH]; intro n; simpl.
  - reflexivity.
  - rewrite contains_app, IH.
    change (JsString.contains c (String (JsDate.digit_char n) ""))
      with (Ascii.eqb (JsDate.digit_char n) c || false)%bool.
    rewrite digit_char_not by exact H. reflexivity.
Qed.

(** The date part of an ISO string holds digits, hyphens and at most a
    sign: no [T]. *)
Lemma iso_date_without_T (t : Z) :
  JsString.contains "T" (JsDate.iso_date t) = false.
Proof.
  unfold JsDate.iso_date.
  destruct (JsDate.civil_from_days (t / JsDate.msPerDay)) as [[y m] d].
  assert (HT : (nat_of_ascii "T" < 48 \/ 57 < nat_of_ascii "T")%nat)
    by (right; apply Nat.ltb_lt; reflexivity).
  rewrite !contains_app.
  rewrite !(pad_digits_without "T" _ _ HT).
  unfold JsDate.year_string.
  destruct ((0 <=? y) && (y <=? 9999))%bool.
  - rewrite (pad_digits_without "T" _ _ HT). reflexivity.
  - rewrite contains_app, (pad_digits_without "T" _ _ HT).
    destruct (y <? 0); reflexivity.
Qed.

(** [d.toISOString().split("T")[0]] is the calendar date of [d]. *)
Lemma iso_string_date_part (t : Z) :
  List.hd "" (JsString.split "T" (JsDate.toISOString t)) = JsDate.iso_date t.
Proof.
  unfold JsDate.toISOString.
  change (JsDate.iso_date t ++ "T" ++ JsDate.iso_time t)
    with (JsDate.iso_date t ++ String "T" (JsDate.iso_time t)).
  apply split_first_piece, iso_date_without_T.
Qed.

(** ** The calendar of [civil_from_days] *)

Lemma is_leap_spec (y : Z) :
  JsDate.is_leap y = true
  <-> (y mod 4 = 0 /\ (y mod 100 <> 0 \/ y mod 400 = 0)).
Proof.
  unfold JsDate.is_leap.
  rewrite andb_true_iff, orb_true_iff, negb_true_iff, !Z.eqb_eq, Z.eqb_neq.
  tauto.
Qed.

Lemma is_leap_cases (y : Z) :
  (JsDate.is_leap y = true
   /\ y mod 4 = 0 /\ (y mod 100 <> 0 \/ y mod 400 = 0))
  \/ (JsDate.is_leap y = false
      /\ ~ (y mod 4 = 0 /\ (y mod 100 <> 0 \/ y mod 400 = 0))).
Proof.
  pose proof (is_leap_spec y) as H. destruct (JsDate.is_leap y).
  - left. split; [reflexivity | apply H; reflexivity].
  - right. split; [reflexivity |]. intro P. apply H in P. discriminate.
Qed.

(** The day numbers of the first days of the years are what counting
    year by year from 1970 gives. *)
Lemma days_before_year_next (y : Z) :
  days_before_year 1970 = 0
  /\ days_before_year (y + 1)
     = days_before_year y + (if JsDate.is_leap y then 366 else 365).
Proof.
  split; [reflexivity |].
  unfold days_before_year, leap_days_before.
  replace (y + 1 - 1) with y by lia.
  destruct (is_leap_cases y) as [(-> & L) | (-> & L)];
    Z.div_mod_to_equations; lia.
Qed.

Lemma days_before_month_values (y : Z) :
  days_before_month y 1 = 0
  /\ days_before_month y 2 = 31
  /\ days_before_month y 3 = 59 + (if JsDate.is_leap y then 1 else 0)
  /\ days_before_month y 4 = 90 + (if JsDate.is_leap y then 1 else 0)
  /\ days_before_month y 5 = 120 + (if JsDate.is_leap y then 1 else 0)
  /\ days_before_month y 6 = 151 + (if JsDate.is_leap y then 1 else 0)
  /\ days_before_month y 7 = 181 + (if JsDate.is_leap y then 1 else 0)
  /\ days_before_month y 8 = 212 + (if JsDate.is_leap y then 1 else 0)
  /\ days_before_month y 9 = 243 + (if JsDate.is_leap y then 1 else 0)
  /\ days_before_month y 10 = 273 + (if JsDate.is_leap y then 1 else 0)
  /\ days_before_month y 11 = 304 + (if JsDate.is_leap y then 1 else 0)
  /\ days_before_month y 12 = 334 + (if JsDate.is_leap y then 1 else 0).
Proof.
  unfold days_before_month, JsDate.days_in_month.
  destruct (JsDate.is_leap y); cbn; repeat split; reflexivity.
Qed.

Lemma days_in_month_values (y : Z) :
  JsDate.days_in_month y 1 = 31
  /\ JsDate.days_in_month y 2 = 28 + (if JsDate.is_leap y then 1 else 0)
  /\ JsDate.days_in_month y 3 = 31 /\ JsDate.days_in_month y 4 = 30
  /\ JsDate.days_in_month y 5 = 31 /\ JsDate.days_in_month y 6 = 30
  /\ JsDate.days_in_month y 7 = 31 /\ JsDate.days_in_month y 8 = 31
  /\ JsDate.days_in_month y 9 = 30 /\ JsDate.days_in_month y 10 = 31
  /\ JsDate.days_in_month y 11 = 30 /\ JsDate.days_in_month y 12 = 31.
Proof.
  unfold JsDate.days_in_month.
  destruct (JsDate.is_leap y); cbn; repeat split; reflexivity.
Qed.

Ltac months_of y :=
  let B := fresh "B" in
  let M := fresh "M" in
  pose proof (days_before_month_values y) as B;
  pose proof (days_in_month_values y) as M;
  decompose [and] B; decompose [and] M; clear B M.

Ltac each_month m :=
  let H := fresh "Hmonth" in
  assert (H : m = 1 \/ m = 2 \/ m = 3 \/ m = 4 \/ m = 5 \/ m = 6
              \/ m = 7 \/ m = 8 \/ m = 9 \/ m = 10 \/ m = 11 \/ m = 12)
    by lia;
  destruct H as [-> | [-> | [-> | [-> | [-> | [-> | [-> | [-> | [->
                | [-> | [-> | ->]]]]]]]]]]].

(** [civil_from_days] is the calendar: the year, month and day it
    gives for a day number make a calendar date, and that date has this
    day number. *)
Lemma civil_from_days_calendar (z : Z) :
  let '(y, m, d) := JsDate.civil_from_days z in
  is_calendar_date y m d /\ day_number y m d = z.
Proof.
  unfold JsDate.civil_from_days, is_calendar_date.
  set (era := (z + 719468) / 146097).
  set (doe := z + 719468 - era * 146097).
  assert (Hdoe : 0 <= doe <= 146096)
    by (subst doe era; Z.div_mod_to_equations; lia).
  assert (Hz : z = era * 146097 + doe - 719468) by (subst doe; lia).
  clearbody doe era. subst z.
  set (yoe := (doe - doe / 1460 + doe / 36524 - doe / 146096) / 365).
  assert (Hyoe : 0 <= yoe <= 399)
    by (subst yoe; Z.div_mod_to_equations; lia).
  set (doy := doe - (365 * yoe + yoe / 4 - yoe / 100)).
  assert (Hdoy : 0 <= doy <= 365)
    by (subst doy yoe; Z.div_mod_to_equations; lia).
  assert (Hleap : doy = 365 ->
                  yoe mod 4 = 3 /\ (yoe mod 100 <> 99 \/ yoe = 399))
    by (subst doy yoe; Z.div_mod_to_equations; lia).
  assert (Hdoe' : doe = doy + 365 * yoe + yoe / 4 - yoe / 100)
    by (subst doy; lia).
  clearbody doy yoe. subst doe. clear Hdoe.
  set (mp := (5 * doy + 2) / 153).
  assert (Hmp : 153 * mp <= 5 * doy + 2 < 153 * mp + 153)
    by (subst mp; Z.div_mod_to_equations; lia).
  clearbody mp.
  set (d := doy - (153 * mp + 2) / 5 + 1).
  set (m := if mp <? 10 then mp + 3 else mp - 9).
  assert (Hm : (mp <= 9 /\ m = mp + 3) \/ (10 <= mp /\ m = mp - 9))
    by (subst m; destruct (Z.ltb_spec mp 10); lia).
  clearbody m.
  set (y := if m <=? 2 then yoe + era * 400 + 1 else yoe + era * 400).
  assert (Hy : (m <= 2 /\ y = yoe + era * 400 + 1)
               \/ (3 <= m /\ y = yoe + era * 400))
    by (subst y; destruct (Z.leb_spec m 2); lia).
  clearbody y.
  unfold day_number, days_before_year, leap_days_before.
  months_of y.
  destruct (is_leap_cases y) as [(E & L) | (E & L)]; rewrite E in *;
    each_month m; subst d; Z.div_mod_to_equations; lia.
Qed.

Lemma days_before_month_range (y m : Z) :
  1 <= m <= 12 -> 0 <= days_before_month y m <= 335.
Proof.
  intro Hm. months_of y.
  destruct (JsDate.is_leap y); each_month m; lia.
Qed.

Lemma days_in_month_range (y m : Z) :
  1 <= m <= 12 -> 28 <= JsDate.days_in_month y m <= 31.
Proof.
  intro Hm. months_of y.
  destruct (JsDate.is_leap y); each_month m; lia.
Qed.

(** A later first day of a year has a larger day number. *)
Lemma days_before_year_le (y1 y2 : Z) :
  y1 <= y2 -> days_before_year y1 <= days_before_year y2.
Proof.
  unfold days_before_year, leap_days_before. intro H.
  Z.div_mod_to_equations. lia.
Qed.

(** The day number follows the order of the calendar dates: by year,
    then by month, then by day. *)
Lemma day_number_increasing (y1 m1 d1 y2 m2 d2 : Z) :
  is_calendar_date y1 m1 d1 -> is_calendar_date y2 m2 d2 ->
  y1 < y2 \/ (y1 = y2 /\ (m1 < m2 \/ (m1 = m2 /\ d1 < d2))) ->
  day_number y1 m1 d1 < day_number y2 m2 d2.
Proof.
  unfold is_calendar_date, day_number.
  intros [Hm1 Hd1] [Hm2 Hd2] [Hy | [<- [Hm | [<- Hd]]]].
  - pose proof (days_before_year_le (y1 + 1) y2 ltac:(lia)) as Hle.
    destruct (days_before_year_next y1) as [_ Hnext].
    pose proof (days_before_month_range y2 m2 Hm2) as Hr2.
    assert (Hin : days_before_month y1 m1 + d1
                  <= (if JsDate.is_leap y1 then 366 else 365)).
    { clear Hle Hnext Hr2 Hd2 Hm2. months_of y1.
      destruct (JsDate.is_leap y1); each_month m1; lia. }
    lia.
  - assert (Hin : days_before_month y1 m1 + d1 <= days_before_month y1 m2).
    { clear Hd2. months_of y1.
      destruct (JsDate.is_leap y1); each_month m1; try lia;
        each_month m2; lia. }
    lia.
  - lia.
Qed.

(** Two calendar dates with the same day number are the same date. *)
Lemma day_number_le (y1 m1 d1 y2 m2 d2 : Z) :
  is_calendar_date y1 m1 d1 -> is_calendar_date y2 m2 d2 ->
  day_number y1 m1 d1 <= day_number y2 m2 d2 ->
  y1 < y2 \/ (y1 = y2 /\ (m1 < m2 \/ (m1 = m2 /\ d1 <= d2))).
Proof.
  intros H1 H2 Hle.
  destruct (Z.lt_trichotomy y1 y2) as [Hy | [Hy | Hy]]; [lia | |].
  - destruct (Z.lt_trichotomy m1 m2) as [Hm | [Hm | Hm]]; [lia | |].
    + destruct (Z.le_gt_cases d1 d2) as [Hd | Hd]; [lia |].
      pose proof (day_number_increasing y2 m2 d2 y1 m1 d1 H2 H1) as Hlt.
      lia.
    + pose proof (day_number_increasing y2 m2 d2 y1 m1 d1 H2 H1) as Hlt.
      lia.
  - pose proof (day_number_increasing y2 m2 d2 y1 m1 d1 H2 H1) as Hlt.
    lia.
Qed.

(** ** Reading a date string back *)

Lemma digit_value_digit_char (n : Z) :
  JsDate.digit_value (JsDate.digit_char n) = Some (n mod 10).
Proof.
  unfold JsDate.digit_value, JsDate.digit_char.
  pose proof (Z.mod_pos_bound n 10 ltac:(lia)) as Hn.
  rewrite nat_ascii_embedding by lia.
  replace (Nat.leb 48 (48 + Z.to_nat (n mod 10))) with true
    by (symmetry; apply Nat.leb_le; lia).
  replace (Nat.leb (48 + Z.to_nat (n mod 10)) 57) with true
    by (symmetry; apply Nat.leb_le; lia).
  cbn [andb]. f_equal. lia.
Qed.

Lemma number_value_pad2 (n : Z) :
  0 <= n <= 99 ->
  JsDate.number_value 0 (list_ascii_of_string (JsDate.pad_digits 2 n))
  = Some n.
Proof.
  intro H. cbn [JsDate.pad_digits String.append list_ascii_of_string
                JsDate.number_value].
  rewrite !digit_value_digit_char. f_equal.
  Z.div_mod_to_equations. lia.
Qed.

Lemma number_value_pad4 (n : Z) :
  0 <= n <= 9999 ->
  JsDate.number_value 0 (list_ascii_of_string (JsDate.pad_digits 4 n))
  = Some n.
Proof.
  intro H. cbn [JsDate.pad_digits String.append list_ascii_of_string
                JsDate.number_value].
  rewrite !digit_value_digit_char. f_equal.
  Z.div_mod_to_equations. lia.
Qed.

Lemma number_value_pad6 (n : Z) :
  0 <= n <= 999999 ->
  JsDate.number_value 0 (list_ascii_of_string (JsDate.pad_digits 6 n))
  = Some n.
Proof.
  intro H. cbn [JsDate.pad_digits String.append list_ascii_of_string
                JsDate.number_value].
  rewrite !digit_value_digit_char. f_equal.
  Z.div_mod_to_equations. lia.
Qed.

(** The date that [iso_date] writes, read back. *)
Lemma date_fields_written (y m d : Z) :
  - 999999 <= y <= 999999 -> 0 <= m <= 99 -> 0 <= d <= 99 ->
  date_fields (JsDate.year_string y ++ "-" ++ JsDate.pad_digits 2 m ++ "-"
               ++ JsDate.pad_digits 2 d) = Some (y, m, d).
Proof.
  intros Hy Hm Hd.
  pose proof (number_value_pad2 m Hm) as Rm.
  pose proof (number_value_pad2 d Hd) as Rd.
  unfold JsDate.year_string.
  destruct ((0 <=? y) && (y <=? 9999))%bool eqn:Hfour.
  - apply andb_true_iff in Hfour as [H0 H1].
    apply Z.leb_le in H0, H1.
    pose proof (number_value_pad4 y ltac:(lia)) as Ry.
    revert Ry Rm Rd.
    cbn [JsDate.pad_digits String.append list_ascii_of_string].
    unfold date_fields.
    cbn [JsDate.pad_digits String.append list_ascii_of_string].
    intros -> -> ->. reflexivity.
  - assert (Hout : y < 0 \/ 9999 < y).
    { apply andb_false_iff in Hfour as [H | H];
        [apply Z.leb_gt in H | apply Z.leb_gt in H]; lia. }
    pose proof (number_value_pad6 (Z.abs y) ltac:(lia)) as Ry.
    revert Ry Rm Rd.
    destruct (Z.ltb_spec y 0) as [Hneg | Hpos].
    + cbn [JsDate.pad_digits String.append list_ascii_of_string].
      unfold date_fields.
      cbn [JsDate.pad_digits String.append list_ascii_of_string].
      intros -> -> ->. cbn. f_equal. f_equal. f_equal. lia.
    + cbn [JsDate.pad_digits String.append list_ascii_of_string].
      unfold date_fields.
      cbn [JsDate.pad_digits String.append list_ascii_of_string].
      intros -> -> ->. cbn. f_equal. f_equal. f_equal. lia.
Qed.

(** The year of a day number within 100,000,000 days of the epoch has
    at most six digits. *)
Lemma civil_year_range (y m d : Z) :
  is_calendar_date y m d ->
  - 100000000 <= day_number y m d <= 100000000 ->
  - 999999 <= y <= 999999.
Proof.
  intros [Hm Hd] Hz.
  pose proof (days_before_month_range y m Hm) as Hr.
  pose proof (days_in_month_range y m Hm) as Hr'.
  unfold day_number, days_before_year, leap_days_before in Hz.
  Z.div_mod_to_equations. lia.
Qed.

(** The date part of [toISOString] spells out the UTC calendar day of
    the time value. *)
Lemma iso_date_shows_day (t : Z) :
  Z.abs t <= JsDate.maxTime -> shows_day_of (JsDate.iso_date t) t.
Proof.
  intro Ht. unfold shows_day_of, JsDate.iso_date.
  pose proof (civil_from_days_calendar (t / JsDate.msPerDay)) as Hcal.
  destruct (JsDate.civil_from_days (t / JsDate.msPerDay)) as [[y m] d].
  destruct Hcal as [Hdate Hnum].
  assert (Hdays : - 100000000 <= t / JsDate.msPerDay <= 100000000).
  { unfold JsDate.maxTime, JsDate.msPerDay in *.
    Z.div_mod_to_equations. lia. }
  rewrite <- Hnum in Hdays.
  pose proof (civil_year_range y m d Hdate Hdays) as Hy.
  destruct Hdate as [Hm Hd].
  pose proof (days_in_month_range y m Hm) as Hr.
  exists y, m, d. split; [| split; [split; assumption | exact Hnum]].
  apply date_fields_written; lia.
Qed.

(** ** The order of date strings *)

Lemma string_length_app (s t : string) :
  String.length (s ++ t) = (String.length s + String.length t)%nat.
Proof.
  induction s as [| c s IH]; simpl; [reflexivity | rewrite IH; reflexivity].
Qed.

Lemma pad_digits_length (w : nat) (n : Z) :
  String.length (JsDate.pad_digits w n) = w.
Proof.
  revert n. induction w as [| w IH]; intro n; cbn [JsDate.pad_digits].
  - reflexivity.
  - rewrite string_length_app, IH. cbn. apply Nat.add_1_r.
Qed.

(** Strings of equal length that are followed by more text compare
    first, the rest breaks the tie. *)
Lemma string_compare_app (s1 s2 t1 t2 : string) :
  String.length s1 = String.length s2 ->
  String.compare (s1 ++ t1) (s2 ++ t2)
  = match String.compare s1 s2 with
    | Eq => String.compare t1 t2
    | c => c
    end.
Proof.
  revert s2. induction s1 as [| a s1 IH]; intros [| b s2] H;
    try discriminate H.
  - reflexivity.
  - cbn [String.append String.compare].
    destruct (Ascii.compare a b); try reflexivity.
    apply IH. injection H as H. exact H.
Qed.

Lemma digit_char_compare (a b : Z) :
  Ascii.compare (JsDate.digit_char a) (JsDate.digit_char b)
  = Z.compare (a mod 10) (b mod 10).
Proof.
  unfold Ascii.compare, JsDate.digit_char, ascii_of_nat.
  pose proof (Z.mod_pos_bound a 10 ltac:(lia)) as Ha.
  pose proof (Z.mod_pos_bound b 10 ltac:(lia)) as Hb.
  rewrite !N_ascii_embedding by lia.
  rewrite <- N2Z.inj_compare, !nat_N_Z, !Nat2Z.inj_add, !Z2Nat.id by lia.
  apply Z.add_compare_mono_l.
Qed.

Lemma pad_digits_compare (w : nat) (a b : Z) :
  0 <= a < 10 ^ Z.of_nat w -> 0 <= b < 10 ^ Z.of_nat w ->
  String.compare (JsDate.pad_digits w a) (JsDate.pad_digits w b)
  = Z.compare a b.
Proof.
  revert a b. induction w as [| w IH]; intros a b Ha Hb.
  - cbn in Ha, Hb. replace a with 0 by lia. replace b with 0 by lia.
    reflexivity.
  - rewrite Nat2Z.inj_succ, Z.pow_succ_r in Ha, Hb by lia.
    cbn [JsDate.pad_digits].
    rewrite string_compare_app by (rewrite !pad_digits_length; reflexivity).
    rewrite IH by (Z.div_mod_to_equations; lia).
    cbn [String.compare]. rewrite digit_char_compare.
    destruct (Z.compare_spec (a / 10) (b / 10)) as [E | L | G];
      destruct (Z.compare_spec (a mod 10) (b mod 10)) as [E' | L' | G'];
      symmetry;
      first [apply Z.compare_eq_iff | apply Z.compare_lt_iff
            | apply Z.compare_gt_iff];
      Z.div_mod_to_equations; lia.
Qed.

(** Dates written with four-digit years compare as strings the way
    they compare in the calendar. *)
Lemma written_date_compare (y1 m1 d1 y2 m2 d2 : Z) :
  0 <= y1 <= 9999 -> 0 <= y2 <= 9999 ->
  0 <= m1 <= 99 -> 0 <= m2 <= 99 -> 0 <= d1 <= 99 -> 0 <= d2 <= 99 ->
  String.compare
    (JsDate.year_string y1 ++ "-" ++ JsDate.pad_digits 2 m1 ++ "-"
     ++ JsDate.pad_digits 2 d1)
    (JsDate.year_string y2 ++ "-" ++ JsDate.pad_digits 2 m2 ++ "-"
     ++ JsDate.pad_digits 2 d2)
  = match Z.compare y1 y2 with
    | Eq => match Z.compare m1 m2 with
            | Eq => Z.compare d1 d2
            | c => c
            end
    | c => c
    end.
Proof.
  intros Hy1 Hy2 Hm1 Hm2 Hd1 Hd2. unfold JsDate.year_string.
  replace ((0 <=? y1) && (y1 <=? 9999))%bool with true
    by (symmetry; apply andb_true_iff; split; apply Z.leb_le; lia).
  replace ((0 <=? y2) && (y2 <=? 9999))%bool with true
    by (symmetry; apply andb_true_iff; split; apply Z.leb_le; lia).
  rewrite string_compare_app by (rewrite !pad_digits_length; reflexivity).
  rewrite (pad_digits_compare 4) by (cbn; lia).
  destruct (Z.compare y1 y2); try reflexivity.
  change ("-" ++ JsDate.pad_digits 2 m1 ++ "-" ++ JsDate.pad_digits 2 d1)
    with (String "-" (JsDate.pad_digits 2 m1
                      ++ String "-" (JsDate.pad_digits 2 d1))).
  change ("-" ++ JsDate.pad_digits 2 m2 ++ "-" ++ JsDate.pad_digits 2 d2)
    with (String "-" (JsDate.pad_digits 2 m2
                      ++ String "-" (JsDate.pad_digits 2 d2))).
  cbn [String.compare].
  change (Ascii.compare "-" "-") with Eq. cbv iota.
  rewrite string_compare_app by (rewrite !pad_digits_length; reflexivity).
  rewrite (pad_digits_compare 2) by (cbn; lia).
  destruct (Z.compare m1 m2); try reflexivity.
  cbn [String.compare].
  change (Ascii.compare "-" "-") with Eq. cbv iota.
  apply (pad_digits_compare 2); cbn; lia.
Qed.

(** The year of a time value written with four digits. *)
Lemma civil_year_four_digits (y m d t : Z) :
  is_calendar_date y m d ->
  day_number y m d = t / JsDate.msPerDay ->
  in_years_0_to_9999 t ->
  0 <= y <= 9999.
Proof.
  intros Hdate Hnum [Hlow Hhigh].
  assert (Hfirst : is_calendar_date 0 1 1) by (split; cbn; lia).
  assert (Hlast : is_calendar_date 10000 1 1) by (split; cbn; lia).
  assert (Hdays : day_number 0 1 1 <= t / JsDate.msPerDay
                  < day_number 10000 1 1).
  { unfold JsDate.msPerDay in *. Z.div_mod_to_equations. lia. }
  rewrite <- Hnum in Hdays. destruct Hdays as [H0 H1].
  apply (day_number_le 0 1 1 y m d Hfirst Hdate) in H0.
  destruct (Z.le_gt_cases 10000 y) as [Hbig |]; [| lia].
  destruct Hdate as [Hm Hd].
  assert (Hle : day_number 10000 1 1 <= day_number y m d).
  { destruct (Z.eq_dec y 10000) as [-> | Hne].
    - destruct (Z.eq_dec m 1) as [-> | Hm1].
      + unfold day_number. lia.
      + apply Z.lt_le_incl, day_number_increasing;
          [exact Hlast | split; assumption | lia].
    - apply Z.lt_le_incl, day_number_increasing;
        [exact Hlast | split; assumption | lia]. }
  lia.
Qed.

(** Within the years 0 to 9999 the date strings of [toISOString] are in
    the order of the time values, and strictly so from one day to a
    later one. *)
Lemma iso_date_order (t1 t2 : Z) :
  in_years_0_to_9999 t1 -> in_years_0_to_9999 t2 ->
  (t1 <= t2 ->
   String.leb (JsDate.iso_date t1) (JsDate.iso_date t2) = true)
  /\ (t1 / JsDate.msPerDay < t2 / JsDate.msPerDay ->
      String.ltb (JsDate.iso_date t1) (JsDate.iso_date t2) = true).
Proof.
  intros H1 H2. unfold JsDate.iso_date, String.leb, String.ltb.
  pose proof (civil_from_days_calendar (t1 / JsDate.msPerDay)) as C1.
  pose proof (civil_from_days_calendar (t2 / JsDate.msPerDay)) as C2.
  destruct (JsDate.civil_from_days (t1 / JsDate.msPerDay)) as [[y1 m1] d1].
  destruct (JsDate.civil_from_days (t2 / JsDate.msPerDay)) as [[y2 m2] d2].
  destruct C1 as [Hdate1 Hnum1]. destruct C2 as [Hdate2 Hnum2].
  pose proof (civil_year_four_digits y1 m1 d1 t1 Hdate1 Hnum1 H1) as Hy1.
  pose proof (civil_year_four_digits y2 m2 d2 t2 Hdate2 Hnum2 H2) as Hy2.
  pose proof (days_in_month_range y1 m1 (proj1 Hdate1)) as R1.
  pose proof (days_in_month_range y2 m2 (proj1 Hdate2)) as R2.
  pose proof (day_number_le y1 m1 d1 y2 m2 d2 Hdate1 Hdate2) as Hle.
  pose proof (day_number_le y2 m2 d2 y1 m1 d1 Hdate2 Hdate1) as Hge.
  rewrite Hnum1, Hnum2 in Hle, Hge.
  destruct Hdate1 as [Hm1 Hd1]. destruct Hdate2 as [Hm2 Hd2].
  rewrite written_date_compare by lia.
  split; intro Hord.
  - assert (Hdays : t1 / JsDate.msPerDay <= t2 / JsDate.msPerDay)
      by (apply Z.div_le_mono; [reflexivity | exact Hord]).
    specialize (Hle Hdays).
    destruct (Z.compare_spec y1 y2); [| reflexivity | lia].
    destruct (Z.compare_spec m1 m2); [| reflexivity | lia].
    destruct (Z.compare_spec d1 d2); [reflexivity | reflexivity | lia].
  - specialize (Hle ltac:(lia)).
    assert (Hne : ~ (y1 = y2 /\ m1 = m2 /\ d1 = d2)).
    { intros (-> & -> & ->). lia. }
    destruct (Z.compare_spec y1 y2); [| reflexivity | lia].
    destruct (Z.compare_spec m1 m2); [| reflexivity | lia].
    destruct (Z.compare_spec d1 d2); [lia | reflexivity | lia].
Qed.

(** A date-only string is read as midnight UTC. *)
Lemma parse_date_only_midnight (s : string) (t : Z) :
  JsDate.parse_date_only s = Some t -> at_midnight t.
Proof.
  unfold JsDate.parse_date_only, at_midnight, JsDate.msPerDay.
  repeat match goal with
         | |- context [match ?x with _ => _ end] =>
             destruct x; try discriminate
         end.
  intro H; injection H as <-. apply Z.mod_mul. discriminate.
Qed.

(** ** What [trim] does *)

Lemma trimStart_first (s : string) (c : ascii) :
  first_char (JsString.trimStart s) = Some c -> JsString.is_whitespace c = false.
Proof.
  induction s as [| a s IH]; simpl; [discriminate |].
  destruct (JsString.is_whitespace a) eqn:Ha; [exact IH |].
  simpl. intro H; injection H as <-. exact Ha.
Qed.

Lemma reverse_involutive (s : string) :
  JsString.reverse (JsString.reverse s) = s.
Proof.
  unfold JsString.reverse.
  rewrite list_ascii_of_string_of_list_ascii, rev_involutive.
  apply string_of_list_ascii_of_string.
Qed.

(** Dropping leading white space keeps a last code unit that is not
    white space. *)
Lemma trimStart_keeps_last (l : list ascii) (c : ascii) :
  JsString.is_whitespace c = false ->
  exists l',
    JsString.trimStart (string_of_list_ascii (l ++ [c]))
    = string_of_list_ascii (l' ++ [c]).
Proof.
  intro Hc. induction l as [| a l IH]; simpl.
  - rewrite Hc. exists []. reflexivity.
  - destruct (JsString.is_whitespace a); [exact IH |].
    exists (a :: l). reflexivity.
Qed.

Lemma trim_trimmed (s : string) : trimmed (JsString.trim s).
Proof.
  unfold trimmed, JsString.trim, JsString.trimEnd, last_char. split.
  - intro c. destruct (JsString.trimStart s) as [| a t] eqn:Ht.
    + cbn. discriminate.
    + assert (Ha : JsString.is_whitespace a = false)
        by (apply (trimStart_first s); rewrite Ht; reflexivity).
      unfold JsString.reverse at 2. cbn [list_ascii_of_string List.rev].
      destruct (trimStart_keeps_last (List.rev (list_ascii_of_string t)) a Ha)
        as [l' ->].
      unfold JsString.reverse.
      rewrite list_ascii_of_string_of_list_ascii, rev_app_distr. cbn.
      intro H; injection H as <-. exact Ha.
  - intro c. rewrite reverse_involutive. apply trimStart_first.
Qed.

Lemma list_ascii_of_string_app (s t : string) :
  list_ascii_of_string (s ++ t)
  = (list_ascii_of_string s ++ list_ascii_of_string t)%list.
Proof.
  induction s as [| c s IH]; cbn; [reflexivity | rewrite IH; reflexivity].
Qed.

Lemma string_of_list_ascii_app (l1 l2 : list ascii) :
  string_of_list_ascii (l1 ++ l2)
  = string_of_list_ascii l1 ++ string_of_list_ascii l2.
Proof.
  induction l1 as [| c l1 IH]; cbn; [reflexivity | rewrite IH; reflexivity].
Qed.

Lemma reverse_app (s t : string) :
  JsString.reverse (s ++ t) = JsString.reverse t ++ JsString.reverse s.
Proof.
  unfold JsString.reverse.
  rewrite list_ascii_of_string_app, rev_app_distr.
  apply string_of_list_ascii_app.
Qed.

Lemma all_whitespace_app (s t : string) :
  all_whitespace (s ++ t) = (all_whitespace s && all_whitespace t)%bool.
Proof.
  induction s as [| c s IH]; cbn [String.append all_whitespace];
    [reflexivity | rewrite IH; apply andb_assoc].
Qed.

Lemma all_whitespace_reverse (s : string) :
  all_whitespace s = true -> all_whitespace (JsString.reverse s) = true.
Proof.
  induction s as [| c s IH]; [reflexivity |].
  cbn [all_whitespace]. intro H. apply andb_true_iff in H as [Hc Hs].
  change (String c s) with (String c "" ++ s).
  rewrite reverse_app, all_whitespace_app, (IH Hs).
  cbn. rewrite Hc. reflexivity.
Qed.

(** What [trimStart] drops is white space at the start. *)
Lemma trimStart_drops (s : string) :
  exists pre, s = pre ++ JsString.trimStart s /\ all_whitespace pre = true.
Proof.
  induction s as [| c s (pre & Hs & Hpre)]; cbn [JsString.trimStart].
  - exists "". split; reflexivity.
  - destruct (JsString.is_whitespace c) eqn:Hc.
    + exists (String c pre). cbn [String.append all_whitespace].
      rewrite <- Hs, Hc, Hpre. split; reflexivity.
    + exists "". split; reflexivity.
Qed.

(** [trim] gives the string without the white space at its ends, and
    drops nothing else. *)
Lemma trim_is_trim_of (s : string) : is_trim_of s (JsString.trim s).
Proof.
  split; [apply trim_trimmed |].
  unfold JsString.trim, JsString.trimEnd.
  destruct (trimStart_drops s) as (pre & Hs & Hpre).
  destruct (trimStart_drops (JsString.reverse (JsString.trimStart s)))
    as (post & Hr & Hpost).
  exists pre, (JsString.reverse post).
  split; [| split; [exact Hpre | apply all_whitespace_reverse, Hpost]].
  rewrite <- reverse_app, <- Hr, reverse_involutive. exact Hs.
Qed.

Lemma or_default_empty (x : option string) :
  JsString.or_default x "" = or_empty x.
Proof.
  destruct x as [s |]; cbn; [| reflexivity].
  destruct (String.eqb_spec s ""); congruence.
Qed.

Section Properties.

Variable Date_parse : string -> option Z.


(** *** Booking: what is rejected before the tables are touched *)

(** C1, as amended: a call to [bookAppointment] by a caller who is
    not authenticated, or with an empty doctorId, date or time, fails
    before any persistence call: no row is created or modified, no
    call reaches the persistence layer.  The cause (not logged in,
    or, for an authenticated caller, required fields missing) goes to
    the console only; the caller receives the same generic booking
    failure in both cases. *)
Theorem bookAppointment_guards (input : Appointments.BookAppointmentInput)
  (w : World) :
  JsString.falsy (session w) = true
  \/ Appointments.doctorId input = ""
  \/ Appointments.date input = ""
  \/ Appointments.time input = "" ->
  run (Appointments.bookAppointment Date_parse input) w =
  (Err BookingFailed,
   write_console
     (mkLog level_error "Error booking appointment:"
        (thrown (rejection_cause w))) w)
  /\ db (snd (run (Appointments.bookAppointment Date_parse input) w)) = db w
  /\ calls (snd (run (Appointments.bookAppointment Date_parse input) w)) = calls w.
Proof.
  intro H.
  assert (Hrun : run (Appointments.bookAppointment Date_parse input) w =
                 (Err BookingFailed,
                  write_console
                    (mkLog level_error "Error booking appointment:"
                       (thrown (rejection_cause w))) w)).
  { unfold Appointments.bookAppointment, Appointments.bookAppointment_try,
      rejection_cause, JsString.falsy in *.
    simpl. destruct (session w) as [uid |]; simpl; [| reflexivity].
    destruct (uid =? "")%string eqn:Huid; simpl; [reflexivity |].
    destruct H as [H | [H | [H | H]]]; [discriminate | | |];
      rewrite H; simpl; rewrite ?orb_true_r; reflexivity. }
  rewrite Hrun. auto.
Qed.

(** *** Booking: the appointment that is created and returned *)

Lemma insert_user_tables (data : UserCreateInput.t) (w : World) :
  appointments (db (snd (Prisma.insert_user data w))) = appointments (db w)
  /\ doctors (db (snd (Prisma.insert_user data w))) = doctors (db w).
Proof.
  unfold Prisma.insert_user.
  destruct (Prisma.find_user_by_clerkId _ _); simpl; auto.
Qed.

(** The sync of the appointment actions touches the user table only. *)
Lemma appointments_ensureUserExists_tables (clerkId : string) (w : World) :
  appointments (db (snd (run (Appointments.ensureUserExists clerkId) w)))
  = appointments (db w)
  /\ doctors (db (snd (run (Appointments.ensureUserExists clerkId) w)))
     = doctors (db w).
Proof.
  unfold Appointments.ensureUserExists. cbn.
  destruct (clerk w) as [c |]; cbn; [| auto].
  destruct (next_fault w) as [e |]; cbn; [auto |].
  destruct (Prisma.find_user_by_clerkId clerkId _) as [u |]; cbn; [auto |].
  destruct (Users.first_email c) as [email | e]; cbn; [| auto].
  match goal with
  | |- context [Prisma.insert_user ?d ?w1] =>
      pose proof (insert_user_tables d w1) as [Ha Hd];
      destruct (next_fault (after_call (call_user_findUnique clerkId) w));
      cbn; [auto |];
      destruct (Prisma.insert_user d w1) as [[u | e] w2]; cbn in *; auto
  end.
Qed.

Lemma insert_appointment_ok (data : AppointmentCreateInput.t) (w w' : World)
  (i : Included.t) :
  Prisma.insert_appointment data w = (Ok i, w') ->
  exists t u d,
    AppointmentCreateInput.date data = Some t
    /\ Prisma.find_user_by_id (AppointmentCreateInput.userId data)
         (users (db w)) = Some u
    /\ Prisma.find_doctor (AppointmentCreateInput.doctorId data)
         (doctors (db w)) = Some d
    /\ i = Included.mk (new_appointment data t w) (Prisma.select_user u)
             (Prisma.select_doctor d)
    /\ db w' = mkDb (users (db w)) (doctors (db w))
                 (appointments (db w) ++ [new_appointment data t w]).
Proof.
  unfold Prisma.insert_appointment. intro H.
  destruct (AppointmentCreateInput.date data) as [t |]; [| discriminate].
  destruct (Prisma.find_user_by_id _ _) as [u |]; [| discriminate].
  destruct (Prisma.find_doctor _ _) as [d |]; [| discriminate].
  cbn in H. injection H as <- <-. exists t, u, d. cbn. auto 6.
Qed.

Lemma bookAppointment_ok (input : Appointments.BookAppointmentInput)
  (w w' : World) (v : View.t) :
  run (Appointments.bookAppointment Date_parse input) w = (Ok v, w') ->
  exists uid user w1 i,
    session w = Some uid
    /\ run (Appointments.ensureUserExists uid) w = (Ok user, w1)
    /\ Prisma.insert_appointment
         (AppointmentCreateInput.mk (User.id user)
            (Appointments.doctorId input)
            (Date_parse (Appointments.date input))
            (Appointments.time input)
            (JsString.or_default (Appointments.reason input)
               "General consultation")
            CONFIRMED)
         (after_call call_appointment_create w1) = (Ok i, w')
    /\ v = Appointments.transformAppointment i.
Proof.
  unfold Appointments.bookAppointment. rewrite run_try_catch.
  destruct (run _ w) as [[v0 | e] w0] eqn:Hbody; cbn; [| discriminate].
  intro H; injection H as -> ->.
  unfold Appointments.bookAppointment_try in Hbody.
  rewrite run_bind, run_await in Hbody.
  unfold Prisma.exec in Hbody. cbn [call_of Prisma.perform] in Hbody.
  destruct (session w) as [uid |]; [| discriminate].
  destruct (uid =? "")%string; [discriminate |].
  destruct (_ || _)%bool; [discriminate |].
  rewrite run_bind in Hbody.
  destruct (run (Appointments.ensureUserExists uid) w) as [[user | e] w1]
    eqn:Hsync; [| discriminate].
  rewrite run_bind, run_await in Hbody.
  unfold Prisma.exec in Hbody. cbn [call_of] in Hbody.
  destruct (next_fault w1); [discriminate |].
  cbn [Prisma.perform] in Hbody.
  destruct (Prisma.insert_appointment _ _) as [[i | e] w2] eqn:Hins;
    [| discriminate].
  cbn in Hbody. injection Hbody as <- <-.
  exists uid, user, w1, i. auto.
Qed.


(** *** Booked slots *)

Lemma matches_booked (doctorId : string) (t : Z) (a : Appointment.t) :
  Prisma.matches (booked_where doctorId (Some t)) a = true <->
  Appointment.doctorId a = doctorId /\ Appointment.date a = t /\ holds_slot a.
Proof.
  unfold Prisma.matches, booked_where, holds_slot, Prisma.holds. cbn.
  rewrite !andb_true_iff, String.eqb_eq, Z.eqb_eq, orb_false_r, orb_true_iff.
  destruct (Appointment.status a); cbn; intuition congruence.
Qed.

Lemma run_getBookedTimeSlots (doctorId date : string) (w : World) :
  run (Appointments.getBookedTimeSlots Date_parse doctorId date) w =
  match next_fault w, Date_parse date with
  | None, Some t =>
      (Ok (List.map Appointment.time
             (List.filter (Prisma.matches (booked_where doctorId (Some t)))
                (appointments (db w)))),
       after_call call_appointment_findMany w)
  | Some e, _ =>
      (Ok [],
       write_console (reported "Error fetching booked time slots:" e)
         (after_call call_appointment_findMany w))
  | None, None =>
      (Ok [],
       write_console
         (reported "Error fetching booked time slots:"
            PrismaClientValidationError)
         (after_call call_appointment_findMany w))
  end.
Proof.
  unfold Appointments.getBookedTimeSlots, Appointments.getBookedTimeSlots_try.
  rewrite run_try_catch, run_bind, run_await.
  unfold Prisma.exec. cbn [call_of Prisma.perform].
  unfold Prisma.select_rows, Prisma.where_is_valid. cbn [AppointmentWhere.date].
  destruct (next_fault w) as [e |]; [reflexivity |].
  destruct (Date_parse date) as [t |]; reflexivity.
Qed.

(** C3, as amended: [getBookedTimeSlots] always returns, and leaves
    the tables as they are.  The date of the query is an instant, the
    time value of [new Date(date)], and an appointment is on that date
    when its stored time value is that instant.  Every label returned
    is the time label of an appointment of that doctor stored at that
    instant whose status is CONFIRMED or COMPLETED, so a label that only
    CANCELLED appointments of that doctor and instant carry is never
    returned; and when the query goes through, every such appointment
    has its label returned: the labels are then exactly those.  An
    appointment stored at another time of the same calendar day is not
    among them; when the query is for midnight UTC and all the
    appointments of the doctor are stored at midnight UTC, as date-only
    strings give, the appointments of the instant are those of the
    calendar day. *)
Theorem getBookedTimeSlots_exact (doctorId date : string) (w : World) :
  exists slots w',
    run (Appointments.getBookedTimeSlots Date_parse doctorId date) w
    = (Ok slots, w')
    /\ db w' = db w
    /\ (forall label,
          In label slots ->
          exists a, In a (appointments (db w))
                    /\ Appointment.doctorId a = doctorId
                    /\ Date_parse date = Some (Appointment.date a)
                    /\ holds_slot a
                    /\ Appointment.time a = label)
    /\ (forall label,
          (forall a, In a (appointments (db w)) ->
                     Appointment.doctorId a = doctorId ->
                     Date_parse date = Some (Appointment.date a) ->
                     Appointment.time a = label ->
                     Appointment.status a = CANCELLED) ->
          ~ In label slots)
    /\ (next_fault w = None ->
        forall a, In a (appointments (db w)) ->
                  Appointment.doctorId a = doctorId ->
                  Date_parse date = Some (Appointment.date a) ->
                  holds_slot a ->
                  In (Appointment.time a) slots)
    /\ (next_fault w = None ->
        forall t, Date_parse date = Some t -> at_midnight t ->
        (forall a, In a (appointments (db w)) ->
                   Appointment.doctorId a = doctorId ->
                   at_midnight (Appointment.date a)) ->
        forall a, In a (appointments (db w)) ->
                  Appointment.doctorId a = doctorId ->
                  Appointment.date a / 86400000 = t / 86400000 ->
                  holds_slot a ->
                  In (Appointment.time a) slots).
Proof.
  assert (Hday : forall slots,
             (next_fault w = None ->
              forall a, In a (appointments (db w)) ->
                        Appointment.doctorId a = doctorId ->
                        Date_parse date = Some (Appointment.date a) ->
                        holds_slot a ->
                        In (Appointment.time a) slots) ->
             next_fault w = None ->
             forall t, Date_parse date = Some t -> at_midnight t ->
             (forall a, In a (appointments (db w)) ->
                        Appointment.doctorId a = doctorId ->
                        at_midnight (Appointment.date a)) ->
             forall a, In a (appointments (db w)) ->
                       Appointment.doctorId a = doctorId ->
                       Appointment.date a / 86400000 = t / 86400000 ->
                       holds_slot a ->
                       In (Appointment.time a) slots).
  { intros slots Hall Hfault t Hparse Ht Hrows a Ha Hd Hsame Hs.
    apply (Hall Hfault a Ha Hd); [| exact Hs].
    rewrite Hparse. f_equal.
    specialize (Hrows a Ha Hd). unfold at_midnight, JsDate.msPerDay in *.
    Z.div_mod_to_equations. lia. }
  assert (Hsound : forall slots,
             (forall label,
                 In label slots ->
                 exists a, In a (appointments (db w))
                           /\ Appointment.doctorId a = doctorId
                           /\ Date_parse date = Some (Appointment.date a)
                           /\ holds_slot a
                           /\ Appointment.time a = label) ->
             forall label,
               (forall a, In a (appointments (db w)) ->
                          Appointment.doctorId a = doctorId ->
                          Date_parse date = Some (Appointment.date a) ->
                          Appointment.time a = label ->
                          Appointment.status a = CANCELLED) ->
               ~ In label slots).
  { intros slots Hin label Hcancelled Hlabel.
    apply Hin in Hlabel as (a & Ha & Hd & Hdate & Hs & Htime).
    specialize (Hcancelled a Ha Hd Hdate Htime).
    unfold holds_slot in Hs. rewrite Hcancelled in Hs. destruct Hs; discriminate. }
  rewrite run_getBookedTimeSlots.
  destruct (next_fault w) as [e |] eqn:Hfault;
    [| destruct (Date_parse date) as [t |] eqn:Hparse].
  - eexists _, _. split; [reflexivity |]. split; [reflexivity |].
    split; [intros label [] |]. split; [apply Hsound; intros label [] |].
    split; discriminate.
  - eexists _, _. split; [reflexivity |]. split; [reflexivity |].
    assert (Hin : forall label,
               In label
                 (List.map Appointment.time
                    (List.filter
                       (Prisma.matches (booked_where doctorId (Some t)))
                       (appointments (db w)))) ->
               exists a, In a (appointments (db w))
                         /\ Appointment.doctorId a = doctorId
                         /\ Some t = Some (Appointment.date a)
                         /\ holds_slot a
                         /\ Appointment.time a = label).
    { intros label Hlabel. apply in_map_iff in Hlabel as (a & Htime & Ha).
      apply filter_In in Ha as [Ha Hm]. apply matches_booked in Hm.
      exists a. intuition congruence. }
    split; [exact Hin |]. split; [apply Hsound, Hin |].
    assert (Hall : None = None (A := JsError) ->
                   forall a, In a (appointments (db w)) ->
                             Appointment.doctorId a = doctorId ->
                             Some t = Some (Appointment.date a) ->
                             holds_slot a ->
                             In (Appointment.time a)
                               (List.map Appointment.time
                                  (List.filter
                                     (Prisma.matches
                                        (booked_where doctorId (Some t)))
                                     (appointments (db w))))).
    { intros _ a Ha Hd Hdate Hs. apply in_map. apply filter_In.
      split; [exact Ha |]. apply matches_booked. intuition congruence. }
    split; [exact Hall | apply Hday, Hall].
  - eexists _, _. split; [reflexivity |]. split; [reflexivity |].
    split; [intros label [] |]. split; [apply Hsound; intros label [] |].
    split.
    + intros _ a _ _ Hdate. discriminate.
    + intros _ t Ht. discriminate.
Qed.

(** *** Reads that degrade instead of failing *)

(** A [catch] block that reports and returns a fallback value. *)
Lemma run_fallback {A} (p : Prog A) (label : string) (x : A) (w : World) :
  run (try_catch p (fun error => console_error label (thrown error) ;; Ret x)) w
  = match run p w with
    | (Ok a, w') => (Ok a, w')
    | (Err e, w') => (Ok x, write_console (reported label e) w')
    end.
Proof.
  rewrite run_try_catch. destruct (run p w) as [[a | e] w']; reflexivity.
Qed.

Lemma getUserAppointmentStats_try_fault (w : World) (e : JsError) :
  next_fault w = Some e ->
  is_ok (fst (run Appointments.getUserAppointmentStats_try w)) = false.
Proof.
  intro Hfault. unfold Appointments.getUserAppointmentStats_try.
  rewrite run_bind, run_await. unfold Prisma.exec.
  cbn [call_of Prisma.perform].
  destruct (session w) as [uid |]; [| reflexivity].
  destruct (uid =? "")%string; [reflexivity |].
  rewrite run_bind. unfold Appointments.ensureUserExists.
  rewrite run_bind, run_await. unfold Prisma.exec at 1.
  cbn [call_of Prisma.perform].
  destruct (clerk w) as [c |]; [| reflexivity].
  rewrite run_bind, run_await.
  rewrite (exec_fails _ (call_user_findUnique uid) _ e) by (reflexivity || assumption).
  reflexivity.
Qed.

Lemma getBookedTimeSlots_never_throws (doctorId date : string) (w : World) :
  is_ok (fst (run (Appointments.getBookedTimeSlots Date_parse doctorId date) w))
  = true.
Proof.
  unfold Appointments.getBookedTimeSlots. rewrite run_fallback.
  destruct (run (Appointments.getBookedTimeSlots_try _ _ _) w) as [[l | e] w1];
    reflexivity.
Qed.

Lemma getUserAppointmentStats_never_throws (w : World) :
  is_ok (fst (run Appointments.getUserAppointmentStats w)) = true.
Proof.
  unfold Appointments.getUserAppointmentStats. rewrite run_fallback.
  destruct (run Appointments.getUserAppointmentStats_try w) as [[st | e] w1];
    reflexivity.
Qed.

(** C4: when the query of [getBookedTimeSlots] fails, the action
    returns the empty list instead of the error; when anything fails
    in [getUserAppointmentStats], the action returns zero total and zero
    completed counts instead of the error.  Neither action ever
    throws, whatever fails; a persistence call that is fated to fail
    is such a failure. *)
Theorem reads_degrade (doctorId date : string) (w : World) :
  (forall e w1,
      run (Appointments.getBookedTimeSlots_try Date_parse doctorId date) w
      = (Err e, w1) ->
      run (Appointments.getBookedTimeSlots Date_parse doctorId date) w
      = (Ok [], write_console
                  (reported "Error fetching booked time slots:" e) w1))
  /\ (forall e w1,
        run Appointments.getUserAppointmentStats_try w = (Err e, w1) ->
        run Appointments.getUserAppointmentStats w
        = (Ok no_stats,
           write_console
             (reported "Error fetching user appointment stats:" e) w1))
  /\ (forall e,
        next_fault w = Some e ->
        fst (run (Appointments.getBookedTimeSlots Date_parse doctorId date) w)
        = Ok []
        /\ fst (run Appointments.getUserAppointmentStats w) = Ok no_stats)
  /\ (Date_parse date = None ->
      fst (run (Appointments.getBookedTimeSlots Date_parse doctorId date) w)
      = Ok [])
  /\ is_ok (fst (run (Appointments.getBookedTimeSlots Date_parse doctorId date) w))
     = true
  /\ is_ok (fst (run Appointments.getUserAppointmentStats w)) = true.
Proof.
  split; [| split; [| split; [| split; [| split]]]];
    try apply getBookedTimeSlots_never_throws;
    try apply getUserAppointmentStats_never_throws;
    unfold Appointments.getBookedTimeSlots, Appointments.getUserAppointmentStats;
    rewrite ?run_fallback.
  - intros e w1 ->. reflexivity.
  - intros e w1 ->. reflexivity.
  - intros e Hfault. split.
    + unfold Appointments.getBookedTimeSlots_try.
      rewrite run_bind, run_await.
      rewrite (exec_fails _ call_appointment_findMany _ e)
        by (reflexivity || assumption).
      reflexivity.
    + pose proof (getUserAppointmentStats_try_fault w e Hfault) as Hfail.
      destruct (run Appointments.getUserAppointmentStats_try w)
        as [[st | e'] w1]; [discriminate | reflexivity].
  - intro Hparse. unfold Appointments.getBookedTimeSlots_try.
    rewrite run_bind, run_await. unfold Prisma.exec.
    cbn [call_of Prisma.perform]. unfold Prisma.select_rows, Prisma.where_is_valid.
    cbn [AppointmentWhere.date]. rewrite Hparse.
    destruct (next_fault w); reflexivity.
Qed.

(** *** Who hears of a failure *)

(** A [catch] block that reports and throws a generic error. *)
Lemma run_rethrow {A} (p : Prog A) (entry : JsError -> LogEntry)
  (generic : JsError) (w : World) :
  run (try_catch p (fun error => Console (entry error) (Throw generic))) w
  = match run p w with
    | (Ok a, w') => (Ok a, w')
    | (Err e, w') => (Err generic, write_console (entry e) w')
    end.
Proof.
  rewrite run_try_catch. destruct (run p w) as [[a | e] w']; reflexivity.
Qed.

(** C5, as amended: of the reads, [getBookedTimeSlots] and
    [getUserAppointmentStats] never signal an error (they return the
    empty list and zero counts instead); the two listings
    [getAppointments] and [getUserAppointments] do signal one: whatever
    fails in them is written to the console and the caller receives a
    generic error, exactly as for the writes [bookAppointment] and
    [updateAppointmentStatus]. *)
Theorem failure_policy (doctorId date : string)
  (booking : Appointments.BookAppointmentInput)
  (update : Appointments.UpdateStatusInput) (w : World) :
  is_ok (fst (run (Appointments.getBookedTimeSlots Date_parse doctorId date) w))
  = true
  /\ is_ok (fst (run Appointments.getUserAppointmentStats w)) = true
  /\ run Appointments.getAppointments w
     = match run Appointments.getAppointments_try w with
       | (Ok views, w') => (Ok views, w')
       | (Err e, w') =>
           (Err FetchFailed,
            write_console
              (mkLog level_log "Error fetching appointments:" (thrown e)) w')
       end
  /\ run Appointments.getUserAppointments w
     = match run Appointments.getUserAppointments_try w with
       | (Ok views, w') => (Ok views, w')
       | (Err e, w') =>
           (Err FetchUserFailed,
            write_console (reported "Error fetching user appointments:" e) w')
       end
  /\ run (Appointments.bookAppointment Date_parse booking) w
     = match run (Appointments.bookAppointment_try Date_parse booking) w with
       | (Ok view, w') => (Ok view, w')
       | (Err e, w') =>
           (Err BookingFailed,
            write_console (reported "Error booking appointment:" e) w')
       end
  /\ run (Appointments.updateAppointmentStatus update) w
     = match run (Appointments.updateAppointmentStatus_try update) w with
       | (Ok a, w') => (Ok a, w')
       | (Err e, w') =>
           (Err UpdateFailed,
            write_console (reported "Error updating appointment:" e) w')
       end
  /\ (forall e, next_fault w = Some e ->
                fst (run Appointments.getAppointments w) = Err FetchFailed).
Proof.
  split; [apply getBookedTimeSlots_never_throws |].
  split; [apply getUserAppointmentStats_never_throws |].
  split; [apply run_rethrow |].
  split; [apply (run_rethrow _ (reported _)) |].
  split; [apply (run_rethrow _ (reported _)) |].
  split; [apply (run_rethrow _ (reported _)) |].
  intros e Hfault. unfold Appointments.getAppointments.
  rewrite run_try_catch. unfold Appointments.getAppointments_try.
  rewrite run_bind, run_await.
  rewrite (exec_fails _ call_appointment_findMany _ e) by (reflexivity || assumption).
  reflexivity.
Qed.

(** *** The order of the listings *)

Lemma ascii_compare_lt (a b : ascii) :
  Ascii.compare a b = Lt <-> (N_of_ascii a < N_of_ascii b)%N.
Proof. unfold Ascii.compare. apply N.compare_lt_iff. Qed.

Lemma ascii_compare_gt (a b : ascii) :
  Ascii.compare a b = Gt <-> (N_of_ascii b < N_of_ascii a)%N.
Proof. unfold Ascii.compare. apply N.compare_gt_iff. Qed.

Ltac ascii_order :=
  repeat match goal with
    | H : Ascii.compare _ _ = Eq |- _ => apply Ascii.compare_eq_iff in H; subst
    | H : Ascii.compare _ _ = Lt |- _ => apply -> ascii_compare_lt in H
    | H : Ascii.compare _ _ = Gt |- _ => apply -> ascii_compare_gt in H
    end;
  try lia.

Lemma string_leb_trans (s t u : string) :
  String.leb s t = true -> String.leb t u = true -> String.leb s u = true.
Proof.
  unfold String.leb. revert t u.
  induction s as [| a s IH]; intros [| b t] [| c u]; simpl;
    try reflexivity; try discriminate.
  destruct (Ascii.compare a b) eqn:Hab; try discriminate;
    destruct (Ascii.compare b c) eqn:Hbc; try discriminate;
    destruct (Ascii.compare a c) eqn:Hac; try reflexivity;
    intros H1 H2; try (exact (IH t u H1 H2)); exfalso; ascii_order.
Qed.

Section InsertionSort.

Variable keys : list OrderBy.

Let le (a b : Appointment.t) : Prop := Prisma.order_leb keys a b = true.

Hypothesis le_total : forall a b, Prisma.order_leb keys a b = false -> le b a.
Hypothesis le_trans : forall a b c, le a b -> le b c -> le a c.

Lemma insert_row_in (a x : Appointment.t) (l : list Appointment.t) :
  In x (Prisma.insert_row keys a l) <-> x = a \/ In x l.
Proof.
  induction l as [| b l IH]; simpl.
  - intuition.
  - destruct (Prisma.order_leb keys a b); simpl; [intuition | rewrite IH; intuition].
Qed.

Lemma insert_row_sorted (a : Appointment.t) (l : list Appointment.t) :
  StronglySorted le l -> StronglySorted le (Prisma.insert_row keys a l).
Proof.
  induction 1 as [| b l Hsorted IH Hall]; simpl.
  - constructor; constructor.
  - destruct (Prisma.order_leb keys a b) eqn:Hab.
    + constructor; [constructor; assumption |].
      constructor; [exact Hab |].
      apply Forall_forall. intros x Hx. apply (le_trans a b x Hab).
      rewrite Forall_forall in Hall. auto.
    + constructor; [exact IH |].
      apply Forall_forall. intros x Hx. apply insert_row_in in Hx as [-> | Hx].
      * apply le_total, Hab.
      * rewrite Forall_forall in Hall. auto.
Qed.

Lemma order_rows_sorted (l : list Appointment.t) :
  StronglySorted le (Prisma.order_rows keys l).
Proof.
  induction l as [| a l IH]; simpl.
  - constructor.
  - apply insert_row_sorted, IH.
Qed.

Lemma order_rows_in (x : Appointment.t) (l : list Appointment.t) :
  In x (Prisma.order_rows keys l) <-> In x l.
Proof.
  induction l as [| a l IH]; simpl.
  - tauto.
  - rewrite insert_row_in, IH. intuition.
Qed.

End InsertionSort.

Lemma order_by_date_time (a b : Appointment.t) :
  Prisma.order_leb [date_asc; time_asc] a b = true <-> date_time_le a b.
Proof.
  unfold Prisma.order_leb, date_time_le, String.leb. simpl.
  destruct (Z.compare_spec (Appointment.date a) (Appointment.date b)) as [E | L | G].
  - destruct (String.compare (Appointment.time a) (Appointment.time b));
      intuition (try discriminate; try lia).
  - intuition.
  - intuition (try discriminate; try lia).
Qed.

Lemma order_by_createdAt (a b : Appointment.t) :
  Prisma.order_leb [createdAt_desc] a b = true <->
  Appointment.createdAt b <= Appointment.createdAt a.
Proof.
  unfold Prisma.order_leb. simpl.
  destruct (Z.compare_spec (Appointment.createdAt b) (Appointment.createdAt a));
    intuition (try discriminate; try lia).
Qed.

Lemma date_time_le_trans (a b c : Appointment.t) :
  date_time_le a b -> date_time_le b c -> date_time_le a c.
Proof.
  unfold date_time_le. intros [L1 | [E1 T1]] [L2 | [E2 T2]].
  - left; lia.
  - left; lia.
  - left; lia.
  - right. split; [lia |]. eapply string_leb_trans; eassumption.
Qed.

Lemma date_time_le_total (a b : Appointment.t) :
  ~ date_time_le a b -> date_time_le b a.
Proof.
  unfold date_time_le. intro H.
  destruct (Z.lt_trichotomy (Appointment.date a) (Appointment.date b))
    as [L | [E | G]].
  - tauto.
  - right. split; [lia |].
    destruct (String.leb_total (Appointment.time a) (Appointment.time b));
      [tauto | assumption].
  - left. exact G.
Qed.

Lemma rows_by_date_time (l : list Appointment.t) :
  StronglySorted date_time_le (Prisma.order_rows [date_asc; time_asc] l).
Proof.
  eapply StronglySorted_ind
    with (P := StronglySorted date_time_le)
         (l := Prisma.order_rows [date_asc; time_asc] l).
  - constructor.
  - intros a l' _ IH Hall. constructor; [exact IH |].
    eapply Forall_impl; [| exact Hall]. intros b Hb. cbv beta in Hb.
    apply order_by_date_time, Hb.
  - apply order_rows_sorted.
    + intros a b Hab. apply order_by_date_time, date_time_le_total.
      rewrite <- order_by_date_time, Hab. discriminate.
    + intros a b c Hab Hbc. apply order_by_date_time.
      apply (date_time_le_trans a b c); apply order_by_date_time; assumption.
Qed.

Lemma rows_by_createdAt (l : list Appointment.t) :
  StronglySorted
    (fun a b => Appointment.createdAt b <= Appointment.createdAt a)
    (Prisma.order_rows [createdAt_desc] l).
Proof.
  eapply StronglySorted_ind
    with (P := StronglySorted
                 (fun a b => Appointment.createdAt b <= Appointment.createdAt a))
         (l := Prisma.order_rows [createdAt_desc] l).
  - constructor.
  - intros a l' _ IH Hall. constructor; [exact IH |].
    eapply Forall_impl; [| exact Hall]. intros b Hb. cbv beta in Hb.
    apply order_by_createdAt, Hb.
  - apply order_rows_sorted.
    + intros a b Hab. apply order_by_createdAt.
      destruct (Z.le_gt_cases (Appointment.createdAt a) (Appointment.createdAt b))
        as [L | G]; [exact L |].
      assert (Prisma.order_leb [createdAt_desc] a b = true)
        by (apply order_by_createdAt; lia).
      congruence.
    + intros a b c Hab Hbc. apply order_by_createdAt.
      apply order_by_createdAt in Hab, Hbc. lia.
Qed.

Lemma include_all_rows (d : Database) (l : list Appointment.t)
  (rows : list Included.t) :
  Prisma.include_all d l = Some rows ->
  List.map Included.appointment rows = l.
Proof.
  revert rows. induction l as [| a l IH]; simpl; intros rows H.
  - injection H as <-. reflexivity.
  - unfold Prisma.include in H.
    destruct (Prisma.find_user_by_id _ _) as [u |]; [| discriminate].
    destruct (Prisma.find_doctor _ _) as [dr |]; [| discriminate].
    destruct (Prisma.include_all d l) as [rows' |]; [| discriminate].
    injection H as <-. simpl. rewrite (IH rows' eq_refl). reflexivity.
Qed.

Lemma findMany_include_ok (q : AppointmentWhere.t) (keys : list OrderBy)
  (w w' : World) (rows : list Included.t) :
  Prisma.exec (appointment_findMany_include q keys) w = (Ok rows, w') ->
  List.map Included.appointment rows
  = Prisma.order_rows keys
      (List.filter (Prisma.matches q) (appointments (db w))).
Proof.
  unfold Prisma.exec. cbn [call_of Prisma.perform].
  destruct (next_fault w); [discriminate |].
  unfold Prisma.select_rows. destruct (Prisma.where_is_valid q); [| discriminate].
  destruct (Prisma.include_all _ _) as [l |] eqn:Hinc; [| discriminate].
  intro H. injection H as <- <-. apply include_all_rows in Hinc. exact Hinc.
Qed.

Lemma StronglySorted_map {A B} (f : A -> B) (R : B -> B -> Prop) (l : list A) :
  StronglySorted (fun x y => R (f x) (f y)) l -> StronglySorted R (List.map f l).
Proof.
  induction 1 as [| a l Hsorted IH Hall]; simpl; constructor.
  - exact IH.
  - apply Forall_map. exact Hall.
Qed.

Lemma StronglySorted_unmap {A B} (f : A -> B) (R : B -> B -> Prop) (l : list A) :
  StronglySorted R (List.map f l) -> StronglySorted (fun x y => R (f x) (f y)) l.
Proof.
  induction l as [| a l IH]; simpl; intro H.
  - constructor.
  - inversion H as [| ? ? Hsorted Hall]; subst. constructor.
    + apply IH, Hsorted.
    + rewrite Forall_map in Hall. exact Hall.
Qed.

Lemma StronglySorted_map_on {A B} (P : A -> Prop) (R : A -> A -> Prop)
  (R' : B -> B -> Prop) (f : A -> B) (l : list A) :
  (forall a b, P a -> P b -> R a b -> R' (f a) (f b)) ->
  Forall P l -> StronglySorted R l -> StronglySorted R' (List.map f l).
Proof.
  intros Hstep HP Hsorted.
  induction Hsorted as [| a l Hsorted IH Hall]; cbn [List.map];
    constructor.
  - apply IH. inversion HP; assumption.
  - apply Forall_map. inversion HP as [| ? ? Pa Pl]; subst.
    rewrite Forall_forall in *. intros b Hb. apply Hstep; auto.
Qed.

Lemma transformAppointment_date (row : Included.t) :
  View.date (Appointments.transformAppointment row)
  = JsDate.iso_date (Appointment.date (Included.appointment row)).
Proof. apply iso_string_date_part. Qed.

(** Rows in the order of the stored dates show dates in order. *)
Lemma shown_dates_follow (r1 r2 : Included.t) :
  in_years_0_to_9999 (Appointment.date (Included.appointment r1)) ->
  in_years_0_to_9999 (Appointment.date (Included.appointment r2)) ->
  date_time_le (Included.appointment r1) (Included.appointment r2) ->
  shown_date_le (Appointments.transformAppointment r1)
    (Appointments.transformAppointment r2).
Proof.
  intros H1 H2 Hle. unfold shown_date_le.
  rewrite !transformAppointment_date.
  apply (iso_date_order _ _ H1 H2).
  destruct Hle as [Hlt | [Heq _]]; lia.
Qed.

(** Rows stored at midnight, in the order of the stored dates and time
    labels, are in the order of the dates shown and time labels. *)
Lemma shown_dates_and_times_follow (r1 r2 : Included.t) :
  (in_years_0_to_9999 (Appointment.date (Included.appointment r1))
   /\ at_midnight (Appointment.date (Included.appointment r1))) ->
  (in_years_0_to_9999 (Appointment.date (Included.appointment r2))
   /\ at_midnight (Appointment.date (Included.appointment r2))) ->
  date_time_le (Included.appointment r1) (Included.appointment r2) ->
  shown_date_time_le (Appointments.transformAppointment r1)
    (Appointments.transformAppointment r2).
Proof.
  intros [H1 M1] [H2 M2] Hle. unfold shown_date_time_le.
  rewrite !transformAppointment_date.
  destruct Hle as [Hlt | [Heq Htime]].
  - left. apply (iso_date_order _ _ H1 H2).
    unfold at_midnight, JsDate.msPerDay in *.
    Z.div_mod_to_equations. lia.
  - right. rewrite Heq. split; [reflexivity | exact Htime].
Qed.


(** *** Status update *)

Lemma find_replace_first {A} (test : A -> bool) (f : A -> A) (l : list A)
  (a : A) :
  List.find test l = Some a -> test (f a) = true ->
  List.find test (Prisma.replace_first test f l) = Some (f a).
Proof.
  induction l as [| x l IH]; simpl; [discriminate |].
  destruct (test x) eqn:Hx; intros H Hf.
  - injection H as ->. simpl. rewrite Hf. reflexivity.
  - simpl. rewrite Hx. apply IH; assumption.
Qed.

Lemma find_replace_first_other {A} (test test' : A -> bool) (f : A -> A)
  (l : list A) :
  (forall x, test x = true -> test' x = false /\ test' (f x) = false) ->
  List.find test' (Prisma.replace_first test f l) = List.find test' l.
Proof.
  intro H. induction l as [| x l IH]; simpl; [reflexivity |].
  destruct (test x) eqn:Hx; simpl.
  - destruct (H x Hx) as [-> ->]. reflexivity.
  - rewrite IH. reflexivity.
Qed.

Lemma replace_first_fixed {A} (test : A -> bool) (f : A -> A) (l : list A)
  (a : A) :
  List.find test l = Some a -> f a = a -> Prisma.replace_first test f l = l.
Proof.
  induction l as [| x l IH]; simpl; [reflexivity |].
  destruct (test x); intros H Hf.
  - injection H as ->. rewrite Hf. reflexivity.
  - rewrite IH by assumption. reflexivity.
Qed.

Lemma with_status_same (a : Appointment.t) :
  Appointment.with_status (Appointment.status a) a = a.
Proof. destruct a; reflexivity. Qed.

Lemma run_updateAppointmentStatus (input : Appointments.UpdateStatusInput)
  (w : World) (a : Appointment.t) :
  next_fault w = None ->
  Prisma.find_appointment (Appointments.id input) (appointments (db w)) = Some a ->
  run (Appointments.updateAppointmentStatus input) w
  = Prisma.update_appointment (Appointments.id input)
      (Appointments.status input)
      (after_call (call_appointment_update (Appointments.id input)) w).
Proof.
  intros Hfault Hfind.
  unfold Appointments.updateAppointmentStatus,
    Appointments.updateAppointmentStatus_try.
  rewrite run_try_catch, run_bind, run_await.
  rewrite (exec_passes _ (call_appointment_update (Appointments.id input)))
    by (reflexivity || assumption).
  cbn [Prisma.perform]. unfold Prisma.update_appointment.
  cbn [db after_call set_faults log_call]. rewrite Hfind. reflexivity.
Qed.

(** C8: [updateAppointmentStatus] overwrites the status of an existing
    appointment whatever its current status, whatever the new one and
    whoever calls (the session is not looked at; nothing is assumed of
    it here).  The other columns of the row, the other rows and the
    other tables are left as they are; when the new status is the
    current one the call succeeds and the database is unchanged. *)
Theorem updateAppointmentStatus_overwrites
  (input : Appointments.UpdateStatusInput) (w : World) (a : Appointment.t) :
  next_fault w = None ->
  Prisma.find_appointment (Appointments.id input) (appointments (db w)) = Some a ->
  exists w',
    run (Appointments.updateAppointmentStatus input) w
    = (Ok (Appointment.mk (Appointment.id a) (Appointment.userId a)
             (Appointment.doctorId a) (Appointment.date a) (Appointment.time a)
             (Appointment.reason a) (Appointments.status input)
             (Appointment.createdAt a)), w')
    /\ users (db w') = users (db w)
    /\ doctors (db w') = doctors (db w)
    /\ Prisma.find_appointment (Appointments.id input) (appointments (db w'))
       = Some (Appointment.with_status (Appointments.status input) a)
    /\ (forall i, i <> Appointments.id input ->
                  Prisma.find_appointment i (appointments (db w'))
                  = Prisma.find_appointment i (appointments (db w)))
    /\ List.length (appointments (db w')) = List.length (appointments (db w))
    /\ (Appointments.status input = Appointment.status a ->
        db w' = db w
        /\ fst (run (Appointments.updateAppointmentStatus input) w) = Ok a).
Proof.
  intros Hfault Hfind.
  rewrite (run_updateAppointmentStatus input w a Hfault Hfind).
  unfold Prisma.update_appointment.
  cbn [db after_call set_faults log_call]. rewrite Hfind.
  eexists. split; [reflexivity |]. cbn [db set_db users doctors appointments fst].
  assert (Hid : (Appointment.id a =? Appointments.id input)%string = true).
  { unfold Prisma.find_appointment in Hfind.
    apply find_some in Hfind as [_ Hid]. exact Hid. }
  split; [reflexivity |]. split; [reflexivity |]. split; [| split; [| split]].
  - unfold Prisma.find_appointment in *. apply find_replace_first; assumption.
  - intros i Hi. unfold Prisma.find_appointment.
    apply find_replace_first_other. intros x Hx. cbn.
    apply String.eqb_eq in Hx. rewrite Hx.
    split; apply String.eqb_neq; congruence.
  - clear Hfind Hid. induction (appointments (db w)) as [| x l IH]; simpl;
      [reflexivity |].
    destruct (Appointment.id x =? Appointments.id input)%string; simpl;
      [reflexivity | rewrite IH; reflexivity].
  - intro Hsame. rewrite Hsame, with_status_same.
    rewrite (replace_first_fixed _ _ _ a) by (assumption || apply with_status_same).
    destruct (db w); split; reflexivity.
Qed.

(** *** User sync *)

Lemma run_users_ensureUserExists (w : World) (c : Clerk.User) (email : string) :
  clerk w = Some c -> Users.first_email c = Ok email ->
  run Users.ensureUserExists w
  = match Prisma.exec (Users.upsert_of c email) w with
    | (Ok u, w') => (Ok (Some u), w')
    | (Err e, w') =>
        (Err e, write_console (reported "Error in ensureUserExists:" e) w')
    end.
Proof.
  intros Hclerk Hemail. unfold Users.ensureUserExists.
  rewrite run_try_catch, run_bind, run_await.
  unfold Prisma.exec at 1. cbn [call_of Prisma.perform]. rewrite Hclerk.
  rewrite run_bind, Hemail. cbn [eval run]. rewrite run_bind, run_await.
  destruct (Prisma.exec (Users.upsert_of c email) w) as [[u | e] w']; reflexivity.
Qed.

Lemma run_appointments_ensureUserExists (clerkId : string) (w : World)
  (c : Clerk.User) :
  clerk w = Some c ->
  run (Appointments.ensureUserExists clerkId) w
  = match Prisma.exec (user_findUnique clerkId) w with
    | (Ok (Some u), w1) => (Ok u, w1)
    | (Ok None, w1) =>
        match Users.first_email c with
        | Ok email =>
            match Prisma.exec (user_create (created_user clerkId email c)) w1 with
            | (Ok u, w2) =>
                (Ok u,
                 write_console
                   (mkLog level_log "New user created in Prisma:"
                      (text (User.email u))) w2)
            | (Err e, w2) => (Err e, w2)
            end
        | Err e => (Err e, w1)
        end
    | (Err e, w1) => (Err e, w1)
    end.
Proof.
  intro Hclerk. unfold Appointments.ensureUserExists.
  rewrite run_bind, run_await.
  unfold Prisma.exec at 1. cbn [call_of Prisma.perform]. rewrite Hclerk.
  rewrite run_bind, run_await.
  destruct (Prisma.exec (user_findUnique clerkId) w) as [[[u |] | e] w1];
    try reflexivity.
  rewrite run_bind.
  destruct (Users.first_email c) as [email | e]; cbn [eval run]; [| reflexivity].
  rewrite run_bind, run_await. unfold created_user.
  destruct (Prisma.exec _ w1) as [[u | e] w2]; reflexivity.
Qed.

Lemma rows_of_app (clerkId : string) (us vs : list User.t) :
  rows_of clerkId (us ++ vs) = (rows_of clerkId us + rows_of clerkId vs)%nat.
Proof. unfold rows_of. rewrite filter_app, length_app. reflexivity. Qed.

Lemma rows_of_absent (clerkId : string) (us : list User.t) :
  Prisma.find_user_by_clerkId clerkId us = None -> rows_of clerkId us = 0%nat.
Proof.
  unfold Prisma.find_user_by_clerkId, rows_of.
  induction us as [| u us IH]; simpl; [reflexivity |].
  destruct (User.clerkId u =? clerkId)%string; [discriminate | exact IH].
Qed.

Lemma rows_of_replace_first (clerkId : string) (test : User.t -> bool)
  (f : User.t -> User.t) (us : list User.t) :
  (forall u, User.clerkId (f u) = User.clerkId u) ->
  rows_of clerkId (Prisma.replace_first test f us) = rows_of clerkId us.
Proof.
  intro Hkey. unfold rows_of. induction us as [| u us IH]; simpl; [reflexivity |].
  destruct (test u); simpl.
  - rewrite Hkey. destruct (User.clerkId u =? clerkId)%string; reflexivity.
  - destruct (User.clerkId u =? clerkId)%string; simpl; rewrite IH; reflexivity.
Qed.

Lemma find_user_by_clerkId_last (clerkId : string) (us : list User.t)
  (u : User.t) :
  Prisma.find_user_by_clerkId clerkId us = None ->
  User.clerkId u = clerkId ->
  Prisma.find_user_by_clerkId clerkId (us ++ [u]) = Some u.
Proof.
  unfold Prisma.find_user_by_clerkId. intros Hnone Hkey.
  induction us as [| x us IH]; simpl in *.
  - rewrite Hkey, String.eqb_refl. reflexivity.
  - destruct (User.clerkId x =? clerkId)%string; [discriminate | auto].
Qed.

Lemma find_user_by_id_present (u : User.t) (us : list User.t) :
  In u us -> exists u', Prisma.find_user_by_id (User.id u) us = Some u'.
Proof.
  intro Hin. unfold Prisma.find_user_by_id.
  destruct (List.find _ us) as [u' |] eqn:Hfind; [eauto |].
  apply (find_none _ _ Hfind) in Hin. rewrite String.eqb_refl in Hin.
  discriminate.
Qed.

(** What a sync of the appointment actions that meets no failure does:
    it returns the stored row of [clerkId] when there is one, and else
    appends one row built from the profile. *)
Lemma appointments_ensureUserExists_runs (clerkId : string) (w : World)
  (c : Clerk.User) (email : string) :
  clerk w = Some c -> Users.first_email c = Ok email -> faults w = [] ->
  exists u w1,
    run (Appointments.ensureUserExists clerkId) w = (Ok u, w1)
    /\ clerk w1 = Some c /\ session w1 = session w /\ faults w1 = []
    /\ doctors (db w1) = doctors (db w)
    /\ appointments (db w1) = appointments (db w)
    /\ In u (users (db w1))
    /\ Prisma.find_user_by_clerkId clerkId (users (db w1)) = Some u
    /\ match Prisma.find_user_by_clerkId clerkId (users (db w)) with
       | Some u0 => u = u0 /\ users (db w1) = users (db w)
       | None => users (db w1) = (users (db w) ++ [u])%list
                 /\ User.clerkId u = clerkId
       end.
Proof.
  intros Hclerk Hemail Hfaults.
  assert (Hfault : next_fault w = None) by (unfold next_fault; rewrite Hfaults; reflexivity).
  rewrite (run_appointments_ensureUserExists clerkId w c Hclerk).
  rewrite (exec_passes _ (call_user_findUnique clerkId))
    by (reflexivity || assumption).
  cbn [Prisma.perform]. cbn [db after_call set_faults log_call].
  destruct (Prisma.find_user_by_clerkId clerkId (users (db w))) as [u0 |] eqn:Hfind.
  - exists u0. eexists. split; [reflexivity |].
    cbn. rewrite Hfaults. repeat split; try assumption; try reflexivity.
    unfold Prisma.find_user_by_clerkId in Hfind.
    apply find_some in Hfind as [Hin _]. exact Hin.
  - rewrite Hemail.
    rewrite (exec_passes _ (call_user_create clerkId))
      by (reflexivity || (unfold next_fault; cbn; rewrite Hfaults; reflexivity)).
    cbn [Prisma.perform]. unfold Prisma.insert_user.
    cbn [db after_call set_faults log_call created_user
           UserCreateInput.clerkId].
    rewrite Hfind. cbn [draw_id].
    eexists _, _. split; [reflexivity |].
    cbn. rewrite Hfaults. repeat split; try assumption; try reflexivity.
    + apply in_or_app. right. left. reflexivity.
    + apply find_user_by_clerkId_last; [exact Hfind | reflexivity].
Qed.

(** Called twice in succession for a new external id, the sync of the
    appointment actions leaves exactly one row of it. *)
Lemma appointments_sync_twice (clerkId : string) (w : World) (c : Clerk.User)
  (email : string) :
  clerk w = Some c -> Users.first_email c = Ok email -> faults w = [] ->
  Prisma.find_user_by_clerkId clerkId (users (db w)) = None ->
  exists u w1 w2,
    run (Appointments.ensureUserExists clerkId) w = (Ok u, w1)
    /\ run (Appointments.ensureUserExists clerkId) w1 = (Ok u, w2)
    /\ users (db w2) = (users (db w) ++ [u])%list
    /\ rows_of clerkId (users (db w2)) = 1%nat.
Proof.
  intros Hclerk Hemail Hfaults Hnew.
  destruct (appointments_ensureUserExists_runs clerkId w c email Hclerk Hemail
              Hfaults)
    as (u & w1 & Hrun1 & Hclerk1 & _ & Hfaults1 & _ & _ & _ & Hfind1 & Hcase1).
  rewrite Hnew in Hcase1. destruct Hcase1 as [Husers1 Hkey].
  destruct (appointments_ensureUserExists_runs clerkId w1 c email Hclerk1
              Hemail Hfaults1)
    as (u' & w2 & Hrun2 & _ & _ & _ & _ & _ & _ & _ & Hcase2).
  rewrite Hfind1 in Hcase2. destruct Hcase2 as [-> Husers2].
  exists u, w1, w2. split; [exact Hrun1 |]. split; [exact Hrun2 |].
  rewrite Husers2, Husers1. split; [reflexivity |].
  rewrite rows_of_app, (rows_of_absent _ _ Hnew). unfold rows_of. simpl.
  rewrite Hkey, String.eqb_refl. reflexivity.
Qed.

(** Called twice in succession for a new external id, the sync of
    [users.ts] leaves exactly one row of it. *)
Lemma users_sync_twice (w : World) (c : Clerk.User) (email : string) :
  clerk w = Some c -> Users.first_email c = Ok email -> faults w = [] ->
  Prisma.find_user_by_clerkId (Clerk.id c) (users (db w)) = None ->
  exists u w1 w2,
    run Users.ensureUserExists w = (Ok (Some u), w1)
    /\ run Users.ensureUserExists w1 = (Ok (Some u), w2)
    /\ rows_of (Clerk.id c) (users (db w2)) = 1%nat.
Proof.
  intros Hclerk Hemail Hfaults Hnew.
  assert (Hfault : next_fault w = None)
    by (unfold next_fault; rewrite Hfaults; reflexivity).
  rewrite (run_users_ensureUserExists w c email Hclerk Hemail).
  rewrite (exec_passes _ (call_user_upsert (Clerk.id c)))
    by (reflexivity || assumption).
  unfold Users.upsert_of at 1. cbn [Prisma.perform]. unfold Prisma.upsert_user at 1.
  cbn [db after_call set_faults log_call]. rewrite Hnew.
  unfold Prisma.insert_user. cbn [db after_call set_faults log_call
                                    UserCreateInput.clerkId].
  rewrite Hnew. cbn [draw_id].
  match goal with
  | |- exists u w1 w2, (Ok (Some ?u0), ?w0) = _ /\ _ =>
      exists u0, w0; pose (row := u0); set (w1 := w0)
  end.
  assert (Hclerk1 : clerk w1 = Some c) by exact Hclerk.
  assert (Hfault1 : next_fault w1 = None)
    by (unfold next_fault; cbn; rewrite Hfaults; reflexivity).
  assert (Hfind1 : Prisma.find_user_by_clerkId (Clerk.id c) (users (db w1))
                   = Some row)
    by (apply find_user_by_clerkId_last; [exact Hnew | reflexivity]).
  rewrite (run_users_ensureUserExists w1 c email Hclerk1 Hemail).
  rewrite (exec_passes _ (call_user_upsert (Clerk.id c)))
    by (reflexivity || assumption).
  unfold Users.upsert_of. cbn [Prisma.perform]. unfold Prisma.upsert_user.
  change (db (after_call (call_user_upsert (Clerk.id c)) w1)) with (db w1).
  rewrite Hfind1.
  assert (Hsame : Prisma.update_user
                    (UserUpdateInput.mk (Clerk.firstName c) (Clerk.lastName c)
                       email (Users.first_phone c)) row = row).
  { unfold Prisma.update_user, row. cbn.
    destruct (Users.first_phone c); reflexivity. }
  rewrite Hsame. eexists. split; [reflexivity |]. split; [reflexivity |].
  cbn [db set_db users].
  rewrite rows_of_replace_first by reflexivity.
  unfold w1. cbn [db set_db users after_call set_faults log_call].
  rewrite rows_of_app, (rows_of_absent _ _ Hnew). unfold rows_of. simpl.
  rewrite String.eqb_refl. reflexivity.
Qed.

(** *** Booking: a call that goes through *)

(** A booking by an authenticated caller with a profile and an email
    address, for an existing doctor and a date that parses, returns a
    record when no persistence call fails. *)
Lemma bookAppointment_succeeds (input : Appointments.BookAppointmentInput)
  (w : World) (uid email : string) (c : Clerk.User) (d : Doctor.t) (t : Z) :
  session w = Some uid -> uid <> "" ->
  Appointments.doctorId input <> "" ->
  Appointments.date input <> "" ->
  Appointments.time input <> "" ->
  clerk w = Some c -> Users.first_email c = Ok email -> faults w = [] ->
  Prisma.find_doctor (Appointments.doctorId input) (doctors (db w)) = Some d ->
  Date_parse (Appointments.date input) = Some t ->
  exists v w', run (Appointments.bookAppointment Date_parse input) w = (Ok v, w').
Proof.
  intros Hsession Huid Hdoctor Hdate Htime Hclerk Hemail Hfaults Hfind Hparse.
  unfold Appointments.bookAppointment. rewrite run_try_catch.
  unfold Appointments.bookAppointment_try.
  rewrite run_bind, run_await. unfold Prisma.exec at 1.
  cbn [call_of Prisma.perform]. rewrite Hsession.
  apply String.eqb_neq in Huid, Hdoctor, Hdate, Htime.
  rewrite Huid, Hdoctor, Hdate, Htime. cbn [orb].
  destruct (appointments_ensureUserExists_runs uid w c email Hclerk Hemail
              Hfaults)
    as (u & w1 & Hrun & _ & _ & Hfaults1 & Hdoctors & _ & Hin & _).
  rewrite run_bind, Hrun, run_bind, run_await.
  rewrite (exec_passes _ call_appointment_create)
    by (reflexivity || (unfold next_fault; rewrite Hfaults1; reflexivity)).
  cbn [Prisma.perform]. unfold Prisma.insert_appointment.
  cbn [AppointmentCreateInput.date AppointmentCreateInput.userId
         AppointmentCreateInput.doctorId db after_call set_faults log_call].
  rewrite Hparse, Hdoctors, Hfind.
  destruct (find_user_by_id_present u _ Hin) as [u' ->].
  cbn. eauto.
Qed.

(** *** User sync: an existing row, a missing identity, a failing call *)


(** C10, as amended: with no caller identity the sync of [users.ts]
    returns null, without an error and without a persistence call, and
    the sync of the appointment actions throws "No Clerk user found";
    in both, an error of a persistence call (the upsert; the lookup; the
    insert) reaches the caller of the sync as it was raised. *)
Theorem sync_failures (w : World) (clerkId : string) :
  (clerk w = None -> run Users.ensureUserExists w = (Ok None, w))
  /\ (clerk w = None ->
      run (Appointments.ensureUserExists clerkId) w
      = (Err (Error "No Clerk user found"), w))
  /\ (forall c email e w1,
        clerk w = Some c -> Users.first_email c = Ok email ->
        Prisma.exec (Users.upsert_of c email) w = (Err e, w1) ->
        run Users.ensureUserExists w
        = (Err e, write_console (reported "Error in ensureUserExists:" e) w1))
  /\ (forall c e w1,
        clerk w = Some c ->
        Prisma.exec (user_findUnique clerkId) w = (Err e, w1) ->
        run (Appointments.ensureUserExists clerkId) w = (Err e, w1))
  /\ (forall c email e w1 w2,
        clerk w = Some c -> Users.first_email c = Ok email ->
        Prisma.exec (user_findUnique clerkId) w = (Ok None, w1) ->
        Prisma.exec (user_create (created_user clerkId email c)) w1
        = (Err e, w2) ->
        run (Appointments.ensureUserExists clerkId) w = (Err e, w2)).
Proof.
  split; [| split; [| split; [| split]]].
  - intro Hclerk. unfold Users.ensureUserExists.
    rewrite run_try_catch, run_bind, run_await.
    unfold Prisma.exec. cbn [call_of Prisma.perform]. rewrite Hclerk.
    reflexivity.
  - intro Hclerk. unfold Appointments.ensureUserExists.
    rewrite run_bind, run_await.
    unfold Prisma.exec. cbn [call_of Prisma.perform]. rewrite Hclerk.
    reflexivity.
  - intros c email e w1 Hclerk Hemail Hexec.
    rewrite (run_users_ensureUserExists w c email Hclerk Hemail), Hexec.
    reflexivity.
  - intros c e w1 Hclerk Hexec.
    rewrite (run_appointments_ensureUserExists clerkId w c Hclerk), Hexec.
    reflexivity.
  - intros c email e w1 w2 Hclerk Hemail Hfind Hcreate.
    rewrite (run_appointments_ensureUserExists clerkId w c Hclerk), Hfind,
      Hemail, Hcreate.
    reflexivity.
Qed.

End Properties.

(** * The properties at work in the demo clinic *)

(** C1, witness: a signed-out caller is turned down before any
    persistence call. *)
Lemma bookAppointment_guards_signed_out :
  JsString.falsy (session Demo.signed_out) = true
  /\ fst (run (Appointments.bookAppointment JsDate.parse_date_only Demo.booking)
            Demo.signed_out) = Err BookingFailed
  /\ calls (snd (run (Appointments.bookAppointment JsDate.parse_date_only
                        Demo.booking) Demo.signed_out)) = [].
Proof.
  split; [reflexivity |].
  destruct (bookAppointment_guards JsDate.parse_date_only Demo.booking
              Demo.signed_out (or_introl eq_refl)) as (Hrun & _ & Hcalls).
  split.
  - rewrite Hrun. reflexivity.
  - exact Hcalls.
Defined.

(** C1, counterexample: the error that reaches the caller is the
    generic booking failure, for a signed-out caller as for a missing
    doctorId; it is neither the not-authenticated nor the invalid-input
    error, and does not tell the two cases apart. *)
Lemma bookAppointment_error_is_generic :
  fst (run (Appointments.bookAppointment JsDate.parse_date_only Demo.booking)
         Demo.signed_out) = Err BookingFailed
  /\ fst (run (Appointments.bookAppointment JsDate.parse_date_only
                Demo.no_doctor) Demo.signed_in) = Err BookingFailed
  /\ BookingFailed <> NotAuthenticated
  /\ BookingFailed <> InvalidInput.
Proof.
  split; [vm_compute; reflexivity |].
  split; [vm_compute; reflexivity |].
  split; discriminate.
Qed.


(** C3, witness: on June 1 the doctor's 09:00 is taken, the 10:00 of
    the cancelled appointment is not. *)
Lemma getBookedTimeSlots_exact_june_1 :
  next_fault Demo.busy = None
  /\ exists slots,
       fst (run (Appointments.getBookedTimeSlots JsDate.parse_date_only
                   "d1" "2024-06-01") Demo.busy) = Ok slots
       /\ In "09:00" slots
       /\ ~ In "10:00" slots.
Proof.
  split; [reflexivity |].
  destruct (getBookedTimeSlots_exact JsDate.parse_date_only "d1" "2024-06-01"
              Demo.busy)
    as (slots & w' & Hrun & _ & _ & Hcancelled & Hcomplete & _).
  exists slots. split; [rewrite Hrun; reflexivity |]. split.
  - apply (Hcomplete eq_refl Demo.apt_1).
    + right; right; left; reflexivity.
    + reflexivity.
    + vm_compute; reflexivity.
    + left; reflexivity.
  - apply Hcancelled. intros a [<- | [<- | [<- | []]]] _ _ Htime;
      try discriminate Htime; reflexivity.
Defined.

(** C3, counterexample: Ada books the doctor for June 1 with a date
    that carries a time of day; the record she receives is confirmed and
    shows 2024-06-01, and the query for the doctor's booked slots of
    2024-06-01 goes through and does not return her time label. *)
Lemma getBookedTimeSlots_misses_time_of_day :
  (exists v,
      fst (run (Appointments.bookAppointment JsDate.parse_iso
                  WithTimeOfDay.booking) Scenes.first_visit) = Ok v
      /\ View.doctorId v = "d1"
      /\ View.date v = "2024-06-01"
      /\ View.time v = "08:00"
      /\ View.status v = CONFIRMED)
  /\ next_fault WithTimeOfDay.booked = None
  /\ fst (run (Appointments.getBookedTimeSlots JsDate.parse_iso
                "d1" "2024-06-01") WithTimeOfDay.booked) = Ok [].
Proof.
  split; [eexists; split; [vm_compute; reflexivity |];
          repeat split; reflexivity |].
  split; vm_compute; reflexivity.
Qed.

(** C4, witness: during an outage the slots come back empty and the
    counts zero, also when the outage strikes at the third call. *)
Lemma reads_degrade_outage :
  fst (run (Appointments.getBookedTimeSlots JsDate.parse_date_only
              "d1" "2024-06-01") Demo.busy_outage) = Ok []
  /\ fst (run Appointments.getUserAppointmentStats Demo.busy_outage)
     = Ok no_stats
  /\ fst (run Appointments.getUserAppointmentStats Demo.busy_late_outage)
     = Ok no_stats.
Proof.
  destruct (reads_degrade JsDate.parse_date_only "d1" "2024-06-01"
              Demo.busy_outage) as (_ & _ & Hfault & _).
  destruct (Hfault Demo.outage eq_refl) as [Hslots Hstats].
  split; [exact Hslots |]. split; [exact Hstats |].
  destruct (reads_degrade JsDate.parse_date_only "d1" "2024-06-01"
              Demo.busy_late_outage) as (_ & Htry & _).
  erewrite Htry; [reflexivity | vm_compute; reflexivity].
Defined.

(** C5, counterexample: during an outage the two listings do not
    return an empty list, they throw. *)
Lemma listings_throw :
  fst (run Appointments.getAppointments Demo.busy_outage) = Err FetchFailed
  /\ fst (run Appointments.getUserAppointments Demo.busy_outage)
     = Err FetchUserFailed.
Proof. split; vm_compute; reflexivity. Qed.



(** C8, witness: a signed-out caller brings a cancelled appointment
    back to CONFIRMED. *)
Lemma updateAppointmentStatus_overwrites_cancelled :
  session Demo.busy_signed_out = None
  /\ Appointment.status Demo.apt_2 = CANCELLED
  /\ exists w',
       run (Appointments.updateAppointmentStatus
              (Appointments.mkUpdate "apt_2" CONFIRMED)) Demo.busy_signed_out
       = (Ok (Appointment.mk "apt_2" "u1" "d1" Demo.june_1 "10:00" "Cleaning"
                CONFIRMED 300), w')
       /\ users (db w') = users (db Demo.busy_signed_out).
Proof.
  split; [reflexivity |]. split; [reflexivity |].
  destruct (updateAppointmentStatus_overwrites
              (Appointments.mkUpdate "apt_2" CONFIRMED) Demo.busy_signed_out
              Demo.apt_2 eq_refl eq_refl)
    as (w' & Hrun & Husers & _).
  exists w'. split; [exact Hrun | exact Husers].
Defined.



(** C10, counterexample: without a caller identity the sync of
    [users.ts] returns null; it signals nothing. *)
Lemma users_sync_returns_null :
  clerk Demo.signed_out = None
  /\ run Users.ensureUserExists Demo.signed_out = (Ok None, Demo.signed_out).
Proof. split; reflexivity. Qed.

(** C10, witness: no identity, and an outage during the sync. *)
Lemma sync_failures_demo :
  run Users.ensureUserExists Demo.signed_out = (Ok None, Demo.signed_out)
  /\ run (Appointments.ensureUserExists "user_ada") Demo.signed_out
     = (Err (Error "No Clerk user found"), Demo.signed_out)
  /\ fst (run Users.ensureUserExists Demo.busy_outage) = Err Demo.outage
  /\ fst (run (Appointments.ensureUserExists "user_ada") Demo.busy_outage)
     = Err Demo.outage.
Proof.
  destruct (sync_failures Demo.signed_out "user_ada") as (Hnull & Hthrow & _).
  destruct (sync_failures Demo.busy_outage "user_ada")
    as (_ & _ & Hupsert & Hfind & _).
  split; [apply Hnull; reflexivity |].
  split; [apply Hthrow; reflexivity |].
  split.
  - erewrite (Hupsert Demo.ada "ada@example.org" Demo.outage);
      reflexivity.
  - erewrite (Hfind Demo.ada Demo.outage); reflexivity.
Defined.

(** C7: two first-time requests of the same new user, in flight
    together.  With the sync of the appointment actions both look the
    user up before either inserts: the second insert is rejected by the
    unique key and that request fails.  With the sync of [users.ts],
    under the same interleaving, both succeed.  One after the other,
    both syncs leave exactly one row. *)
Theorem ensureUserExists_race :
  (let '(r1, r2, w') :=
     interleave [true; true; false; false]
       (Appointments.ensureUserExists "user_ada")
       (Appointments.ensureUserExists "user_ada") Demo.signed_in in
   is_ok r1 = true
   /\ r2 = Err (PrismaClientKnownRequestError "P2002")
   /\ calls w' = [call_user_findUnique "user_ada";
                  call_user_findUnique "user_ada";
                  call_user_create "user_ada";
                  call_user_create "user_ada"]
   /\ List.length (users (db w')) = 1%nat)
  /\ (let '(r1, r2, w') :=
        interleave [true; false] Users.ensureUserExists Users.ensureUserExists
          Demo.signed_in in
      is_ok r1 = true /\ is_ok r2 = true
      /\ calls w' = [call_user_upsert "user_ada"; call_user_upsert "user_ada"]
      /\ List.length (users (db w')) = 1%nat)
  /\ (let '(r1, r2, w') :=
        interleave [] (Appointments.ensureUserExists "user_ada")
          (Appointments.ensureUserExists "user_ada") Demo.signed_in in
      is_ok r1 = true /\ is_ok r2 = true
      /\ List.length (users (db w')) = 1%nat).
Proof. vm_compute. repeat split; reflexivity. Qed.

(** * More of [users.ts]: the retried sync *)

Lemma users_attempt_no_identity (w : World) :
  clerk w = None -> run Users.ensureUserExists w = (Ok None, w).
Proof.
  intro Hclerk. unfold Users.ensureUserExists.
  rewrite run_try_catch, run_bind, run_await.
  unfold Prisma.exec. cbn [call_of Prisma.perform]. rewrite Hclerk.
  reflexivity.
Qed.

Lemma users_attempt_no_email (w : World) (c : Clerk.User) (e : JsError) :
  clerk w = Some c -> Users.first_email c = Err e ->
  run Users.ensureUserExists w
  = (Err e, write_console (reported "Error in ensureUserExists:" e) w).
Proof.
  intros Hclerk Hemail. unfold Users.ensureUserExists.
  rewrite run_try_catch, run_bind, run_await.
  unfold Prisma.exec. cbn [call_of Prisma.perform]. rewrite Hclerk.
  rewrite run_bind, Hemail. reflexivity.
Qed.

Lemma users_attempt_fails (w : World) (c : Clerk.User) (email : string)
  (e : JsError) :
  clerk w = Some c -> Users.first_email c = Ok email -> next_fault w = Some e ->
  run Users.ensureUserExists w
  = (Err e,
     write_console (reported "Error in ensureUserExists:" e)
       (after_call (call_user_upsert (Clerk.id c)) w)).
Proof.
  intros Hclerk Hemail Hfault.
  rewrite (run_users_ensureUserExists w c email Hclerk Hemail).
  rewrite (exec_fails _ (call_user_upsert (Clerk.id c)) _ e)
    by (reflexivity || assumption).
  reflexivity.
Qed.

Lemma upsert_user_runs (c : Clerk.User) (email : string) (w : World) :
  exists u w1,
    Prisma.upsert_user (Clerk.id c)
      (UserUpdateInput.mk (Clerk.firstName c) (Clerk.lastName c) email
         (Users.first_phone c))
      (UserCreateInput.mk (Clerk.id c) email (Clerk.firstName c)
         (Clerk.lastName c) (Users.first_phone c)) w = (Ok u, w1)
    /\ User.clerkId u = Clerk.id c
    /\ User.email u = email
    /\ User.firstName u = Clerk.firstName c
    /\ User.lastName u = Clerk.lastName c
    /\ Prisma.find_user_by_clerkId (Clerk.id c) (users (db w1)) = Some u
    /\ clerk w1 = clerk w /\ session w1 = session w
    /\ faults w1 = faults w /\ calls w1 = calls w /\ clock w1 = clock w
    /\ console w1 = console w
    /\ doctors (db w1) = doctors (db w)
    /\ appointments (db w1) = appointments (db w).
Proof.
  unfold Prisma.upsert_user.
  destruct (Prisma.find_user_by_clerkId (Clerk.id c) (users (db w)))
    as [u0 |] eqn:Hfind.
  - eexists _, _. split; [reflexivity |].
    assert (Hkey : (User.clerkId u0 =? Clerk.id c)%string = true).
    { unfold Prisma.find_user_by_clerkId in Hfind.
      apply find_some in Hfind as [_ Hkey]. exact Hkey. }
    cbn. repeat split; try reflexivity.
    + apply String.eqb_eq, Hkey.
    + unfold Prisma.find_user_by_clerkId in *.
      apply (find_replace_first _ (Prisma.update_user _) _ u0); assumption.
  - unfold Prisma.insert_user. cbn [UserCreateInput.clerkId]. rewrite Hfind.
    cbn [draw_id]. eexists _, _. split; [reflexivity |].
    cbn. repeat split; try reflexivity.
    apply find_user_by_clerkId_last; [exact Hfind | reflexivity].
Qed.

Lemma users_attempt_passes (w : World) (c : Clerk.User) (email : string) :
  clerk w = Some c -> Users.first_email c = Ok email -> next_fault w = None ->
  exists u w1,
    run Users.ensureUserExists w = (Ok (Some u), w1)
    /\ User.clerkId u = Clerk.id c
    /\ User.email u = email
    /\ Prisma.find_user_by_clerkId (Clerk.id c) (users (db w1)) = Some u
    /\ clerk w1 = Some c
    /\ faults w1 = List.tl (faults w)
    /\ calls w1 = (calls w ++ [call_user_upsert (Clerk.id c)])%list
    /\ clock w1 = clock w
    /\ doctors (db w1) = doctors (db w)
    /\ appointments (db w1) = appointments (db w).
Proof.
  intros Hclerk Hemail Hfault.
  rewrite (run_users_ensureUserExists w c email Hclerk Hemail).
  rewrite (exec_passes _ (call_user_upsert (Clerk.id c)))
    by (reflexivity || assumption).
  unfold Users.upsert_of. cbn [Prisma.perform].
  destruct (upsert_user_runs c email (after_call (call_user_upsert (Clerk.id c)) w))
    as (u & w1 & -> & Hkey & Hmail & _ & _ & Hfind & Hc & _ & Hf & Hcalls
        & Hclock & _ & Hd & Ha).
  exists u, w1. split; [reflexivity |].
  rewrite Hc, Hf, Hcalls, Hclock, Hd, Ha. cbn. auto 12.
Qed.

(** X1: with a caller identity that has an email address,
    [getCurrentDbUser] returns the synced user row as soon as one of its
    first three upserts goes through, having issued one upsert per
    attempt; when the first three upserts fail it throws the error of
    the third, the first two being dropped, and the database is as it
    was. *)
Theorem getCurrentDbUser_retries (w : World) (c : Clerk.User) (email : string) :
  clerk w = Some c ->
  Users.first_email c = Ok email ->
  match leading_faults (faults w) with
  | e1 :: e2 :: e3 :: _ =>
      exists w',
        getCurrentDbUser 4 w = Some (Err e3, w')
        /\ db w' = db w
        /\ calls w' = (calls w ++ [call_user_upsert (Clerk.id c);
                                   call_user_upsert (Clerk.id c);
                                   call_user_upsert (Clerk.id c)])%list
  | failed =>
      exists u w',
        getCurrentDbUser 4 w = Some (Ok (Some u), w')
        /\ User.clerkId u = Clerk.id c
        /\ User.email u = email
        /\ Prisma.find_user_by_clerkId (Clerk.id c) (users (db w')) = Some u
        /\ List.length (calls w')
           = (List.length (calls w) + S (List.length failed))%nat
  end.
Proof.
  intros Hclerk Hemail. unfold getCurrentDbUser.
  destruct (faults w) as [| [e1 |] f1] eqn:Hf1; cbn [leading_faults].
  1, 3: destruct (users_attempt_passes w c email Hclerk Hemail)
        as (u & w1 & Hrun & Hkey & Hmail & Hfind & _ & _ & Hcalls & _);
        [unfold next_fault; rewrite Hf1; reflexivity |];
        exists u, w1; cbn [getCurrentDbUser_loop Nat.ltb Nat.leb maxRetries];
        rewrite Hrun, Hcalls, length_app; cbn; auto.
  cbn [getCurrentDbUser_loop Nat.ltb Nat.leb Nat.eqb maxRetries].
  rewrite (users_attempt_fails w c email e1 Hclerk Hemail)
    by (unfold next_fault; rewrite Hf1; reflexivity).
  set (w1 := write_console _ (after_call _ w)).
  assert (Hclerk1 : clerk w1 = Some c) by exact Hclerk.
  assert (Hfaults1 : faults w1 = f1) by (cbn; rewrite Hf1; reflexivity).
  assert (Hcalls1 : calls w1 = (calls w ++ [call_user_upsert (Clerk.id c)])%list)
    by reflexivity.
  assert (Hdb1 : db w1 = db w) by reflexivity.
  destruct f1 as [| [e2 |] f2]; cbn [leading_faults].
  1, 3: destruct (users_attempt_passes w1 c email Hclerk1 Hemail)
        as (u & w2 & Hrun & Hkey & Hmail & Hfind & _ & _ & Hcalls & _);
        [unfold next_fault; rewrite Hfaults1; reflexivity |];
        exists u, w2; rewrite Hrun, Hcalls, Hcalls1, !length_app; cbn;
        repeat split; auto; lia.
  rewrite (users_attempt_fails w1 c email e2 Hclerk1 Hemail)
    by (unfold next_fault; rewrite Hfaults1; reflexivity).
  cbn [Nat.eqb].
  set (w2 := write_console _ (after_call _ w1)).
  assert (Hclerk2 : clerk w2 = Some c) by exact Hclerk.
  assert (Hfaults2 : faults w2 = f2) by (cbn; rewrite Hf1; reflexivity).
  assert (Hcalls2 : calls w2 = (calls w1 ++ [call_user_upsert (Clerk.id c)])%list)
    by reflexivity.
  assert (Hdb2 : db w2 = db w) by reflexivity.
  destruct f2 as [| [e3 |] f3]; cbn [leading_faults].
  1, 3: destruct (users_attempt_passes w2 c email Hclerk2 Hemail)
        as (u & w3 & Hrun & Hkey & Hmail & Hfind & _ & _ & Hcalls & _);
        [unfold next_fault; rewrite Hfaults2; reflexivity |];
        exists u, w3; rewrite Hrun, Hcalls, Hcalls2, Hcalls1, !length_app; cbn;
        repeat split; auto; lia.
  rewrite (users_attempt_fails w2 c email e3 Hclerk2 Hemail)
    by (unfold next_fault; rewrite Hfaults2; reflexivity).
  cbn [Nat.eqb]. eexists. split; [reflexivity |].
  split; [reflexivity |]. cbn. rewrite <- !app_assoc. reflexivity.
Qed.

(** X1, witness: two outages are ridden out, the third attempt syncs
    Ada's row. *)
Lemma getCurrentDbUser_retries_flaky :
  exists u w',
    getCurrentDbUser 4 Scenes.flaky = Some (Ok (Some u), w')
    /\ User.email u = "ada@example.org"
    /\ List.length (calls w') = 3%nat.
Proof.
  destruct (getCurrentDbUser_retries Scenes.flaky Demo.ada "ada@example.org"
              eq_refl eq_refl)
    as (u & w' & Hrun & _ & Hmail & _ & Hcalls).
  exists u, w'. auto.
Defined.

(** X2: without a caller identity [getCurrentDbUser] makes its three
    attempts, waits 500 ms after each and returns null: 1500 ms have
    passed, nothing was asked of the persistence layer and nothing was
    written to the console. *)
Theorem getCurrentDbUser_no_identity (w : World) :
  clerk w = None ->
  getCurrentDbUser 4 w = Some (Ok None, sleep 500 (sleep 500 (sleep 500 w)))
  /\ clock (sleep 500 (sleep 500 (sleep 500 w))) = clock w + 1500
  /\ calls (sleep 500 (sleep 500 (sleep 500 w))) = calls w
  /\ console (sleep 500 (sleep 500 (sleep 500 w))) = console w
  /\ db (sleep 500 (sleep 500 (sleep 500 w))) = db w.
Proof.
  intro Hclerk. split.
  - unfold getCurrentDbUser.
    cbn [getCurrentDbUser_loop Nat.ltb Nat.leb maxRetries].
    rewrite (users_attempt_no_identity w Hclerk).
    rewrite (users_attempt_no_identity (sleep 500 w)) by exact Hclerk.
    rewrite (users_attempt_no_identity (sleep 500 (sleep 500 w)))
      by exact Hclerk.
    reflexivity.
  - cbn. repeat split; try reflexivity. lia.
Qed.

(** X2, witness: nobody is signed in. *)
Lemma getCurrentDbUser_no_identity_closed_door :
  clerk Scenes.closed_door = None
  /\ option_map fst (getCurrentDbUser 4 Scenes.closed_door) = Some (Ok None).
Proof.
  split; [reflexivity |].
  destruct (getCurrentDbUser_no_identity Scenes.closed_door eq_refl)
    as [Hrun _].
  rewrite Hrun. reflexivity.
Defined.

(** What one attempt of the sync of [users.ts] can do: at most one
    persistence call, and nothing to doctors and appointments. *)
Lemma users_attempt_effect (w : World) :
  exists l,
    calls (snd (run Users.ensureUserExists w)) = (calls w ++ l)%list
    /\ (List.length l <= 1)%nat
    /\ doctors (db (snd (run Users.ensureUserExists w))) = doctors (db w)
    /\ appointments (db (snd (run Users.ensureUserExists w)))
       = appointments (db w).
Proof.
  destruct (clerk w) as [c |] eqn:Hclerk.
  - destruct (Users.first_email c) as [email | e] eqn:Hemail.
    + destruct (next_fault w) as [e |] eqn:Hfault.
      * rewrite (users_attempt_fails w c email e Hclerk Hemail Hfault).
        exists [call_user_upsert (Clerk.id c)]. cbn. auto.
      * destruct (users_attempt_passes w c email Hclerk Hemail Hfault)
          as (u & w1 & -> & _ & _ & _ & _ & _ & Hcalls & _ & Hd & Ha).
        exists [call_user_upsert (Clerk.id c)]. cbn. auto.
    + rewrite (users_attempt_no_email w c e Hclerk Hemail).
      exists []. cbn. rewrite app_nil_r. auto.
  - rewrite (users_attempt_no_identity w Hclerk).
    exists []. cbn. rewrite app_nil_r. auto.
Qed.

Lemma getCurrentDbUser_loop_effect (fuel retries : nat) (w w' : World)
  (r : Result (option User.t)) :
  getCurrentDbUser_loop fuel retries w = Some (r, w') ->
  exists l,
    calls w' = (calls w ++ l)%list
    /\ (List.length l <= maxRetries - retries)%nat
    /\ doctors (db w') = doctors (db w)
    /\ appointments (db w') = appointments (db w).
Proof.
  revert retries w. induction fuel as [| fuel IH]; intros retries w;
    cbn [getCurrentDbUser_loop]; [discriminate |].
  destruct (Nat.ltb retries maxRetries) eqn:Hlt.
  - apply Nat.ltb_lt in Hlt.
    destruct (users_attempt_effect w) as (l1 & Hcalls & Hlen & Hd & Ha).
    destruct (run Users.ensureUserExists w) as [[[u |] | e] w1];
      cbn [snd] in *.
    + intro H; injection H as <- <-. exists l1. unfold maxRetries in *.
      repeat split; auto; lia.
    + intro H. apply IH in H as (l2 & Hcalls2 & Hlen2 & Hd2 & Ha2).
      cbn in Hcalls2, Hd2, Ha2.
      exists (l1 ++ l2)%list. rewrite Hcalls2, Hcalls, <- app_assoc, length_app.
      repeat split; try congruence. unfold maxRetries in *. lia.
    + destruct (Nat.eqb (S retries) maxRetries).
      * intro H; injection H as <- <-. exists l1. unfold maxRetries in *.
        repeat split; [exact Hcalls | lia | exact Hd | exact Ha].
      * intro H. apply IH in H as (l2 & Hcalls2 & Hlen2 & Hd2 & Ha2).
        exists (l1 ++ l2)%list.
        rewrite Hcalls2, Hcalls, <- app_assoc, length_app.
        repeat split; try congruence. unfold maxRetries in *. lia.
  - intro H; injection H as <- <-. exists []. rewrite app_nil_r. cbn.
    repeat split; auto. lia.
Qed.

Lemma getCurrentDbUser_loop_ends (fuel retries : nat) (w : World) :
  (maxRetries - retries < fuel)%nat ->
  exists r w', getCurrentDbUser_loop fuel retries w = Some (r, w').
Proof.
  revert retries w. induction fuel as [| fuel IH]; intros retries w Hfuel;
    [lia |].
  cbn [getCurrentDbUser_loop].
  destruct (Nat.ltb retries maxRetries) eqn:Hlt; [| eauto].
  apply Nat.ltb_lt in Hlt.
  destruct (run Users.ensureUserExists w) as [[[u |] | e] w1]; [eauto | |].
  - apply IH. lia.
  - destruct (Nat.eqb (S retries) maxRetries); [eauto |]. apply IH. lia.
Qed.

Lemma getCurrentDbUser_loop_more_fuel (fuel fuel' retries : nat) (w : World)
  (x : Result (option User.t) * World) :
  getCurrentDbUser_loop fuel retries w = Some x -> (fuel <= fuel')%nat ->
  getCurrentDbUser_loop fuel' retries w = Some x.
Proof.
  revert fuel' retries w. induction fuel as [| fuel IH];
    intros fuel' retries w; [discriminate |].
  intros H Hle. destruct fuel' as [| fuel']; [lia |].
  cbn [getCurrentDbUser_loop] in *.
  destruct (Nat.ltb retries maxRetries); [| exact H].
  destruct (run Users.ensureUserExists w) as [[[u |] | e] w1]; [exact H | |].
  - apply IH; [exact H | lia].
  - destruct (Nat.eqb (S retries) maxRetries); [exact H |].
    apply IH; [exact H | lia].
Qed.

(** X3: [getCurrentDbUser] always ends, whatever the world: four
    evaluations of the loop condition are enough and more change
    nothing.  It issues at most three persistence calls and never
    touches doctors or appointments. *)
Theorem getCurrentDbUser_bounded (fuel : nat) (w : World) :
  exists r w',
    getCurrentDbUser 4 w = Some (r, w')
    /\ ((4 <= fuel)%nat -> getCurrentDbUser fuel w = Some (r, w'))
    /\ (exists l, calls w' = (calls w ++ l)%list /\ (List.length l <= 3)%nat)
    /\ doctors (db w') = doctors (db w)
    /\ appointments (db w') = appointments (db w).
Proof.
  unfold getCurrentDbUser.
  destruct (getCurrentDbUser_loop_ends 4 0 w) as (r & w' & Hrun);
    [cbn; lia |].
  exists r, w'. split; [exact Hrun |].
  split; [intro Hfuel; apply (getCurrentDbUser_loop_more_fuel 4); assumption |].
  destruct (getCurrentDbUser_loop_effect 4 0 w w' r Hrun)
    as (l & Hcalls & Hlen & Hd & Ha).
  split; [exists l; split; [exact Hcalls | exact Hlen] |]. auto.
Qed.

(** * More of [users.ts]: [syncUser], and syncing again *)

Lemma run_users_syncUser (w : World) (c : Clerk.User) (email : string) :
  clerk w = Some c -> Users.first_email c = Ok email ->
  run Users.syncUser w
  = match Prisma.exec (Users.upsert_of c email) w with
    | (Ok u, w') =>
        (Ok (Some u),
         write_console (mkLog level_log "User synced:" (text (User.email u))) w')
    | (Err e, w') =>
        (Err e,
         write_console (reported "Error in syncUser server action:" e) w')
    end.
Proof.
  intros Hclerk Hemail. unfold Users.syncUser.
  rewrite run_try_catch, run_bind, run_await.
  unfold Prisma.exec at 1. cbn [call_of Prisma.perform]. rewrite Hclerk.
  rewrite run_bind, Hemail. cbn [eval run]. rewrite run_bind, run_await.
  destruct (Prisma.exec (Users.upsert_of c email) w) as [[u | e] w']; reflexivity.
Qed.

(** X4: [syncUser] and [ensureUserExists] of [users.ts] are the same
    sync: in every world they return the same result and leave the same
    database, the same log of persistence calls and the same pending
    failures; only what they write to the console differs. *)
Theorem syncUser_is_ensureUserExists (w : World) :
  fst (run Users.syncUser w) = fst (run Users.ensureUserExists w)
  /\ db (snd (run Users.syncUser w)) = db (snd (run Users.ensureUserExists w))
  /\ calls (snd (run Users.syncUser w))
     = calls (snd (run Users.ensureUserExists w))
  /\ faults (snd (run Users.syncUser w))
     = faults (snd (run Users.ensureUserExists w)).
Proof.
  destruct (clerk w) as [c |] eqn:Hclerk.
  - destruct (Users.first_email c) as [email | e] eqn:Hemail.
    + rewrite (run_users_syncUser w c email Hclerk Hemail),
        (run_users_ensureUserExists w c email Hclerk Hemail).
      destruct (Prisma.exec (Users.upsert_of c email) w) as [[u | e] w'];
        cbn; auto.
    + rewrite (users_attempt_no_email w c e Hclerk Hemail).
      unfold Users.syncUser.
      rewrite run_try_catch, run_bind, run_await.
      unfold Prisma.exec. cbn [call_of Prisma.perform]. rewrite Hclerk.
      rewrite run_bind, Hemail. cbn. auto.
  - rewrite (users_attempt_no_identity w Hclerk).
    unfold Users.syncUser.
    rewrite run_try_catch, run_bind, run_await.
    unfold Prisma.exec. cbn [call_of Prisma.perform]. rewrite Hclerk.
    cbn. auto.
Qed.

(** The row an upsert returns is one the same upsert would not change. *)
Lemma upsert_user_settled (c : Clerk.User) (email : string) (w w1 : World)
  (u : User.t) :
  Prisma.upsert_user (Clerk.id c)
    (UserUpdateInput.mk (Clerk.firstName c) (Clerk.lastName c) email
       (Users.first_phone c))
    (UserCreateInput.mk (Clerk.id c) email (Clerk.firstName c)
       (Clerk.lastName c) (Users.first_phone c)) w = (Ok u, w1) ->
  Prisma.update_user
    (UserUpdateInput.mk (Clerk.firstName c) (Clerk.lastName c) email
       (Users.first_phone c)) u = u.
Proof.
  unfold Prisma.upsert_user.
  destruct (Prisma.find_user_by_clerkId (Clerk.id c) (users (db w)))
    as [u0 |] eqn:Hfind.
  - intro H; injection H as <- _. unfold Prisma.update_user. cbn.
    destruct (Users.first_phone c); reflexivity.
  - unfold Prisma.insert_user. cbn [UserCreateInput.clerkId]. rewrite Hfind.
    cbn [draw_id]. intro H; injection H as <- _.
    unfold Prisma.update_user. cbn.
    destruct (Users.first_phone c); reflexivity.
Qed.

(** X5: the sync of [users.ts] is idempotent: when no persistence call
    fails, a second sync right after the first returns the same row and
    leaves the database exactly as the first left it, whether the row
    was there before or not. *)
Theorem users_sync_idempotent (w : World) (c : Clerk.User) (email : string) :
  clerk w = Some c -> Users.first_email c = Ok email -> faults w = [] ->
  exists u w1 w2,
    run Users.ensureUserExists w = (Ok (Some u), w1)
    /\ run Users.ensureUserExists w1 = (Ok (Some u), w2)
    /\ db w2 = db w1
    /\ User.clerkId u = Clerk.id c
    /\ rows_of (Clerk.id c) (users (db w1))
       = Nat.max 1 (rows_of (Clerk.id c) (users (db w))).
Proof.
  intros Hclerk Hemail Hfaults.
  assert (Hfault : next_fault w = None)
    by (unfold next_fault; rewrite Hfaults; reflexivity).
  rewrite (run_users_ensureUserExists w c email Hclerk Hemail).
  rewrite (exec_passes _ (call_user_upsert (Clerk.id c)))
    by (reflexivity || assumption).
  unfold Users.upsert_of at 1. cbn [Prisma.perform].
  pose proof (upsert_user_settled c email
                (after_call (call_user_upsert (Clerk.id c)) w)) as Hsettled.
  assert (Hrows : forall u w1,
             Prisma.upsert_user (Clerk.id c)
               (UserUpdateInput.mk (Clerk.firstName c) (Clerk.lastName c) email
                  (Users.first_phone c))
               (UserCreateInput.mk (Clerk.id c) email (Clerk.firstName c)
                  (Clerk.lastName c) (Users.first_phone c))
               (after_call (call_user_upsert (Clerk.id c)) w) = (Ok u, w1) ->
             rows_of (Clerk.id c) (users (db w1))
             = Nat.max 1 (rows_of (Clerk.id c) (users (db w)))).
  { intros u w1. unfold Prisma.upsert_user.
    cbn [db after_call set_faults log_call].
    destruct (Prisma.find_user_by_clerkId (Clerk.id c) (users (db w)))
      as [u0 |] eqn:Hfind.
    - intro H; injection H as _ <-. cbn [db set_db users].
      rewrite rows_of_replace_first by reflexivity.
      unfold Prisma.find_user_by_clerkId in Hfind.
      apply find_some in Hfind as [Hin Hkey].
      assert (1 <= rows_of (Clerk.id c) (users (db w)))%nat; [| lia].
      unfold rows_of.
      assert (Hin' : In u0 (filter (fun u => (User.clerkId u =? Clerk.id c)%string)
                             (users (db w))))
        by (apply filter_In; auto).
      destruct (filter _ (users (db w))); [destruct Hin' | cbn; lia].
    - unfold Prisma.insert_user.
      cbn [UserCreateInput.clerkId db after_call set_faults log_call].
      rewrite Hfind. cbn [draw_id]. intro H; injection H as _ <-.
      cbn [db set_db users after_call set_faults log_call].
      rewrite rows_of_app, (rows_of_absent _ _ Hfind). unfold rows_of. cbn.
      rewrite String.eqb_refl. reflexivity. }
  destruct (upsert_user_runs c email
              (after_call (call_user_upsert (Clerk.id c)) w))
    as (u & w1 & Hup & Hkey & _ & _ & _ & Hfind & Hc & _ & Hf & _).
  specialize (Hsettled w1 u Hup). specialize (Hrows u w1 Hup). rewrite Hup.
  exists u, w1.
  assert (Hclerk1 : clerk w1 = Some c) by (rewrite Hc; exact Hclerk).
  assert (Hfault1 : next_fault w1 = None).
  { unfold next_fault. rewrite Hf. cbn. rewrite Hfaults. reflexivity. }
  rewrite (run_users_ensureUserExists w1 c email Hclerk1 Hemail).
  rewrite (exec_passes _ (call_user_upsert (Clerk.id c)))
    by (reflexivity || assumption).
  unfold Users.upsert_of. cbn [Prisma.perform]. unfold Prisma.upsert_user.
  change (db (after_call (call_user_upsert (Clerk.id c)) w1)) with (db w1).
  rewrite Hfind, Hsettled.
  eexists. split; [reflexivity |]. split; [reflexivity |].
  split; [| split; [exact Hkey | exact Hrows]].
  cbn [db set_db].
  unfold Prisma.find_user_by_clerkId in Hfind.
  rewrite (replace_first_fixed _ _ _ u Hfind Hsettled).
  destruct (db w1); reflexivity.
Qed.

(** X5, witness: Ada's first visit, synced twice. *)
Lemma users_sync_idempotent_first_visit :
  exists u w1 w2,
    run Users.ensureUserExists Scenes.first_visit = (Ok (Some u), w1)
    /\ run Users.ensureUserExists w1 = (Ok (Some u), w2)
    /\ db w2 = db w1
    /\ rows_of "user_ada" (users (db w1)) = 1%nat.
Proof.
  destruct (users_sync_idempotent Scenes.first_visit Demo.ada "ada@example.org"
              eq_refl eq_refl eq_refl)
    as (u & w1 & w2 & Hrun1 & Hrun2 & Hdb & _ & Hrows).
  exists u, w1, w2. auto.
Defined.

(** * More of the appointment actions *)

(** ** The sync of the appointment actions, when it returns a row *)

Lemma appointments_ensureUserExists_ok (clerkId : string) (w w1 : World)
  (u : User.t) :
  run (Appointments.ensureUserExists clerkId) w = (Ok u, w1) ->
  Prisma.find_user_by_clerkId clerkId (users (db w1)) = Some u
  /\ In u (users (db w1))
  /\ session w1 = session w
  /\ doctors (db w1) = doctors (db w)
  /\ appointments (db w1) = appointments (db w)
  /\ (users (db w1) = users (db w)
      \/ users (db w1) = (users (db w) ++ [u])%list).
Proof.
  destruct (clerk w) as [c |] eqn:Hclerk.
  - rewrite (run_appointments_ensureUserExists clerkId w c Hclerk).
    unfold Prisma.exec at 1. cbn [call_of Prisma.perform].
    destruct (next_fault w); [discriminate |].
    cbn [db after_call set_faults log_call].
    destruct (Prisma.find_user_by_clerkId clerkId (users (db w)))
      as [u0 |] eqn:Hfind.
    + intro H; injection H as <- <-. cbn.
      split; [exact Hfind |].
      unfold Prisma.find_user_by_clerkId in Hfind.
      apply find_some in Hfind as [Hin _]. auto 7.
    + destruct (Users.first_email c) as [email | e]; [| discriminate].
      unfold Prisma.exec. cbn [call_of Prisma.perform].
      destruct (next_fault _); [discriminate |].
      unfold Prisma.insert_user.
      cbn [db after_call set_faults log_call created_user
             UserCreateInput.clerkId].
      rewrite Hfind. cbn [draw_id]. intro H; injection H as <- <-. cbn.
      split; [apply find_user_by_clerkId_last; [exact Hfind | reflexivity] |].
      split; [apply in_or_app; right; left; reflexivity |]. auto 7.
  - unfold Appointments.ensureUserExists.
    rewrite run_bind, run_await. unfold Prisma.exec.
    cbn [call_of Prisma.perform]. rewrite Hclerk. discriminate.
Qed.

(** Whatever its outcome, the sync of the appointment actions leaves
    the user table as it was or with one more row. *)
Lemma appointments_ensureUserExists_users (clerkId : string) (w : World) :
  users (db (snd (run (Appointments.ensureUserExists clerkId) w)))
  = users (db w)
  \/ exists u,
       users (db (snd (run (Appointments.ensureUserExists clerkId) w)))
       = (users (db w) ++ [u])%list.
Proof.
  destruct (run (Appointments.ensureUserExists clerkId) w) as [[u | e] w1]
    eqn:Hrun.
  - apply appointments_ensureUserExists_ok in Hrun
      as (_ & _ & _ & _ & _ & [H | H]); cbn; eauto.
  - left. cbn [snd]. revert Hrun.
    destruct (clerk w) as [c |] eqn:Hclerk.
    + rewrite (run_appointments_ensureUserExists clerkId w c Hclerk).
      unfold Prisma.exec at 1. cbn [call_of Prisma.perform].
      destruct (next_fault w); [intro H; injection H as _ <-; reflexivity |].
      cbn [db after_call set_faults log_call].
      destruct (Prisma.find_user_by_clerkId clerkId (users (db w)))
        as [u0 |] eqn:Hfind; [discriminate |].
      destruct (Users.first_email c) as [email | e'];
        [| intro H; injection H as _ <-; reflexivity].
      unfold Prisma.exec. cbn [call_of Prisma.perform].
      destruct (next_fault _); [intro H; injection H as _ <-; reflexivity |].
      unfold Prisma.insert_user.
      cbn [db after_call set_faults log_call created_user
             UserCreateInput.clerkId].
      rewrite Hfind. cbn [draw_id]. discriminate.
    + unfold Appointments.ensureUserExists.
      rewrite run_bind, run_await. unfold Prisma.exec.
      cbn [call_of Prisma.perform]. rewrite Hclerk.
      intro H; injection H as _ <-. reflexivity.
Qed.

(** ** Listings and counts: whose rows *)

Lemma matches_owner (i : string) (a : Appointment.t) :
  Prisma.matches (AppointmentWhere.mk (Some i) None None None) a = owned_by i a.
Proof.
  unfold Prisma.matches, owned_by, Prisma.holds. cbn.
  rewrite !andb_true_r. reflexivity.
Qed.

Lemma matches_completed (i : string) (a : Appointment.t) :
  Prisma.matches (AppointmentWhere.mk (Some i) None None (Some [COMPLETED])) a
  = completed_of i a.
Proof.
  unfold Prisma.matches, completed_of, owned_by, Prisma.holds. cbn.
  rewrite !andb_true_r, orb_false_r. reflexivity.
Qed.

Lemma matches_all (a : Appointment.t) :
  Prisma.matches (Appointments.include_where None) a = true.
Proof. reflexivity. Qed.

Lemma filter_all {A} (f : A -> bool) (l : list A) :
  (forall x, f x = true) -> List.filter f l = l.
Proof.
  intro H. induction l as [| x l IH]; simpl; [reflexivity |].
  rewrite H, IH. reflexivity.
Qed.

Lemma filter_narrower {A} (f g : A -> bool) (l : list A) :
  (List.length (List.filter (fun x => f x && g x)%bool l)
   <= List.length (List.filter f l))%nat.
Proof.
  induction l as [| x l IH]; simpl; [lia |].
  destruct (f x), (g x); simpl; lia.
Qed.

Lemma insert_row_permutation (keys : list OrderBy) (a : Appointment.t)
  (l : list Appointment.t) :
  Permutation (Prisma.insert_row keys a l) (a :: l).
Proof.
  induction l as [| b l IH]; simpl; [reflexivity |].
  destruct (Prisma.order_leb keys a b); [reflexivity |].
  rewrite IH. apply perm_swap.
Qed.

(** [ORDER BY] neither drops nor repeats a row. *)
Lemma order_rows_permutation (keys : list OrderBy) (l : list Appointment.t) :
  Permutation (Prisma.order_rows keys l) l.
Proof.
  induction l as [| a l IH]; simpl; [reflexivity |].
  rewrite insert_row_permutation, IH. reflexivity.
Qed.

Lemma view_ids (rows : list Included.t) :
  List.map View.id (List.map Appointments.transformAppointment rows)
  = List.map Appointment.id (List.map Included.appointment rows).
Proof. rewrite !map_map. reflexivity. Qed.

Lemma count_ok (q : AppointmentWhere.t) (w w' : World) (n : nat) :
  Prisma.exec (appointment_count q) w = (Ok n, w') ->
  n = List.length (List.filter (Prisma.matches q) (appointments (db w)))
  /\ db w' = db w.
Proof.
  unfold Prisma.exec. cbn [call_of Prisma.perform].
  destruct (next_fault w); [discriminate |].
  unfold Prisma.select_rows. destruct (Prisma.where_is_valid q); [| discriminate].
  intro H; injection H as <- <-. split; reflexivity.
Qed.

(** X6: the two counts of [getUserAppointmentStats] are two queries,
    with no transaction around them.  In a request that runs with no
    other request between its awaited calls, the counts returned are
    either both zero (something failed) or exact: the number of
    appointments of the caller's user row and the number of those that
    are COMPLETED; the completed count is then at most the total.  With
    another request in between this is lost: when an appointment is
    booked and completed between the two counts of a caller who had
    none, the stats are a total of 0 with 1 completed. *)
Theorem getUserAppointmentStats_counts :
  (forall (w w' : World) (stats : Appointments.Stats),
      run Appointments.getUserAppointmentStats w = (Ok stats, w') ->
      (Appointments.completedAppointments stats
       <= Appointments.totalAppointments stats)%nat
      /\ (stats = no_stats
          \/ exists uid u,
               session w = Some uid
               /\ Prisma.find_user_by_clerkId uid (users (db w')) = Some u
               /\ Appointments.totalAppointments stats
                  = List.length (List.filter (owned_by (User.id u))
                                   (appointments (db w)))
               /\ Appointments.completedAppointments stats
                  = List.length (List.filter (completed_of (User.id u))
                                   (appointments (db w)))))
  /\ (exists a w',
         interleave between_the_counts Appointments.getUserAppointmentStats
           book_and_complete Scenes.first_visit
         = (Ok (Appointments.mkStats 0 1), Ok a, w')
         /\ Appointment.status a = COMPLETED
         /\ List.length
              (List.filter (owned_by (Appointment.userId a))
                 (appointments (db w'))) = 1%nat).
Proof.
  split.
  2: { eexists _, _. split; [vm_compute; reflexivity |].
       split; reflexivity. }
  intros w w' stats.
  unfold Appointments.getUserAppointmentStats. rewrite run_fallback.
  destruct (run Appointments.getUserAppointmentStats_try w) as [[st | e] w0]
    eqn:Htry.
  2: { intro H; injection H as <- _. split; [cbn; lia | left; reflexivity]. }
  intro H; injection H as -> ->.
  unfold Appointments.getUserAppointmentStats_try in Htry.
  rewrite run_bind, run_await in Htry. unfold Prisma.exec in Htry at 1.
  cbn [call_of Prisma.perform] in Htry.
  destruct (session w) as [uid |]; [| discriminate].
  destruct (uid =? "")%string; [discriminate |].
  rewrite run_bind in Htry.
  destruct (run (Appointments.ensureUserExists uid) w) as [[u | e] w1]
    eqn:Hsync; [| discriminate].
  apply appointments_ensureUserExists_ok in Hsync
    as (Hfind & _ & _ & _ & Happ & _).
  rewrite run_bind in Htry. unfold await_all2 in Htry. cbn [run] in Htry.
  destruct (Prisma.exec _ w1) as [[n1 | e1] w2] eqn:Hcount1.
  2: { destruct (Prisma.exec _ w2) as [r2 w3]. discriminate. }
  destruct (Prisma.exec _ w2) as [[n2 | e2] w3] eqn:Hcount2; [| discriminate].
  cbn in Htry. injection Htry as <- <-.
  apply count_ok in Hcount1 as [-> Hdb1]. apply count_ok in Hcount2 as [-> Hdb2].
  cbn [Appointments.totalAppointments Appointments.completedAppointments].
  rewrite Hdb1, Happ.
  rewrite (filter_ext _ _ (matches_owner (User.id u))),
    (filter_ext _ _ (matches_completed (User.id u))).
  split; [apply filter_narrower |]. right. exists uid, u.
  rewrite Hdb2, Hdb1. auto.
Qed.

(** X6, witness: Ada's three appointments, one of them completed. *)
Lemma getUserAppointmentStats_counts_ada :
  exists stats w',
    run Appointments.getUserAppointmentStats Demo.busy = (Ok stats, w')
    /\ Appointments.totalAppointments stats = 3%nat
    /\ (Appointments.completedAppointments stats
        <= Appointments.totalAppointments stats)%nat.
Proof.
  eexists _, _.
  assert (Hrun : run Appointments.getUserAppointmentStats Demo.busy
                 = (Ok (Appointments.mkStats 3 1),
                    snd (run Appointments.getUserAppointmentStats Demo.busy)))
    by (vm_compute; reflexivity).
  split; [exact Hrun |]. split; [reflexivity |].
  apply (proj1 getUserAppointmentStats_counts _ _ _ Hrun).
Defined.

(** X7: a listing returned by [getUserAppointments] holds the
    appointments of the caller's user row and no other: every record
    carries the id of that row as userId, and the records are, up to
    order, the rows of the table with that userId, each once. *)
Theorem getUserAppointments_own (w w' : World) (views : list View.t) :
  run Appointments.getUserAppointments w = (Ok views, w') ->
  exists uid u,
    session w = Some uid
    /\ Prisma.find_user_by_clerkId uid (users (db w')) = Some u
    /\ Forall (fun v => View.userId v = User.id u) views
    /\ Permutation (List.map View.id views)
         (List.map Appointment.id
            (List.filter (owned_by (User.id u)) (appointments (db w)))).
Proof.
  unfold Appointments.getUserAppointments. rewrite run_try_catch.
  destruct (run Appointments.getUserAppointments_try w) as [[vs | e] w0]
    eqn:Htry; [| discriminate].
  intro H; injection H as -> ->.
  unfold Appointments.getUserAppointments_try in Htry.
  rewrite run_bind, run_await in Htry. unfold Prisma.exec in Htry at 1.
  cbn [call_of Prisma.perform] in Htry.
  destruct (session w) as [uid |]; [| discriminate].
  destruct (uid =? "")%string; [discriminate |].
  rewrite run_bind in Htry.
  destruct (run (Appointments.ensureUserExists uid) w) as [[u | e] w1]
    eqn:Hsync; [| discriminate].
  apply appointments_ensureUserExists_ok in Hsync
    as (Hfind & _ & _ & _ & Happ & _).
  rewrite run_bind, run_await in Htry.
  destruct (Prisma.exec _ w1) as [[rows | e] w2] eqn:Hexec; [| discriminate].
  cbn in Htry. injection Htry as <- <-.
  assert (Hdb : db w2 = db w1).
  { revert Hexec. unfold Prisma.exec. cbn [call_of Prisma.perform].
    destruct (next_fault w1); [discriminate |].
    destruct (Prisma.select_rows _ _); [| discriminate].
    destruct (Prisma.include_all _ _); [| discriminate].
    intro H; injection H as _ <-. reflexivity. }
  apply findMany_include_ok in Hexec.
  unfold Appointments.include_where in Hexec.
  rewrite (filter_ext _ _ (matches_owner (User.id u))), Happ in Hexec.
  exists uid, u. split; [reflexivity |]. rewrite Hdb.
  split; [exact Hfind |]. split.
  - apply Forall_forall. intros v Hv.
    apply in_map_iff in Hv as (row & <- & Hrow).
    assert (Hin : In (Included.appointment row)
                    (List.map Included.appointment rows))
      by (apply in_map; exact Hrow).
    rewrite Hexec in Hin.
    apply -> order_rows_in in Hin.
    apply filter_In in Hin as [_ Hown].
    apply String.eqb_eq in Hown. exact Hown.
  - rewrite view_ids, Hexec. apply Permutation_map, order_rows_permutation.
Qed.

(** X7, witness: Ada's listing. *)
Lemma getUserAppointments_own_ada :
  exists views w',
    run Appointments.getUserAppointments Demo.busy = (Ok views, w')
    /\ Forall (fun v => View.userId v = "u1") views
    /\ List.length views = 3%nat.
Proof.
  eexists _, _.
  assert (Hrun : run Appointments.getUserAppointments Demo.busy
                 = (Ok (Demo.value [] (fst (run Appointments.getUserAppointments
                                              Demo.busy))),
                    snd (run Appointments.getUserAppointments Demo.busy)))
    by (vm_compute; reflexivity).
  split; [exact Hrun |].
  destruct (getUserAppointments_own _ _ _ Hrun)
    as (uid & u & _ & _ & _ & _).
  split; [| vm_compute; reflexivity].
  vm_compute. repeat constructor.
Defined.

(** X8: [getAppointments] asks for no identity: its result is the same
    whoever calls, signed in or not; a listing it returns holds every
    appointment of the table, each once, and the database is left as it
    was. *)
Theorem getAppointments_all (w : World) :
  (forall s c,
      fst (run Appointments.getAppointments (set_session s c w))
      = fst (run Appointments.getAppointments w))
  /\ (forall views w',
         run Appointments.getAppointments w = (Ok views, w') ->
         Permutation (List.map View.id views)
           (List.map Appointment.id (appointments (db w)))
         /\ db w' = db w).
Proof.
  split.
  - intros s c. unfold Appointments.getAppointments.
    rewrite !run_try_catch. unfold Appointments.getAppointments_try.
    rewrite !run_bind, !run_await. unfold Prisma.exec.
    cbn [call_of Prisma.perform].
    change (next_fault (set_session s c w)) with (next_fault w).
    destruct (next_fault w); [reflexivity |].
    unfold Prisma.select_rows.
    cbn [db after_call set_faults log_call set_session].
    destruct (Prisma.where_is_valid _); [| reflexivity].
    destruct (Prisma.include_all _ _); reflexivity.
  - intros views w'. unfold Appointments.getAppointments.
    rewrite run_try_catch.
    destruct (run Appointments.getAppointments_try w) as [[vs | e] w0]
      eqn:Htry; [| discriminate].
    intro H; injection H as -> ->.
    unfold Appointments.getAppointments_try in Htry.
    rewrite run_bind, run_await in Htry.
    destruct (Prisma.exec _ w) as [[rows | e] w2] eqn:Hexec; [| discriminate].
    cbn in Htry. injection Htry as <- <-.
    assert (Hdb : db w2 = db w).
    { revert Hexec. unfold Prisma.exec. cbn [call_of Prisma.perform].
      destruct (next_fault w); [discriminate |].
      destruct (Prisma.select_rows _ _); [| discriminate].
      destruct (Prisma.include_all _ _); [| discriminate].
      intro H; injection H as _ <-. reflexivity. }
    apply findMany_include_ok in Hexec.
    rewrite (filter_all _ _ matches_all) in Hexec.
    split; [| exact Hdb].
    rewrite view_ids, Hexec. apply Permutation_map, order_rows_permutation.
Qed.

(** ** Status update: what a failure leaves behind *)

(** X9: a status update that fails changes nothing in the database
    and reaches the caller as the generic update failure; an update of
    an id that no appointment carries is such a failure (cause P2025,
    written to the console). *)
Theorem updateAppointmentStatus_fails_clean
  (input : Appointments.UpdateStatusInput) (w : World) :
  (forall e w',
      run (Appointments.updateAppointmentStatus input) w = (Err e, w') ->
      e = UpdateFailed /\ db w' = db w)
  /\ (Prisma.find_appointment (Appointments.id input) (appointments (db w))
      = None ->
      fst (run (Appointments.updateAppointmentStatus input) w)
      = Err UpdateFailed
      /\ (next_fault w = None ->
          console (snd (run (Appointments.updateAppointmentStatus input) w))
          = (console w
             ++ [reported "Error updating appointment:"
                   (PrismaClientKnownRequestError "P2025")])%list)).
Proof.
  unfold Appointments.updateAppointmentStatus,
    Appointments.updateAppointmentStatus_try.
  rewrite run_try_catch, run_bind, run_await.
  unfold Prisma.exec. cbn [call_of Prisma.perform].
  unfold Prisma.update_appointment. cbn [db after_call set_faults log_call].
  split.
  - intros e w'. destruct (next_fault w) as [e0 |].
    + cbn. intro H; injection H as <- <-. split; reflexivity.
    + destruct (Prisma.find_appointment _ _); [discriminate |].
      cbn. intro H; injection H as <- <-. split; reflexivity.
  - intro Hfind. rewrite Hfind.
    destruct (next_fault w) as [e0 |]; cbn; split; try reflexivity.
    discriminate.
Qed.

(** ** Booking: failures, reasons, slots *)

Lemma insert_appointment_world (data : AppointmentCreateInput.t)
  (w w' : World) (i : Included.t) :
  Prisma.insert_appointment data w = (Ok i, w') ->
  session w' = session w /\ clerk w' = clerk w /\ faults w' = faults w.
Proof.
  unfold Prisma.insert_appointment.
  destruct (AppointmentCreateInput.date data); [| discriminate].
  destruct (Prisma.find_user_by_id _ _); [| discriminate].
  destruct (Prisma.find_doctor _ _); [| discriminate].
  cbn. intro H; injection H as _ <-. cbn. auto.
Qed.

Lemma insert_appointment_err (data : AppointmentCreateInput.t)
  (w w' : World) (e : JsError) :
  Prisma.insert_appointment data w = (Err e, w') -> w' = w.
Proof.
  unfold Prisma.insert_appointment.
  destruct (AppointmentCreateInput.date data);
    [| intro H; injection H as _ <-; reflexivity].
  destruct (Prisma.find_user_by_id _ _);
    [| intro H; injection H as _ <-; reflexivity].
  destruct (Prisma.find_doctor _ _);
    [discriminate | intro H; injection H as _ <-; reflexivity].
Qed.

Lemma in_replace_first_by_id (i : string) (f : Appointment.t -> Appointment.t)
  (l : list Appointment.t) (a x : Appointment.t) :
  NoDup (List.map Appointment.id l) ->
  Prisma.find_appointment i l = Some a ->
  In x (Prisma.replace_first (fun b => (Appointment.id b =? i)%string) f l) ->
  x = f a \/ (In x l /\ Appointment.id x <> i).
Proof.
  unfold Prisma.find_appointment.
  induction l as [| b l IH]; simpl; [discriminate |].
  intros Hnodup Hfind Hin. inversion Hnodup as [| ? ? Hfresh Hrest]; subst.
  destruct (Appointment.id b =? i)%string eqn:Hb.
  - injection Hfind as ->. destruct Hin as [<- | Hin]; [left; reflexivity |].
    right. split; [right; exact Hin |].
    apply String.eqb_eq in Hb. intro Hx. apply Hfresh.
    rewrite Hb, <- Hx. apply in_map. exact Hin.
  - destruct Hin as [<- | Hin].
    + right. split; [left; reflexivity |]. apply String.eqb_neq. exact Hb.
    + destruct (IH Hrest Hfind Hin) as [-> | [Hx Hneq]]; auto.
Qed.

Section BookingProperties.

Variable Date_parse : string -> option Z.

Lemma bookAppointment_err (input : Appointments.BookAppointmentInput)
  (w w' : World) (e : JsError) :
  run (Appointments.bookAppointment Date_parse input) w = (Err e, w') ->
  e = BookingFailed
  /\ exists cause w0,
       run (Appointments.bookAppointment_try Date_parse input) w
       = (Err cause, w0)
       /\ w' = write_console (reported "Error booking appointment:" cause) w0.
Proof.
  unfold Appointments.bookAppointment. rewrite run_try_catch.
  destruct (run (Appointments.bookAppointment_try Date_parse input) w)
    as [[v | cause] w0]; [discriminate |].
  cbn. intro H; injection H as <- <-. split; [reflexivity |]. eauto.
Qed.

(** X10: a booking that fails never leaves an appointment behind: the
    appointment and doctor tables are as they were, and the user table
    is as it was or has the one row that the sync appended before the
    failure.  The caller receives the generic booking failure. *)
Theorem bookAppointment_fails_clean
  (input : Appointments.BookAppointmentInput) (w w' : World) (e : JsError) :
  run (Appointments.bookAppointment Date_parse input) w = (Err e, w') ->
  e = BookingFailed
  /\ appointments (db w') = appointments (db w)
  /\ doctors (db w') = doctors (db w)
  /\ (users (db w') = users (db w)
      \/ exists u, users (db w') = (users (db w) ++ [u])%list).
Proof.
  intro Hrun. apply bookAppointment_err in Hrun
    as (-> & cause & w0 & Htry & ->).
  split; [reflexivity |]. cbn [db write_console].
  revert Htry. unfold Appointments.bookAppointment_try.
  rewrite run_bind, run_await. unfold Prisma.exec at 1.
  cbn [call_of Prisma.perform].
  destruct (session w) as [uid |];
    [| intro H; injection H as _ <-; auto].
  destruct (uid =? "")%string; [intro H; injection H as _ <-; auto |].
  destruct (_ || _)%bool; [intro H; injection H as _ <-; auto |].
  rewrite run_bind.
  destruct (appointments_ensureUserExists_tables uid w) as [Happ Hdoc].
  pose proof (appointments_ensureUserExists_users uid w) as Husers.
  destruct (run (Appointments.ensureUserExists uid) w) as [[u | e1] w1];
    cbn [snd] in *; [| intro H; injection H as _ <-; auto].
  rewrite run_bind, run_await. unfold Prisma.exec.
  cbn [call_of Prisma.perform].
  destruct (next_fault w1); [intro H; injection H as _ <-; auto |].
  destruct (Prisma.insert_appointment _ _) as [[i | e2] w2] eqn:Hins;
    [discriminate |].
  apply insert_appointment_err in Hins. subst w2.
  intro H; injection H as _ <-. auto.
Qed.

Lemma bookAppointment_ok_guards (input : Appointments.BookAppointmentInput)
  (w w' : World) (v : View.t) :
  run (Appointments.bookAppointment Date_parse input) w = (Ok v, w') ->
  JsString.falsy (session w) = false
  /\ Appointments.doctorId input <> ""
  /\ Appointments.date input <> ""
  /\ Appointments.time input <> "".
Proof.
  unfold Appointments.bookAppointment. rewrite run_try_catch.
  destruct (run _ w) as [[v0 | e] w0] eqn:Hbody; cbn; [| discriminate].
  intros _. revert Hbody. unfold Appointments.bookAppointment_try.
  rewrite run_bind, run_await. unfold Prisma.exec at 1.
  cbn [call_of Prisma.perform]. unfold JsString.falsy.
  destruct (session w) as [uid |]; [| discriminate].
  destruct (uid =? "")%string; [discriminate |].
  destruct (Appointments.doctorId input =? "")%string eqn:Hd; [discriminate |].
  destruct (Appointments.date input =? "")%string eqn:Hdate; [discriminate |].
  destruct (Appointments.time input =? "")%string eqn:Htime; [discriminate |].
  intros _. apply String.eqb_neq in Hd, Hdate, Htime. auto.
Qed.

(** X11: a booking that returns a record was made by an authenticated
    caller with a non-empty doctorId, date and time, for a doctor of the
    doctor table and a date that parses.  The row it appends carries
    the reason given, unless none or the empty string was given: then it
    carries "General consultation". *)
Theorem bookAppointment_stores (input : Appointments.BookAppointmentInput)
  (w w' : World) (v : View.t) :
  run (Appointments.bookAppointment Date_parse input) w = (Ok v, w') ->
  JsString.falsy (session w) = false
  /\ Appointments.doctorId input <> ""
  /\ Appointments.date input <> ""
  /\ Appointments.time input <> ""
  /\ exists (a : Appointment.t) (d : Doctor.t),
       appointments (db w') = (appointments (db w) ++ [a])%list
       /\ Prisma.find_doctor (Appointments.doctorId input) (doctors (db w))
          = Some d
       /\ Date_parse (Appointments.date input) = Some (Appointment.date a)
       /\ Appointment.status a = CONFIRMED
       /\ View.reason v = Appointment.reason a
       /\ match Appointments.reason input with
          | Some r => if (r =? "")%string
                      then Appointment.reason a = "General consultation"
                      else Appointment.reason a = r
          | None => Appointment.reason a = "General consultation"
          end.
Proof.
  intro Hrun.
  destruct (bookAppointment_ok_guards input w w' v Hrun)
    as (Hauth & Hdoctor & Hdate & Htime).
  repeat (split; [assumption |]).
  apply bookAppointment_ok in Hrun as (uid & user & w1 & i & _ & Hsync & Hins & ->).
  destruct (appointments_ensureUserExists_tables uid w) as [Happ Hdoc].
  rewrite Hsync in Happ, Hdoc. cbn [snd] in Happ, Hdoc.
  apply insert_appointment_ok in Hins as (t & u & d & Ht & Hu & Hd & -> & Hdb).
  cbn in Ht, Hu, Hd, Hdb.
  eexists _, d. rewrite Hdb. cbn [appointments]. rewrite <- Happ.
  split; [reflexivity |]. split; [rewrite <- Hdoc; exact Hd |].
  split; [exact Ht |]. split; [reflexivity |]. split; [reflexivity |].
  cbn. destruct (Appointments.reason input) as [r |]; [| reflexivity].
  cbn. destruct (r =? "")%string; reflexivity.
Qed.

(** X12: once a booking has returned, its time label is among the
    booked slots of its doctor and date, whenever the slot query goes
    through. *)
Theorem booked_slot_is_taken (input : Appointments.BookAppointmentInput)
  (w w' : World) (v : View.t) :
  run (Appointments.bookAppointment Date_parse input) w = (Ok v, w') ->
  next_fault w' = None ->
  exists slots w'',
    run (Appointments.getBookedTimeSlots Date_parse
           (Appointments.doctorId input) (Appointments.date input)) w'
    = (Ok slots, w'')
    /\ In (Appointments.time input) slots.
Proof.
  intros Hrun Hfault.
  apply bookAppointment_ok in Hrun as (uid & user & w1 & i & _ & _ & Hins & _).
  apply insert_appointment_ok in Hins as (t & u & d & Ht & _ & _ & _ & Hdb).
  cbn in Ht. rewrite run_getBookedTimeSlots, Hfault, Ht.
  eexists _, _. split; [reflexivity |].
  rewrite Hdb. cbn [appointments]. rewrite filter_app, map_app.
  apply in_or_app. right.
  match goal with
  | |- In _ (List.map _ (List.filter ?f [?a])) =>
      assert (Hm : f a = true)
  end.
  { apply (matches_booked Date_parse). unfold holds_slot, new_appointment. cbn.
    split; [reflexivity |]. split; [reflexivity |]. left. reflexivity. }
  cbn [List.filter]. rewrite Hm. left. reflexivity.
Qed.

(** A booking that meets no failure. *)
Lemma bookAppointment_runs (input : Appointments.BookAppointmentInput)
  (w : World) (uid email : string) (c : Clerk.User) (d : Doctor.t) (t : Z) :
  session w = Some uid -> uid <> "" ->
  Appointments.doctorId input <> "" ->
  Appointments.date input <> "" ->
  Appointments.time input <> "" ->
  clerk w = Some c -> Users.first_email c = Ok email -> faults w = [] ->
  Prisma.find_doctor (Appointments.doctorId input) (doctors (db w)) = Some d ->
  Date_parse (Appointments.date input) = Some t ->
  exists v w' a u,
    run (Appointments.bookAppointment Date_parse input) w = (Ok v, w')
    /\ session w' = Some uid /\ clerk w' = Some c /\ faults w' = []
    /\ doctors (db w') = doctors (db w)
    /\ appointments (db w') = (appointments (db w) ++ [a])%list
    /\ Prisma.find_user_by_clerkId uid (users (db w')) = Some u
    /\ Appointment.userId a = User.id u
    /\ Appointment.doctorId a = Appointments.doctorId input
    /\ Appointment.date a = t
    /\ Appointment.time a = Appointments.time input
    /\ Appointment.status a = CONFIRMED.
Proof.
  intros Hsession Huid Hdoctor Hdate Htime Hclerk Hemail Hfaults Hfind Hparse.
  destruct (bookAppointment_succeeds Date_parse input w uid email c d t)
    as (v & w' & Hrun); try assumption.
  exists v, w'.
  pose proof Hrun as Hok.
  apply bookAppointment_ok in Hok as (uid' & user & w1 & i & Hs & Hsync & Hins & ->).
  rewrite Hsession in Hs. injection Hs as <-.
  destruct (appointments_ensureUserExists_runs uid w c email Hclerk Hemail
              Hfaults)
    as (u & w1' & Hsync' & Hclerk1 & Hsession1 & Hfaults1 & Hdoc & Happ & _
        & Hfind1 & _).
  rewrite Hsync in Hsync'. injection Hsync' as <- <-.
  destruct (insert_appointment_world _ _ _ _ Hins) as (Hs2 & Hc2 & Hf2).
  apply insert_appointment_ok in Hins as (t' & u' & d' & Ht & _ & _ & _ & Hdb).
  cbn in Ht, Hdb, Hs2, Hc2, Hf2. rewrite Hparse in Ht. injection Ht as <-.
  eexists _, user. split; [exact Hrun |].
  rewrite Hs2, Hc2, Hf2, Hdb, Hsession1, Hclerk1, Hfaults1.
  cbn [doctors appointments users List.tl]. rewrite Hdoc, Happ, Hsession.
  repeat split; try reflexivity. exact Hfind1.
Qed.

(** X13: availability is not checked at booking: when no persistence
    call fails, the same booking made twice in succession succeeds
    twice and appends two CONFIRMED rows of the same user for the same
    doctor, date and time label. *)
Theorem double_booking (input : Appointments.BookAppointmentInput)
  (w : World) (uid email : string) (c : Clerk.User) (d : Doctor.t) (t : Z) :
  session w = Some uid -> uid <> "" ->
  Appointments.doctorId input <> "" ->
  Appointments.date input <> "" ->
  Appointments.time input <> "" ->
  clerk w = Some c -> Users.first_email c = Ok email -> faults w = [] ->
  Prisma.find_doctor (Appointments.doctorId input) (doctors (db w)) = Some d ->
  Date_parse (Appointments.date input) = Some t ->
  exists v1 w1 v2 w2 a1 a2,
    run (Appointments.bookAppointment Date_parse input) w = (Ok v1, w1)
    /\ run (Appointments.bookAppointment Date_parse input) w1 = (Ok v2, w2)
    /\ appointments (db w2) = (appointments (db w) ++ [a1; a2])%list
    /\ same_slot a1 a2
    /\ Appointment.userId a1 = Appointment.userId a2
    /\ Appointment.status a1 = CONFIRMED
    /\ Appointment.status a2 = CONFIRMED.
Proof.
  intros Hsession Huid Hdoctor Hdate Htime Hclerk Hemail Hfaults Hfind Hparse.
  destruct (bookAppointment_runs input w uid email c d t)
    as (v1 & w1 & a1 & u1 & Hrun1 & Hs1 & Hc1 & Hf1 & Hdoc1 & Happ1 & Hu1
        & Hid1 & Hd1 & Ht1 & Htime1 & Hst1); try assumption.
  rewrite <- Hdoc1 in Hfind.
  destruct (bookAppointment_runs input w1 uid email c d t)
    as (v2 & w2 & a2 & u2 & Hrun2 & _ & _ & _ & _ & Happ2 & Hu2
        & Hid2 & Hd2 & Ht2 & Htime2 & Hst2); try assumption.
  exists v1, w1, v2, w2, a1, a2.
  split; [exact Hrun1 |]. split; [exact Hrun2 |].
  split; [rewrite Happ2, Happ1, <- app_assoc; reflexivity |].
  split; [unfold same_slot; repeat split; congruence |].
  split; [| auto].
  rewrite Hid1, Hid2. f_equal.
  pose proof Hrun2 as Hok.
  apply bookAppointment_ok in Hok as (uid' & user & w1' & i & Hs & Hsync & Hins & _).
  rewrite Hs1 in Hs. injection Hs as <-.
  destruct (appointments_ensureUserExists_runs uid w1 c email Hc1 Hemail Hf1)
    as (u & w1'' & Hsync' & _ & _ & _ & _ & _ & _ & Hfind2 & Hcase).
  rewrite Hsync in Hsync'. injection Hsync' as <- <-.
  rewrite Hu1 in Hcase. destruct Hcase as [-> Husers].
  assert (Husers2 : users (db w2) = users (db w1')).
  { apply insert_appointment_ok in Hins as (t2 & ux & dx & _ & _ & _ & _ & Hdb).
    rewrite Hdb. reflexivity. }
  rewrite Husers2, Husers, Hu1 in Hu2. injection Hu2 as <-. reflexivity.
Qed.

(** X14: the booking is not atomic: for a caller not yet known to the
    clinic who books with a doctor the clinic does not have, the booking
    fails with the generic error, no appointment is added, and the user
    row that the sync created stays. *)
Theorem failed_booking_keeps_user (input : Appointments.BookAppointmentInput)
  (w : World) (uid email : string) (c : Clerk.User) :
  session w = Some uid -> uid <> "" ->
  Appointments.doctorId input <> "" ->
  Appointments.date input <> "" ->
  Appointments.time input <> "" ->
  clerk w = Some c -> Users.first_email c = Ok email -> faults w = [] ->
  Prisma.find_user_by_clerkId uid (users (db w)) = None ->
  Prisma.find_doctor (Appointments.doctorId input) (doctors (db w)) = None ->
  exists u w',
    run (Appointments.bookAppointment Date_parse input) w
    = (Err BookingFailed, w')
    /\ users (db w') = (users (db w) ++ [u])%list
    /\ User.clerkId u = uid
    /\ appointments (db w') = appointments (db w).
Proof.
  intros Hsession Huid Hdoctor Hdate Htime Hclerk Hemail Hfaults Hnew Hnone.
  unfold Appointments.bookAppointment. rewrite run_try_catch.
  unfold Appointments.bookAppointment_try.
  rewrite run_bind, run_await. unfold Prisma.exec at 1.
  cbn [call_of Prisma.perform]. rewrite Hsession.
  apply String.eqb_neq in Huid, Hdoctor, Hdate, Htime.
  rewrite Huid, Hdoctor, Hdate, Htime. cbn [orb].
  destruct (appointments_ensureUserExists_runs uid w c email Hclerk Hemail
              Hfaults)
    as (u & w1 & Hrun & _ & _ & Hfaults1 & Hdoctors & Happ & _ & _ & Hcase).
  rewrite Hnew in Hcase. destruct Hcase as [Husers Hkey].
  rewrite run_bind, Hrun, run_bind, run_await.
  rewrite (exec_passes _ call_appointment_create)
    by (reflexivity || (unfold next_fault; rewrite Hfaults1; reflexivity)).
  cbn [Prisma.perform]. unfold Prisma.insert_appointment.
  cbn [AppointmentCreateInput.date AppointmentCreateInput.userId
         AppointmentCreateInput.doctorId db after_call set_faults log_call].
  rewrite Hdoctors, Hnone.
  destruct (Date_parse (Appointments.date input));
    [destruct (Prisma.find_user_by_id _ _) |];
    exists u; eexists; (split; [reflexivity | cbn; auto]).
Qed.

End BookingProperties.

(** X15: cancelling frees the slot.  In a table whose appointment ids
    are distinct, once the status of an appointment has been set to
    CANCELLED, every label among the booked slots of its doctor and date
    comes from another appointment; if no other confirmed or completed
    appointment shares its slot, its time label is not among them. *)
Theorem cancelled_slot_is_free (Date_parse : string -> option Z)
  (i date : string) (w : World) (a : Appointment.t) :
  NoDup (List.map Appointment.id (appointments (db w))) ->
  Prisma.find_appointment i (appointments (db w)) = Some a ->
  next_fault w = None ->
  Date_parse date = Some (Appointment.date a) ->
  exists a' w1 slots w2,
    run (Appointments.updateAppointmentStatus
           (Appointments.mkUpdate i CANCELLED)) w = (Ok a', w1)
    /\ run (Appointments.getBookedTimeSlots Date_parse
              (Appointment.doctorId a) date) w1 = (Ok slots, w2)
    /\ (forall label,
          In label slots ->
          exists b, In b (appointments (db w))
                    /\ Appointment.id b <> i
                    /\ Appointment.doctorId b = Appointment.doctorId a
                    /\ Appointment.date b = Appointment.date a
                    /\ holds_slot b
                    /\ Appointment.time b = label)
    /\ ((forall b, In b (appointments (db w)) ->
                   same_slot b a -> holds_slot b -> Appointment.id b = i) ->
        ~ In (Appointment.time a) slots).
Proof.
  intros Hnodup Hfind Hfault Hparse.
  rewrite (run_updateAppointmentStatus (Appointments.mkUpdate i CANCELLED) w a
             Hfault Hfind).
  unfold Prisma.update_appointment.
  cbn [db after_call set_faults log_call Appointments.id Appointments.status].
  rewrite Hfind.
  match goal with
  | |- exists a' w1 slots w2, (Ok ?x, ?W) = _ /\ _ =>
      exists x, W; set (w1 := W)
  end.
  rewrite (run_getBookedTimeSlots Date_parse), Hparse.
  destruct (next_fault w1).
  - eexists _, _. split; [reflexivity |]. split; [reflexivity |].
    split; [intros label [] | intros _ []].
  - eexists _, _. split; [reflexivity |]. split; [reflexivity |].
    unfold w1. cbn [db set_db appointments].
    assert (Hsound : forall label,
               In label
                 (List.map Appointment.time
                    (List.filter
                       (Prisma.matches
                          (booked_where (Appointment.doctorId a)
                             (Some (Appointment.date a))))
                       (Prisma.replace_first
                          (fun x => (Appointment.id x =? i)%string)
                          (Appointment.with_status CANCELLED)
                          (appointments (db w))))) ->
               exists b, In b (appointments (db w))
                         /\ Appointment.id b <> i
                         /\ Appointment.doctorId b = Appointment.doctorId a
                         /\ Appointment.date b = Appointment.date a
                         /\ holds_slot b
                         /\ Appointment.time b = label).
    { intros label Hlabel. apply in_map_iff in Hlabel as (x & Htime & Hx).
      apply filter_In in Hx as [Hx Hm].
      apply (matches_booked Date_parse) in Hm as (Hd & Hdate & Hs).
      destruct (in_replace_first_by_id i _ _ a x Hnodup Hfind Hx)
        as [-> | [Hin Hneq]].
      - unfold holds_slot in Hs. cbn in Hs. destruct Hs; discriminate.
      - exists x. auto 7. }
    split; [exact Hsound |].
    intros Honly Hin. apply Hsound in Hin as (b & Hb & Hneq & Hd & Hdate & Hs & Ht).
    apply Hneq, Honly; [exact Hb | unfold same_slot; auto | exact Hs].
Qed.

(** X15, witness: the 09:00 of June 1 is free again once its only
    appointment is cancelled. *)
Lemma cancelled_slot_is_free_apt_1 :
  exists a' w1 slots w2,
    run (Appointments.updateAppointmentStatus Scenes.cancel_apt_1) Demo.busy
    = (Ok a', w1)
    /\ run (Appointments.getBookedTimeSlots JsDate.parse_date_only
              "d1" "2024-06-01") w1 = (Ok slots, w2)
    /\ ~ In "09:00" slots.
Proof.
  destruct (cancelled_slot_is_free JsDate.parse_date_only "apt_1" "2024-06-01"
              Demo.busy Demo.apt_1)
    as (a' & w1 & slots & w2 & Hrun & Hslots & _ & Hfree).
  - repeat constructor; cbn; intuition discriminate.
  - reflexivity.
  - reflexivity.
  - vm_compute. reflexivity.
  - exists a', w1, slots, w2. split; [exact Hrun |]. split; [exact Hslots |].
    apply Hfree.
    intros b [<- | [<- | [<- | []]]] (_ & Hdate & Htime) Hs;
      try reflexivity; try discriminate Hdate.
    destruct Hs; discriminate.
Defined.

(** X10, witness: a booking with an unknown doctor on Ada's first
    visit fails and adds no appointment. *)
Lemma bookAppointment_fails_clean_unknown_doctor :
  exists w',
    run (Appointments.bookAppointment JsDate.parse_date_only
           Scenes.unknown_doctor) Scenes.first_visit = (Err BookingFailed, w')
    /\ appointments (db w') = appointments (db Scenes.first_visit).
Proof.
  assert (Hrun : run (Appointments.bookAppointment JsDate.parse_date_only
                        Scenes.unknown_doctor) Scenes.first_visit
                 = (Err BookingFailed,
                    snd (run (Appointments.bookAppointment
                                JsDate.parse_date_only Scenes.unknown_doctor)
                           Scenes.first_visit)))
    by (vm_compute; reflexivity).
  eexists. split; [exact Hrun |].
  apply (bookAppointment_fails_clean JsDate.parse_date_only _ _ _ _ Hrun).
Defined.

(** X11, witness: a toothache is stored as given, a blank reason is
    not. *)
Lemma bookAppointment_stores_reasons :
  (exists a,
      appointments
        (db (snd (run (Appointments.bookAppointment JsDate.parse_date_only
                         Scenes.toothache) Scenes.first_visit))) = [a]
      /\ Appointment.reason a = "Toothache")
  /\ (exists a,
         appointments
           (db (snd (run (Appointments.bookAppointment JsDate.parse_date_only
                            Scenes.blank_reason) Scenes.first_visit))) = [a]
         /\ Appointment.reason a = "General consultation").
Proof.
  split.
  - assert (Hrun : run (Appointments.bookAppointment JsDate.parse_date_only
                          Scenes.toothache) Scenes.first_visit
                   = (Ok (Demo.value Demo.booked_view
                            (fst (run (Appointments.bookAppointment
                                         JsDate.parse_date_only
                                         Scenes.toothache)
                                    Scenes.first_visit))),
                      snd (run (Appointments.bookAppointment
                                  JsDate.parse_date_only Scenes.toothache)
                             Scenes.first_visit)))
      by (vm_compute; reflexivity).
    destruct (bookAppointment_stores JsDate.parse_date_only _ _ _ _ Hrun)
      as (_ & _ & _ & _ & a & d & Happ & _ & _ & _ & _ & Hreason).
    exists a. split; [exact Happ | exact Hreason].
  - assert (Hrun : run (Appointments.bookAppointment JsDate.parse_date_only
                          Scenes.blank_reason) Scenes.first_visit
                   = (Ok (Demo.value Demo.booked_view
                            (fst (run (Appointments.bookAppointment
                                         JsDate.parse_date_only
                                         Scenes.blank_reason)
                                    Scenes.first_visit))),
                      snd (run (Appointments.bookAppointment
                                  JsDate.parse_date_only Scenes.blank_reason)
                             Scenes.first_visit)))
      by (vm_compute; reflexivity).
    destruct (bookAppointment_stores JsDate.parse_date_only _ _ _ _ Hrun)
      as (_ & _ & _ & _ & a & d & Happ & _ & _ & _ & _ & Hreason).
    exists a. split; [exact Happ | exact Hreason].
Defined.

(** X12, witness: after Ada's booking the 09:00 of June 1 is taken. *)
Lemma booked_slot_is_taken_ada :
  exists slots w'',
    run (Appointments.getBookedTimeSlots JsDate.parse_date_only
           "d1" "2024-06-01") Scenes.after_booking = (Ok slots, w'')
    /\ In "09:00" slots.
Proof.
  assert (Hrun : run (Appointments.bookAppointment JsDate.parse_date_only
                        Demo.booking) Scenes.first_visit
                 = (Ok Demo.booked_view, Scenes.after_booking))
    by (vm_compute; reflexivity).
  apply (booked_slot_is_taken JsDate.parse_date_only Demo.booking
           Scenes.first_visit Scenes.after_booking Demo.booked_view Hrun).
  vm_compute. reflexivity.
Defined.

(** X13, witness: Ada books the same slot twice. *)
Lemma double_booking_ada :
  exists v1 w1 v2 w2 a1 a2,
    run (Appointments.bookAppointment JsDate.parse_date_only Demo.booking)
      Scenes.first_visit = (Ok v1, w1)
    /\ run (Appointments.bookAppointment JsDate.parse_date_only Demo.booking)
         w1 = (Ok v2, w2)
    /\ appointments (db w2) = [a1; a2]
    /\ same_slot a1 a2.
Proof.
  destruct (double_booking JsDate.parse_date_only Demo.booking
              Scenes.first_visit "user_ada" "ada@example.org" Demo.ada Demo.d1
              Demo.june_1)
    as (v1 & w1 & v2 & w2 & a1 & a2 & Hrun1 & Hrun2 & Happ & Hslot & _);
    try reflexivity; try discriminate.
  exists v1, w1, v2, w2, a1, a2. auto.
Defined.

(** X14, witness: Ada's row stays after her failed booking. *)
Lemma failed_booking_keeps_user_ada :
  exists u w',
    run (Appointments.bookAppointment JsDate.parse_date_only
           Scenes.unknown_doctor) Scenes.first_visit = (Err BookingFailed, w')
    /\ users (db w') = [u]
    /\ User.clerkId u = "user_ada".
Proof.
  destruct (failed_booking_keeps_user JsDate.parse_date_only
              Scenes.unknown_doctor Scenes.first_visit "user_ada"
              "ada@example.org" Demo.ada)
    as (u & w' & Hrun & Husers & Hkey & _);
    try reflexivity; try discriminate.
  exists u, w'. auto.
Defined.

(** * The voice widget *)

Lemma widget_step_one_phase (assistantId : option string)
  (s : VapiWidget.State) (a : VapiWidget.Action) :
  VapiWidget.one_phase s ->
  VapiWidget.one_phase (fst (VapiWidget.step assistantId s a)).
Proof.
  unfold VapiWidget.one_phase.
  destruct s as [active conn speaking msgs ended].
  destruct a as [| | [| | | | m | e]]; cbn;
    unfold VapiWidget.toggleCall, VapiWidget.handleMessage; cbn.
  - destruct conn, active, ended; cbn; try tauto;
      destruct assistantId as [i |]; cbn; try tauto;
      destruct (i =? "")%string; cbn; tauto.
  - destruct active, ended; cbn; tauto.
  - tauto.
  - tauto.
  - tauto.
  - tauto.
  - destruct (VapiWidget.is_final_transcript m); cbn; tauto.
  - destruct ended; cbn; tauto.
Qed.

Lemma widget_play_step (assistantId : option string) (s : VapiWidget.State)
  (a : VapiWidget.Action) (l : list VapiWidget.Action) :
  VapiWidget.play assistantId s (a :: l)
  = (fst (VapiWidget.play assistantId
            (fst (VapiWidget.step assistantId s a)) l),
     (snd (VapiWidget.step assistantId s a)
      ++ snd (VapiWidget.play assistantId
                (fst (VapiWidget.step assistantId s a)) l))%list).
Proof.
  cbn [VapiWidget.play].
  destruct (VapiWidget.step assistantId s a) as [s1 e1]. cbn [fst snd].
  destruct (VapiWidget.play assistantId s1 l) as [s2 e2]. reflexivity.
Qed.

(** X16: whatever is clicked and whatever the voice session sends, in
    whatever order, the widget is never in two phases at once: of
    connecting, call active and call ended at most one holds. *)
Theorem widget_one_phase (assistantId : option string)
  (l : list VapiWidget.Action) :
  VapiWidget.one_phase
    (fst (VapiWidget.play assistantId VapiWidget.initial l)).
Proof.
  assert (H : forall s, VapiWidget.one_phase s ->
                        VapiWidget.one_phase
                          (fst (VapiWidget.play assistantId s l))).
  { induction l as [| a l IH]; intros s Hs; [exact Hs |].
    rewrite widget_play_step. cbn [fst].
    apply IH, widget_step_one_phase, Hs. }
  apply H. repeat split.
Qed.

(** X17: between two clicks the transcript only grows, by the final
    transcripts received, in the order received: partial transcripts,
    messages of another type and the other events add nothing and
    remove nothing. *)
Theorem widget_transcript (assistantId : option string)
  (s : VapiWidget.State) (l : list VapiWidget.Action) :
  List.existsb VapiWidget.is_click l = false ->
  VapiWidget.messages (fst (VapiWidget.play assistantId s l))
  = (VapiWidget.messages s ++ List.flat_map VapiWidget.final_of l)%list.
Proof.
  revert s. induction l as [| a l IH]; intros s Hclicks.
  - cbn. rewrite app_nil_r. reflexivity.
  - cbn [List.existsb] in Hclicks. apply orb_false_iff in Hclicks as [Ha Hl].
    rewrite widget_play_step. cbn [fst List.flat_map].
    rewrite (IH _ Hl), app_assoc. f_equal.
    destruct a as [| | [| | | | m | e]]; cbn; try discriminate;
      rewrite ?app_nil_r; try reflexivity.
    unfold VapiWidget.handleMessage.
    destruct (VapiWidget.is_final_transcript m); cbn;
      rewrite ?app_nil_r; reflexivity.
Qed.

(** X17, witness: of a short call only the final "Hello" is kept. *)
Lemma widget_transcript_short_call :
  VapiWidget.messages
    (fst (VapiWidget.play (Some "asst_1") VapiWidget.initial
            VapiWidget.short_call))
  = [VapiWidget.mkMessage "Hello" VapiWidget.assistant].
Proof.
  rewrite (widget_transcript (Some "asst_1") VapiWidget.initial
             VapiWidget.short_call eq_refl).
  reflexivity.
Defined.

(** X18: without an assistant id (unset or empty) no call is ever
    started: whatever is clicked and whatever the voice session sends,
    the widget that is not connecting never shows connecting and never
    asks the voice session to start. *)
Theorem widget_without_assistant (assistantId : option string)
  (s : VapiWidget.State) (l : list VapiWidget.Action) :
  JsString.falsy assistantId = true ->
  VapiWidget.connecting s = false ->
  VapiWidget.connecting (fst (VapiWidget.play assistantId s l)) = false
  /\ List.existsb VapiWidget.is_start
       (snd (VapiWidget.play assistantId s l)) = false.
Proof.
  intro Hid. revert s. induction l as [| a l IH]; intros s Hs.
  - split; [exact Hs | reflexivity].
  - rewrite widget_play_step. cbn [fst snd]. rewrite existsb_app.
    assert (Hstep : VapiWidget.connecting
                      (fst (VapiWidget.step assistantId s a)) = false
                    /\ List.existsb VapiWidget.is_start
                         (snd (VapiWidget.step assistantId s a)) = false).
    { destruct s as [active conn speaking msgs ended]. cbn in Hs. subst conn.
      destruct a as [| | [| | | | m | e]]; cbn;
        unfold VapiWidget.toggleCall, VapiWidget.handleMessage; cbn;
        try (split; reflexivity).
      - destruct active; cbn; [split; reflexivity |].
        destruct assistantId as [i |]; cbn in Hid; [| split; reflexivity].
        rewrite Hid. split; reflexivity.
      - destruct (VapiWidget.is_final_transcript m); split; reflexivity. }
    destruct Hstep as [Hconn Hstart]. rewrite Hstart.
    destruct (IH _ Hconn) as [Hc He]. rewrite He. split; [exact Hc | reflexivity].
Qed.

(** X18, witness: clicks with the assistant id unset. *)
Lemma widget_without_assistant_clicks :
  List.existsb VapiWidget.is_start
    (snd (VapiWidget.play None VapiWidget.initial
            [VapiWidget.click; VapiWidget.click])) = false.
Proof.
  apply (widget_without_assistant None VapiWidget.initial
           [VapiWidget.click; VapiWidget.click] eq_refl eq_refl).
Defined.

(** * Display names *)

(** X19: the patient name that [transformAppointment] puts on a record
    never starts or ends with white space, whatever the name parts of
    the user are (missing, empty, padded); with both parts missing it is
    the empty string, and with the last name missing and a first name
    that has no white space around it, it is that first name, without
    the separator. *)
Theorem patientName_trimmed (row : Included.t) :
  trimmed (View.patientName (Appointments.transformAppointment row))
  /\ (UserSelect.firstName (Included.user row) = None ->
      UserSelect.lastName (Included.user row) = None ->
      View.patientName (Appointments.transformAppointment row) = "")
  /\ (forall first,
         UserSelect.firstName (Included.user row) = Some first ->
         UserSelect.lastName (Included.user row) = None ->
         trimmed first ->
         View.patientName (Appointments.transformAppointment row) = first).
Proof.
  split; [apply trim_trimmed |]. split.
  - intros Hf Hl. cbn. rewrite Hf, Hl. reflexivity.
  - intros first Hf Hl [Hfirst Hlast]. cbn. rewrite Hf, Hl. cbn.
    destruct first as [| a t]; [reflexivity |].
    cbn [JsString.or_default String.eqb].
    assert (Ha : JsString.is_whitespace a = false) by (apply Hfirst; reflexivity).
    unfold JsString.trim. cbn [String.append JsString.trimStart]. rewrite Ha.
    unfold JsString.trimEnd, JsString.reverse.
    cbn [list_ascii_of_string List.rev String.append].
    assert (Hrev : list_ascii_of_string (t ++ " ")
                   = (list_ascii_of_string t ++ [" "%char])%list).
    { clear. induction t as [| b t IH]; cbn; [reflexivity |]. rewrite IH.
      reflexivity. }
    rewrite Hrev, rev_app_distr. cbn [List.rev List.app].
    cbn [string_of_list_ascii JsString.trimStart].
    change (JsString.is_whitespace " ") with true. cbn iota.
    assert (Hkeep : JsString.trimStart
                      (string_of_list_ascii
                         (List.rev (list_ascii_of_string t) ++ [a]))
                    = string_of_list_ascii
                        (List.rev (list_ascii_of_string t) ++ [a])).
    { unfold last_char, JsString.reverse in Hlast.
      cbn [list_ascii_of_string List.rev] in Hlast.
      destruct (string_of_list_ascii
                  (List.rev (list_ascii_of_string t) ++ [a])) as [| b u]
        eqn:Hs; [reflexivity |].
      cbn [JsString.trimStart]. rewrite (Hlast b eq_refl). reflexivity. }
    rewrite Hkeep, list_ascii_of_string_of_list_ascii, rev_app_distr,
      rev_involutive.
    cbn. rewrite string_of_list_ascii_of_string. reflexivity.
Qed.

(** * Two syncs of [users.ts] in flight *)

Lemma run_step {A} (p : Prog A) (w : World) :
  run p w = run (fst (step p w)) (snd (step p w)).
Proof.
  destruct p as [a | e | entry k | R op k]; cbn; try reflexivity.
  destruct (Prisma.exec op w) as [r w']. reflexivity.
Qed.

Lemma step_users_sync_start (w : World) (c : Clerk.User) (email : string) :
  clerk w = Some c -> Users.first_email c = Ok email ->
  step Users.ensureUserExists w = (users_sync_awaiting c email, w).
Proof.
  intros Hclerk Hemail. unfold Users.ensureUserExists, users_sync_awaiting.
  cbn [try_catch bind await step]. unfold Prisma.exec.
  cbn [call_of Prisma.perform]. rewrite Hclerk. cbn [try_catch bind].
  rewrite Hemail. reflexivity.
Qed.

Lemma step_users_sync_awaiting (w : World) (c : Clerk.User) (email : string) :
  sync_world c email w ->
  exists u w',
    step (users_sync_awaiting c email) w = (Ret (Some u), w')
    /\ Prisma.find_user_by_clerkId (Clerk.id c) (users (db w')) = Some u
    /\ sync_world c email w'
    /\ match Prisma.find_user_by_clerkId (Clerk.id c) (users (db w)) with
       | Some u0 => u = u0 /\ db w' = db w
       | None => True
       end.
Proof.
  intros (Hclerk & Hfaults & Hrow).
  unfold users_sync_awaiting. cbn [try_catch bind await step].
  rewrite (exec_passes _ (call_user_upsert (Clerk.id c)))
    by (reflexivity || (unfold next_fault; rewrite Hfaults; reflexivity)).
  unfold Users.upsert_of. cbn [Prisma.perform].
  destruct (upsert_user_runs c email
              (after_call (call_user_upsert (Clerk.id c)) w))
    as (u & w1 & Hup & Hkey & _ & _ & _ & Hfind & Hc & _ & Hf & _).
  rewrite Hup.
  pose proof (upsert_user_settled c email _ _ _ Hup) as Hsettled.
  exists u, w1. split; [reflexivity |]. split; [exact Hfind |].
  revert Hup. unfold Prisma.upsert_user.
  cbn [db after_call set_faults log_call].
  destruct (Prisma.find_user_by_clerkId (Clerk.id c) (users (db w)))
    as [u0 |] eqn:Hfind0.
  - destruct Hrow as [Hfixed Hrows]. unfold profile_update in Hfixed.
    rewrite Hfixed.
    unfold Prisma.find_user_by_clerkId in Hfind0.
    rewrite (replace_first_fixed _ _ _ u0 Hfind0 Hfixed).
    intro H; injection H as <- <-.
    assert (Hdb : db (set_db (mkDb (users (db w)) (doctors (db w))
                               (appointments (db w)))
                        (after_call (call_user_upsert (Clerk.id c)) w))
                  = db w)
      by (cbn; destruct (db w); reflexivity).
    split; [| split; [reflexivity | exact Hdb]].
    unfold sync_world. rewrite Hdb.
    fold (Prisma.find_user_by_clerkId (Clerk.id c) (users (db w))) in Hfind0.
    rewrite Hfind0. cbn. rewrite Hfaults. auto.
  - unfold Prisma.insert_user.
    cbn [UserCreateInput.clerkId db after_call set_faults log_call].
    rewrite Hfind0. cbn [draw_id]. intro H; injection H as Hu Hw.
    split; [| exact I].
    unfold sync_world. rewrite Hfind, Hc, Hf. cbn. rewrite Hfaults.
    split; [exact Hclerk |]. split; [reflexivity |].
    split; [exact Hsettled |].
    rewrite <- Hw. cbn [db set_db users after_call set_faults log_call].
    rewrite rows_of_app, (rows_of_absent _ _ Hfind0). unfold rows_of. cbn.
    rewrite String.eqb_refl. reflexivity.
Qed.

(** One step of a request keeps the world and the other request in
    order. *)
Lemma sync_step_keeps (c : Clerk.User) (email : string)
  (p q : Prog (option User.t)) (w : World) :
  Users.first_email c = Ok email ->
  sync_world c email w -> sync_thread c email p w -> sync_thread c email q w ->
  sync_world c email (snd (step p w))
  /\ sync_thread c email (fst (step p w)) (snd (step p w))
  /\ sync_thread c email q (snd (step p w))
  /\ (forall u0,
         Prisma.find_user_by_clerkId (Clerk.id c) (users (db w)) = Some u0 ->
         db (snd (step p w)) = db w).
Proof.
  intros Hemail Hw Hp Hq.
  destruct Hp as [-> | [-> | (u & -> & Hu)]].
  - destruct Hw as (Hclerk & Hrest).
    rewrite (step_users_sync_start w c email Hclerk Hemail). cbn [fst snd].
    split; [split; assumption |].
    split; [right; left; reflexivity |].
    split; [exact Hq | reflexivity].
  - destruct (step_users_sync_awaiting w c email Hw)
      as (u & w' & -> & Hfind & Hw' & Hcase).
    cbn [fst snd]. split; [exact Hw' |].
    split; [right; right; exists u; auto |]. split.
    + destruct Hq as [-> | [-> | (v & -> & Hv)]];
        [left; reflexivity | right; left; reflexivity |].
      rewrite Hv in Hcase. destruct Hcase as [-> Hdb].
      right. right. exists v. rewrite Hdb. auto.
    + intros u0 Hu0. rewrite Hu0 in Hcase. apply Hcase.
  - cbn [step fst snd]. split; [exact Hw |].
    split; [right; right; exists u; auto |].
    split; [exact Hq | reflexivity].
Qed.

(** A request in order runs to its end and returns the row of the
    table. *)
Lemma sync_thread_runs (c : Clerk.User) (email : string)
  (p q : Prog (option User.t)) (w : World) :
  Users.first_email c = Ok email ->
  sync_world c email w -> sync_thread c email p w -> sync_thread c email q w ->
  exists u w',
    run p w = (Ok (Some u), w')
    /\ Prisma.find_user_by_clerkId (Clerk.id c) (users (db w')) = Some u
    /\ sync_world c email w'
    /\ sync_thread c email q w'
    /\ (forall u0,
           Prisma.find_user_by_clerkId (Clerk.id c) (users (db w)) = Some u0 ->
           db w' = db w).
Proof.
  intros Hemail Hw Hp Hq.
  assert (Hdone : forall u w0,
             Prisma.find_user_by_clerkId (Clerk.id c) (users (db w0)) = Some u ->
             sync_world c email w0 -> sync_thread c email q w0 ->
             exists u' w',
               run (Ret (Some u)) w0 = (Ok (Some u'), w')
               /\ Prisma.find_user_by_clerkId (Clerk.id c) (users (db w'))
                  = Some u'
               /\ sync_world c email w'
               /\ sync_thread c email q w'
               /\ db w' = db w0).
  { intros u w0 Hu Hw0 Hq0. exists u, w0. cbn. auto. }
  assert (Hwaiting : forall w0,
             sync_world c email w0 -> sync_thread c email q w0 ->
             exists u' w',
               run (users_sync_awaiting c email) w0 = (Ok (Some u'), w')
               /\ Prisma.find_user_by_clerkId (Clerk.id c) (users (db w'))
                  = Some u'
               /\ sync_world c email w'
               /\ sync_thread c email q w'
               /\ (forall u0,
                      Prisma.find_user_by_clerkId (Clerk.id c) (users (db w0))
                      = Some u0 -> db w' = db w0)).
  { intros w0 Hw0 Hq0. rewrite run_step.
    destruct (sync_step_keeps c email (users_sync_awaiting c email) q w0 Hemail
                Hw0 (or_intror (or_introl eq_refl)) Hq0)
      as (Hw1 & _ & Hq1 & Hdb1).
    destruct (step_users_sync_awaiting w0 c email Hw0)
      as (u & w1 & Hstep & Hfind & _).
    rewrite Hstep in *. cbn [fst snd] in *.
    exists u, w1. cbn. auto. }
  destruct Hp as [-> | [-> | (u & -> & Hu)]].
  - rewrite run_step.
    destruct Hw as (Hclerk & Hrest).
    rewrite (step_users_sync_start w c email Hclerk Hemail). cbn [fst snd].
    apply Hwaiting; [split; assumption | exact Hq].
  - apply Hwaiting; assumption.
  - destruct (Hdone u w Hu Hw Hq) as (u' & w' & H1 & H2 & H3 & H4 & H5).
    exists u', w'. auto 6.
Qed.

(** X20: the sync of [users.ts] is safe when two first-time requests of
    the same identity are in flight together, the upsert being one
    database operation: however their awaited steps interleave, when no
    persistence call fails both requests return the same user row and
    the table holds exactly one row of the identity. *)
Theorem users_sync_any_interleaving (schedule : list bool) (w : World)
  (c : Clerk.User) (email : string) :
  clerk w = Some c ->
  Users.first_email c = Ok email ->
  faults w = [] ->
  Prisma.find_user_by_clerkId (Clerk.id c) (users (db w)) = None ->
  exists u w',
    interleave schedule Users.ensureUserExists Users.ensureUserExists w
    = (Ok (Some u), Ok (Some u), w')
    /\ Prisma.find_user_by_clerkId (Clerk.id c) (users (db w')) = Some u
    /\ rows_of (Clerk.id c) (users (db w')) = 1%nat.
Proof.
  intros Hclerk Hemail Hfaults Hnew.
  assert (Hgen : forall p q w0,
             sync_world c email w0 ->
             sync_thread c email p w0 -> sync_thread c email q w0 ->
             exists u w',
               interleave schedule p q w0 = (Ok (Some u), Ok (Some u), w')
               /\ Prisma.find_user_by_clerkId (Clerk.id c) (users (db w'))
                  = Some u
               /\ rows_of (Clerk.id c) (users (db w')) = 1%nat).
  { induction schedule as [| [|] schedule IH]; intros p q w0 Hw0 Hp Hq.
    - cbn [interleave].
      destruct (sync_thread_runs c email p q w0 Hemail Hw0 Hp Hq)
        as (u1 & w1 & -> & Hfind1 & Hw1 & Hq1 & _).
      destruct (sync_thread_runs c email q q w1 Hemail Hw1 Hq1 Hq1)
        as (u2 & w2 & -> & Hfind2 & Hw2 & _ & Hdb).
      rewrite (Hdb u1 Hfind1) in Hfind2. rewrite Hfind1 in Hfind2.
      injection Hfind2 as <-.
      exists u1, w2. split; [reflexivity |].
      rewrite (Hdb u1 Hfind1). split; [exact Hfind1 |].
      destruct Hw1 as (_ & _ & Hrow). rewrite Hfind1 in Hrow. apply Hrow.
    - cbn [interleave].
      destruct (sync_step_keeps c email p q w0 Hemail Hw0 Hp Hq)
        as (Hw1 & Hp1 & Hq1 & _).
      destruct (step p w0) as [p' w1]. cbn [fst snd] in *.
      apply IH; assumption.
    - cbn [interleave].
      destruct (sync_step_keeps c email q p w0 Hemail Hw0 Hq Hp)
        as (Hw1 & Hq1 & Hp1 & _).
      destruct (step q w0) as [q' w1]. cbn [fst snd] in *.
      apply IH; assumption. }
  apply Hgen.
  - unfold sync_world. rewrite Hnew. auto.
  - left. reflexivity.
  - left. reflexivity.
Qed.

(** X20, witness: Ada's first visit, through two requests that take
    turns. *)
Lemma users_sync_any_interleaving_ada :
  exists u w',
    interleave [true; false; false; true] Users.ensureUserExists
      Users.ensureUserExists Scenes.first_visit
    = (Ok (Some u), Ok (Some u), w')
    /\ rows_of "user_ada" (users (db w')) = 1%nat.
Proof.
  destruct (users_sync_any_interleaving [true; false; false; true]
              Scenes.first_visit Demo.ada "ada@example.org"
              eq_refl eq_refl eq_refl eq_refl)
    as (u & w' & Hrun & _ & Hrows).
  exists u, w'. auto.
Defined.
